(** * rs24: the training loops of [2_Intro_Train.ipynb]

    A shallow embedding of the notebook's Python cells: the single-GPU loop
    ([train_loop_torch]) and the Ray Train loop ([train_loop_ray_train]),
    with the helpers they call.  The notebook is glue code over PyTorch,
    torchmetrics, the [csv] module, the file system and Ray Train; the
    numerics of those libraries are kept abstract (class [Torch]) while
    everything the notebook itself decides (call order, what is written
    where, who writes a checkpoint, which exception comes out) is explicit:

    - Python ints are [Z], floats are the opaque [Scalar];
    - a Python dict whose order matters ([metrics]) is an association list,
      a dict used as a map ([config], a state dict) is a [gmap];
    - effects are a state-and-exception monad [M] over a [World] holding
      the file system (the dataset directory [./data] apart from the other
      files), the random state, the worker's Ray context, the tensors that
      rank 0 broadcasts to the workers, what was handed to
      [ray.train.report], and a chronological [trace] of the library calls
      made;
    - library calls can fail for reasons of the environment (no GPU, disk
      full, download error): the [faults] schedule of the world decides
      which of the coming calls raises what; a call that writes as it goes
      ([torch.save], the download of the dataset) leaves behind what it had
      written when it fails. *)

From stdpp Require Import gmap strings list fin_maps pretty.

Open Scope string_scope.
Open Scope list_scope.
Open Scope Z_scope.

(** ** Tensors and the ResNet module, over any tensor storage [D] *)

Record Tensor (D : Type) := mkTensor { shape : list Z; data : D }.
Arguments mkTensor {D} _ _.
Arguments shape {D} _.
Arguments data {D} _.

(** [torch.nn.Conv2d(in_channels, out_channels, kernel_size, stride,
    padding, bias)]: the hyper-parameters; the weight lives in the module's
    tensors under ["conv1.weight"]. *)
Record Conv2d := mkConv2d {
  in_channels : Z;
  out_channels : Z;
  kernel_size : Z * Z;
  stride : Z * Z;
  padding : Z * Z;
  bias : bool
}.

Record Linear := mkLinear { in_features : Z; out_features : Z }.

(** A torchvision ResNet as the notebook uses it: the first convolution,
    the final classifier, the train/eval flag, and the named tensors that
    [state_dict()] returns. *)
Record ResNet (D : Type) := mkResNet {
  conv1 : Conv2d;
  fc : Linear;
  training : bool;
  tensors : gmap string (Tensor D)
}.
Arguments mkResNet {D} _ _ _ _.
Arguments conv1 {D} _.
Arguments fc {D} _.
Arguments training {D} _.
Arguments tensors {D} _.

(** ** The numerics of torch and torchmetrics, kept abstract *)

Class Torch := {
  Scalar : Type;                      (* a Python float, as [.item()] gives it *)
  repr_float : Scalar → string;       (* [str] of a float *)
  TData : Type;                       (* the storage of a tensor *)
  Image : Type;
  Label : Type;
  Logits : Type;                      (* model outputs, with their autograd graph *)
  LossT : Type;                       (* the loss tensor *)
  Grads : Type;
  OptState : Type;                    (* Adam's moments and step count *)
  MetricState : Type;                 (* torchmetrics.Accuracy's counters *)
  RNG : Type;                         (* torch's global random state *)
  rand_nat : RNG → nat;
  rng_next : RNG → RNG;
  rng_of_seed : Z → RNG;
  (* initial values of the tensor of that name and shape *)
  init_data : RNG → string → list Z → TData;
  (* names and shapes of the tensors of torchvision's resnet18 other than
     conv1.weight, fc.weight and fc.bias *)
  resnet18_layers : list (string * list Z);
  forward : ResNet TData → list Image → Logits;
  (* batch-norm running statistics after a forward pass in training mode *)
  bn_stats : ResNet TData → list Image → string → TData → TData;
  cross_entropy : Logits → list Label → LossT;
  item : LossT → Scalar;
  backward : LossT → option Grads → Grads;
  adam_init : ResNet TData → OptState;
  adam_update : OptState → Grads → string → TData → TData;
  adam_next : OptState → Grads → OptState;
  acc_init : Z → MetricState;
  acc_update : MetricState → Logits → list Label → MetricState;
  acc_compute : MetricState → Scalar
}.

(** ** Python exceptions *)

(** A path, as its parts ([pathlib.Path.parts]). *)
Abbreviation Path := (list string).

Inductive Exn :=
  | UnboundLocalError (var : string)
  | KeyError (key : string)
  | ZeroDivisionError
  | ValueError (msg : string)
  | FileNotFoundError (p : Path)
  | FileExistsError (p : Path)
  | NotADirectoryError (p : Path)
  | IsADirectoryError (p : Path)
  (* what [torch.load] raises on bytes that are not one saved state dict:
     [pickle.UnpicklingError], [IndexError], [EOFError], the [RuntimeError]
     of its archive reader, ...; which of them depends on the bytes *)
  | LoadError (p : Path)
  | RuntimeError (msg : string)
  | AttributeError (name : string)
  (* whatever a library raises for reasons of the environment *)
  | LibraryError (what : string).

Global Instance Exn_eq_dec : EqDecision Exn.
Proof. solve_decision. Defined.

Inductive result (A : Type) :=
  | Ok (a : A)
  | Raise (e : Exn).
Arguments Ok {A} _.
Arguments Raise {A} _.

(** ** The Ray Train context of a worker process *)

Record TrainContext := mkContext {
  world_rank : Z;
  world_size : Z;
  local_rank : Z;
  local_world_size : Z;
  node_rank : Z
}.

(** The accessors [ray.train.get_context()] offers. *)
Inductive CtxQuery :=
  | GetWorldRank | GetWorldSize | GetLocalRank | GetLocalWorldSize | GetNodeRank.

Global Instance CtxQuery_eq_dec : EqDecision CtxQuery.
Proof. solve_decision. Defined.

Definition ctx_get (c : TrainContext) (q : CtxQuery) : Z :=
  match q with
  | GetWorldRank => world_rank c
  | GetWorldSize => world_size c
  | GetLocalRank => local_rank c
  | GetLocalWorldSize => local_world_size c
  | GetNodeRank => node_rank c
  end.

Abbreviation tensor := (Tensor TData).
Abbreviation resnet := (ResNet TData).
Abbreviation state_dict_t := (gmap string (Tensor TData)).

(** A dataset item: an image and its label. *)
Abbreviation Sample := (Image * Label)%type.

(** ** Values the notebook passes around *)

(** A value of the [metrics] dict. *)
Inductive Cell `{T : Torch} :=
  | CFloat (x : Scalar)
  | CInt (n : Z).

(** [metrics]: a dict in insertion order. *)
Abbreviation Metrics := (list (string * Cell)).

(** ** Dates and times *)

(** [datetime.datetime], down to the second. *)
Record datetime := mkDatetime {
  year : Z;
  month : Z;
  day : Z;
  hour : Z;
  minute : Z;
  second : Z
}.

(** What [datetime.now] can return, as far as [strftime] reads it: a year
    of four digits, and every other field in its range. *)
Definition valid_datetime (t : datetime) : Prop :=
  1000 ≤ year t ≤ 9999 ∧ 1 ≤ month t ≤ 12 ∧ 1 ≤ day t ≤ 31 ∧
  0 ≤ hour t ≤ 23 ∧ 0 ≤ minute t ≤ 59 ∧ 0 ≤ second t ≤ 59.

(** [%m], [%d], [%H], [%M] and [%S]: two digits, with a leading zero. *)
Definition two_digits (n : Z) : string :=
  if bool_decide (n < 10) then "0" +:+ pretty n else pretty n.

(** [t.strftime("%Y-%m-%d_%H-%M-%S")] *)
Definition strftime (t : datetime) : string :=
  pretty (year t) +:+ "-" +:+ two_digits (month t) +:+ "-" +:+ two_digits (day t)
  +:+ "_" +:+ two_digits (hour t) +:+ "-" +:+ two_digits (minute t)
  +:+ "-" +:+ two_digits (second t).

Section Notebook.
Context `{T : Torch}.

Definition values (m : Metrics) : list Cell := m.*2.

(** What one write call put into a file. *)
Inductive Chunk :=
  | Text (s : string)
  | Pickle (sd : state_dict_t)
  (* what a write that failed on its way left behind *)
  | Partial.

Inductive Node :=
  | Dir
  | File (content : list Chunk).

(** ** The trace of library calls *)

Inductive Event :=
  | EvCrossEntropyLoss
  | EvResnet18 (num_classes : Z)
  | EvConv2d (c : Conv2d)
  | EvModelTo (device : string)
  | EvPrepareModel
  | EvAdam
  | EvAccuracy (num_classes : Z)
  | EvMetricTo
  | EvMNIST
  | EvDataLoader (batch_size : Z)
  | EvPrepareDataLoader
  | EvSetEpoch (epoch : Z)
  | EvIter
  | EvNextBatch
  | EvBatchTo (device : string)
  | EvForward
  | EvCriterion
  | EvZeroGrad
  | EvBackward
  | EvOptStep
  | EvMetricUpdate
  | EvMetricCompute
  | EvItem
  | EvPrint (m : Metrics)
  | EvMetricReset
  | EvMkdir (p : Path)
  | EvOpenAppend (p : Path)
  | EvWriteRow (p : Path) (row : string)
  | EvTorchSave (p : Path)
  | EvTorchLoad (p : Path)
  | EvLoadStateDict
  | EvEval
  | EvTemporaryDirectory (p : Path)
  | EvCheckpointFromDirectory (p : Path)
  | EvReport (m : Metrics) (checkpoint : option Path)
  | EvCtx (q : CtxQuery)
  | EvRaise (e : Exn).

(** ** The world a worker process runs in *)

Record World := mkWorld {
  fs : gmap Path Node;                       (* the files, those of [./data] apart *)
  data_dir : gset Path;                      (* the entries of [./data], by their paths below it *)
  rng : RNG;
  mnist : list Sample;                       (* what [./data] holds or downloads *)
  context : TrainContext;
  rank0_data : string → TData;               (* the tensors of the model of rank 0, as
                                                [DistributedDataParallel] broadcasts them *)
  reported : list (Metrics * option (Path * gmap Path Node));
                                             (* what [ray.train.report] was given: Ray Train
                                                keeps it in its own storage, not in [fs] *)
  tmp_count : nat;
  faults : list (option Exn);
  trace : list Event
}.

Definition set_fs (f : gmap Path Node) (w : World) : World :=
  mkWorld f (data_dir w) (rng w) (mnist w) (context w) (rank0_data w) (reported w)
          (tmp_count w) (faults w) (trace w).
Definition set_data_dir (d : gset Path) (w : World) : World :=
  mkWorld (fs w) d (rng w) (mnist w) (context w) (rank0_data w) (reported w)
          (tmp_count w) (faults w) (trace w).
Definition set_rng (g : RNG) (w : World) : World :=
  mkWorld (fs w) (data_dir w) g (mnist w) (context w) (rank0_data w) (reported w)
          (tmp_count w) (faults w) (trace w).
Definition set_context (c : TrainContext) (w : World) : World :=
  mkWorld (fs w) (data_dir w) (rng w) (mnist w) c (rank0_data w) (reported w)
          (tmp_count w) (faults w) (trace w).
Definition set_reported (r : list (Metrics * option (Path * gmap Path Node))) (w : World) : World :=
  mkWorld (fs w) (data_dir w) (rng w) (mnist w) (context w) (rank0_data w) r
          (tmp_count w) (faults w) (trace w).
Definition set_tmp_count (n : nat) (w : World) : World :=
  mkWorld (fs w) (data_dir w) (rng w) (mnist w) (context w) (rank0_data w) (reported w)
          n (faults w) (trace w).
Definition set_faults (fl : list (option Exn)) (w : World) : World :=
  mkWorld (fs w) (data_dir w) (rng w) (mnist w) (context w) (rank0_data w) (reported w)
          (tmp_count w) fl (trace w).
Definition log (ev : Event) (w : World) : World :=
  mkWorld (fs w) (data_dir w) (rng w) (mnist w) (context w) (rank0_data w) (reported w)
          (tmp_count w) (faults w) (trace w ++ [ev]).

(** ** The monad: state and exceptions *)

Definition M (A : Type) : Type := World → result A * World.

Definition ret {A} (a : A) : M A := λ w, (Ok a, w).

Definition bind {A B} (m : M A) (k : A → M B) : M B :=
  λ w, match m w with
       | (Ok a, w') => k a w'
       | (Raise e, w') => (Raise e, w')
       end.

Global Instance M_ret : MRet M := @ret.
Global Instance M_bind : MBind M := λ A B k m, bind m k.

(** [raise e]: the exception leaves a mark in the trace. *)
Definition raise {A} (e : Exn) : M A := λ w, (Raise e, log (EvRaise e) w).

(** The entry of a library call: it is logged, and the environment may
    make it fail. *)
Definition lib (ev : Event) : M unit :=
  λ w, let w1 := log ev w in
       match faults w1 with
       | [] => (Ok tt, w1)
       | None :: fl => (Ok tt, set_faults fl w1)
       | Some e :: fl => raise e (set_faults fl w1)
       end.

(** The entry of a library call that writes as it goes: when the
    environment makes it fail, [partial] is what the call has done by
    then. *)
Definition lib_writing (ev : Event) (partial : World → World) : M unit :=
  λ w, let w1 := log ev w in
       match faults w1 with
       | [] => (Ok tt, w1)
       | None :: fl => (Ok tt, set_faults fl w1)
       | Some e :: fl => raise e (partial (set_faults fl w1))
       end.

Definition get {A} (f : World → A) : M A := λ w, (Ok (f w), w).
Definition modify (f : World → World) : M unit := λ w, (Ok tt, f w).

(** [for x in xs: st = body x st] *)
Fixpoint for_each {A S} (xs : list A) (body : A → S → M S) (st : S) : M S :=
  match xs with
  | [] => mret st
  | x :: xs' => st' ← body x st; for_each xs' body st'
  end.

(** [range(n)] *)
Definition range (n : Z) : list Z := seqZ 0 n.

(** ** The file system calls *)

(** [os.path.join(p, name)] *)
Definition os_path_join (p : Path) (name : string) : Path := p ++ [name].

Definition parent (p : Path) : Path := take (length p - 1)%nat p.

(** Walking down from the root to the directory a path lies in: the first
    part that is missing, or is a regular file, is why the path [p] cannot
    be reached. *)
Fixpoint resolve (done : Path) (rest : list string) (f : gmap Path Node) (p : Path)
  : option Exn :=
  match rest with
  | [] => None
  | c :: rest' =>
      let q := done ++ [c] in
      match f !! q with
      | Some Dir => resolve q rest' f p
      | Some (File _) => Some (NotADirectoryError p)
      | None => Some (FileNotFoundError p)
      end
  end.

Definition path_error (f : gmap Path Node) (p : Path) : option Exn :=
  resolve [] (parent p) f p.

(** Why a file cannot be created or opened for writing at [p]. *)
Definition write_error (f : gmap Path Node) (p : Path) : option Exn :=
  match path_error f p with
  | Some e => Some e
  | None =>
      match f !! p with
      | Some Dir => Some (IsADirectoryError p)
      | _ => None
      end
  end.

(** [Path(p).mkdir(parents=True, exist_ok=True)], walking down from the
    root: missing directories are created, existing ones are kept, a file
    in the way is an error. *)
Fixpoint mkdir_from (done : Path) (rest : list string) (f : gmap Path Node)
  : result (gmap Path Node) :=
  match rest with
  | [] => Ok f
  | c :: rest' =>
      let q := done ++ [c] in
      match f !! q with
      | Some Dir => mkdir_from q rest' f
      | Some (File _) =>
          Raise (match rest' with [] => FileExistsError q | _ => NotADirectoryError q end)
      | None => mkdir_from q rest' (<[q := Dir]> f)
      end
  end.

Definition Path_mkdir (p : Path) : M unit :=
  lib (EvMkdir p);;
  f ← get fs;
  match mkdir_from [] p f with
  | Ok f' => modify (set_fs f')
  | Raise e => raise e
  end.

(** [open(p, "a")]: the file is created when missing, kept when there. *)
Definition open_append (p : Path) : M unit :=
  lib (EvOpenAppend p);;
  f ← get fs;
  match write_error f p with
  | Some e => raise e
  | None =>
      match f !! p with
      | None => modify (set_fs (<[p := File []]> f))
      | Some _ => mret tt
      end
  end.

Definition str_cell (c : Cell) : string :=
  match c with
  | CFloat x => repr_float x
  | CInt n => pretty n
  end.

Definition crlf : string := String (Ascii.ascii_of_nat 13) (String (Ascii.ascii_of_nat 10) EmptyString).

(** The line [csv.writer] writes for a row of numbers. *)
Definition csv_line (cells : list Cell) : string :=
  String.concat "," (str_cell <$> cells) +:+ crlf.

(** [csv.writer(f).writerow(cells)] on the file opened at [p]. *)
Definition writerow (p : Path) (cells : list Cell) : M unit :=
  lib (EvWriteRow p (csv_line cells));;
  f ← get fs;
  match f !! p with
  | Some (File c) => modify (set_fs (<[p := File (c ++ [Text (csv_line cells)])]> f))
  | _ => raise (ValueError "I/O operation on closed file")
  end.

(** What a [torch.save] to [p] that fails on its way has done: the file
    was opened for writing, which emptied it, and only a part was written. *)
Definition torch_save_partial (p : Path) (w : World) : World :=
  match write_error (fs w) p with
  | Some _ => w
  | None => set_fs (<[p := File [Partial]]> (fs w)) w
  end.

(** [torch.save(sd, p)]: whatever [p] held is replaced. *)
Definition torch_save (sd : state_dict_t) (p : Path) : M unit :=
  lib_writing (EvTorchSave p) (torch_save_partial p);;
  f ← get fs;
  match write_error f p with
  | Some e => raise e
  | None => modify (set_fs (<[p := File [Pickle sd]]> f))
  end.

(** [torch.load(p, map_location=..., weights_only=True)] *)
Definition torch_load (p : Path) : M state_dict_t :=
  lib (EvTorchLoad p);;
  f ← get fs;
  match path_error f p with
  | Some e => raise e
  | None =>
      match f !! p with
      | Some (File [Pickle sd]) => mret sd
      | Some (File _) => raise (LoadError p)
      | Some Dir => raise (IsADirectoryError p)
      | None => raise (FileNotFoundError p)
      end
  end.

Definition tmp_path (n : nat) : Path := ["tmp"; "tmp" +:+ pretty n].

Definition rmtree (d : Path) (f : gmap Path Node) : gmap Path Node :=
  filter (λ kv, ¬ d `prefix_of` kv.1) f.

(** Leaving a [with] block over the directory [d]: it is removed whether
    the block returned or raised, and the outcome is passed on. *)
Definition cleanup {A} (d : Path) (block : M A) : M A :=
  λ w, let '(r, w') := block w in (r, set_fs (rmtree d (fs w')) w').

(** [with tempfile.TemporaryDirectory() as d: body] *)
Definition with_TemporaryDirectory {A} (body : Path → M A) : M A :=
  n ← get tmp_count;
  let d := tmp_path n in
  lib (EvTemporaryDirectory d);;
  modify (λ w, set_tmp_count (S n) (set_fs (<[d := Dir]> (<[["tmp"] := Dir]> (fs w))) w));;
  cleanup d (body d).

(** ** Ray Train calls *)

(** [ray.train.get_context().get_...()] *)
Definition ray_get_context (q : CtxQuery) : M Z :=
  lib (EvCtx q);;
  c ← get context;
  mret (ctx_get c q).

(** [ray.train.Checkpoint.from_directory(d)] *)
Definition Checkpoint_from_directory (d : Path) : M Path :=
  lib (EvCheckpointFromDirectory d);;
  mret d.

Definition dir_snapshot (d : Path) (f : gmap Path Node) : gmap Path Node :=
  filter (λ kv, d `prefix_of` kv.1) f.

(** [ray.train.report(metrics, checkpoint=...)]: the framework takes the
    metrics and, when there is a checkpoint, the files of its directory. *)
Definition ray_train_report (metrics : Metrics) (checkpoint : option Path) : M unit :=
  lib (EvReport metrics checkpoint);;
  f ← get fs;
  modify (λ w, set_reported
                 (reported w ++ [(metrics, (λ d, (d, dir_snapshot d f)) <$> checkpoint)]) w).

(** ** torch, torchvision and torchmetrics calls *)

Definition init_tensor (g : RNG) (name : string) (sh : list Z) : tensor :=
  mkTensor sh (init_data g name sh).

(** Draw from torch's global random state. *)
Definition draw_rng : M RNG :=
  g ← get rng;
  modify (set_rng (rng_next g));;
  mret g.

(** [torchvision.models.resnet18(num_classes=n)]: three input channels,
    a 512-wide classifier input. *)
Definition resnet18_init (num_classes : Z) (g : RNG) : resnet :=
  mkResNet (mkConv2d 3 64 (7, 7) (2, 2) (3, 3) false) (mkLinear 512 num_classes) true
    (<["conv1.weight" := init_tensor g "conv1.weight" [64; 3; 7; 7]]>
       (<["fc.weight" := init_tensor g "fc.weight" [num_classes; 512]]>
          (<["fc.bias" := init_tensor g "fc.bias" [num_classes]]>
             (list_to_map ((λ kv, (kv.1, init_tensor g kv.1 kv.2)) <$> resnet18_layers))))).

Definition resnet18 (num_classes : Z) : M resnet :=
  lib (EvResnet18 num_classes);;
  g ← draw_rng;
  mret (resnet18_init num_classes g).

(** A [torch.nn.Conv2d] layer: its hyper-parameters and fresh tensors. *)
Record Conv2dLayer := mkConv2dLayer {
  conv_cfg : Conv2d;
  conv_weight : tensor;
  conv_bias : option tensor
}.

Definition Conv2d_init (c : Conv2d) (g : RNG) : Conv2dLayer :=
  mkConv2dLayer c
    (init_tensor g "weight" [out_channels c; in_channels c; (kernel_size c).1; (kernel_size c).2])
    (if bias c then Some (init_tensor g "bias" [out_channels c]) else None).

Definition torch_nn_Conv2d (c : Conv2d) : M Conv2dLayer :=
  lib (EvConv2d c);;
  g ← draw_rng;
  mret (Conv2d_init c g).

(** [model.conv1 = layer] *)
Definition set_conv1 (layer : Conv2dLayer) (m : resnet) : resnet :=
  mkResNet (conv_cfg layer) (fc m) (training m)
    (match conv_bias layer with
     | Some b => <["conv1.bias" := b]>
     | None => delete "conv1.bias"
     end (<["conv1.weight" := conv_weight layer]> (tensors m))).

(** [model.state_dict()] *)
Definition state_dict (m : resnet) : state_dict_t := tensors m.

(** [model.load_state_dict(sd)], strict: the names and the shapes have to
    be the model's. *)
Definition load_state_dict (m : resnet) (sd : state_dict_t) : M resnet :=
  lib EvLoadStateDict;;
  if bool_decide (shape <$> sd = shape <$> tensors m)
  then mret (mkResNet (conv1 m) (fc m) (training m) sd)
  else raise (RuntimeError "Error(s) in loading state_dict for ResNet").

(** [model.eval()] *)
Definition eval (m : resnet) : M resnet :=
  lib EvEval;;
  mret (mkResNet (conv1 m) (fc m) false (tensors m)).

(** The shape of [model(x)] for an input of shape [N, C, H, W], when the
    first convolution takes [C] channels. *)
Definition output_shape (m : resnet) (input : list Z) : option (list Z) :=
  match input, shape <$> tensors m !! "conv1.weight", shape <$> tensors m !! "fc.weight" with
  | [n; c; _; _], Some [_; c_in; _; _], Some [n_out; _] =>
      if bool_decide (c = c_in) then Some [n; n_out] else None
  | _, _, _ => None
  end.

(** In-place change of tensor values; names and shapes stay. *)
Definition map_data (f : string → TData → TData) (m : resnet) : resnet :=
  mkResNet (conv1 m) (fc m) (training m)
    (map_imap (λ k t, Some (mkTensor (shape t) (f k (data t)))) (tensors m)).

(** [model(images)] *)
Definition call_model (m : resnet) (images : list Image) : M (Logits * resnet) :=
  lib EvForward;;
  mret (forward m images, if training m then map_data (bn_stats m images) m else m).

(** [CrossEntropyLoss()(outputs, labels)] *)
Definition criterion (outputs : Logits) (labels : list Label) : M LossT :=
  lib EvCriterion;;
  mret (cross_entropy outputs labels).

(** [Adam(model.parameters(), lr=1e-5)] *)
Definition Adam (m : resnet) : M OptState :=
  lib EvAdam;;
  mret (adam_init m).

(** [torchmetrics.Accuracy(task="multiclass", num_classes=n)] *)
Record Metric := mkMetric { metric_classes : Z; metric_state : MetricState }.

Definition Accuracy (num_classes : Z) : M Metric :=
  lib (EvAccuracy num_classes);;
  mret (mkMetric num_classes (acc_init num_classes)).

(** [tensor.item()] *)
Definition tensor_item (x : Scalar) : M Scalar :=
  lib EvItem;;
  mret x.

Inductive Sampler :=
  | SequentialSampler
  | RandomSampler
  | DistributedSampler (num_replicas rank epoch : Z).

Record DataLoader := mkDataLoader {
  dataset : list Sample;
  batch_size : Z;
  drop_last : bool;
  sampler : Sampler
}.

(** What the MNIST dataset is made of under its root: the directories,
    and in [MNIST/raw] the four archives and what is extracted from them. *)
Definition mnist_resources : list string :=
  ["train-images-idx3-ubyte"; "train-labels-idx1-ubyte";
   "t10k-images-idx3-ubyte"; "t10k-labels-idx1-ubyte"].

Definition mnist_dirs : gset Path := {[ ["MNIST"]; ["MNIST"; "raw"] ]}.

Definition mnist_extracted : gset Path :=
  list_to_set ((λ name, ["MNIST"; "raw"; name]) <$> mnist_resources).

Definition mnist_archives : gset Path :=
  list_to_set ((λ name, ["MNIST"; "raw"; name +:+ ".gz"]) <$> mnist_resources).

Definition mnist_files : gset Path := mnist_archives ∪ mnist_extracted.

(** [MNIST.download()] on the entries [d] of the root: nothing is done
    when the four extracted files are there; otherwise the directories are
    made, and the archives downloaded and extracted. *)
Definition mnist_download (d : gset Path) : gset Path :=
  if bool_decide (mnist_extracted ⊆ d) then d else d ∪ mnist_dirs ∪ mnist_files.

(** A download that fails has made the directories. *)
Definition mnist_download_failed (d : gset Path) : gset Path :=
  if bool_decide (mnist_extracted ⊆ d) then d else d ∪ mnist_dirs.

(** [MNIST(root="./data", train=True, download=True, transform=...)] *)
Definition MNIST : M (list Sample) :=
  lib_writing EvMNIST (λ w, set_data_dir (mnist_download_failed (data_dir w)) w);;
  modify (λ w, set_data_dir (mnist_download (data_dir w)) w);;
  get mnist.

(** [DataLoader(data, batch_size=..., shuffle=..., drop_last=...)] *)
Definition torch_DataLoader (data : list Sample) (batch_size : Z) (shuffle drop_last : bool)
  : M DataLoader :=
  lib (EvDataLoader batch_size);;
  if bool_decide (batch_size ≤ 0)%Z
  then raise (ValueError ("batch_size should be a positive integer value, but got batch_size="
                          +:+ pretty batch_size))
  else mret (mkDataLoader data batch_size drop_last
               (if shuffle then RandomSampler else SequentialSampler)).

(** A random order of [l], picking one of the remaining items at a time;
    [n] is the number of items left. *)
Fixpoint random_order {A} (n : nat) (g : RNG) (l : list A) : list A :=
  match n with
  | O => []
  | S n' =>
      let i := (rand_nat g `mod` length l)%nat in
      match l !! i with
      | Some x => x :: random_order n' (rng_next g) (delete i l)
      | None => []
      end
  end.

(** [l[skip::n]] *)
Fixpoint strided {A} (n skip : nat) (l : list A) : list A :=
  match l with
  | [] => []
  | x :: l' =>
      match skip with
      | O => x :: strided n (n - 1) l'
      | S k => strided n k l'
      end
  end.

(** The share of one replica under a [DistributedSampler]: the order is
    padded with its beginning to a multiple of [n], and the replica takes
    every [n]-th item from its rank. *)
Definition shard {A} (n rank : nat) (l : list A) : list A :=
  let total := ((length l + n - 1) `div` n * n)%nat in
  strided n rank (take total (mjoin (replicate (S n) l))).

(** [BatchSampler]: items are collected until a batch is full; what is
    left at the end is yielded only when [drop_last] is off. *)
Fixpoint batch_sampler {A} (bs : nat) (drop_last : bool) (batch : list A) (l : list A)
  : list (list A) :=
  match l with
  | [] =>
      match batch with
      | [] => []
      | _ => if drop_last then [] else [batch]
      end
  | x :: l' =>
      let batch' := batch ++ [x] in
      if decide (length batch' = bs)
      then batch' :: batch_sampler bs drop_last [] l'
      else batch_sampler bs drop_last batch' l'
  end.

(** [iter(data_loader)]: the batches of one pass. *)
Definition iter_batches (dl : DataLoader) : M (list (list Sample)) :=
  lib EvIter;;
  order ← match sampler dl with
          | SequentialSampler => mret (dataset dl)
          | RandomSampler =>
              g ← get rng;
              modify (set_rng (Nat.iter (length (dataset dl)) rng_next g));;
              mret (random_order (length (dataset dl)) g (dataset dl))
          | DistributedSampler n r e =>
              mret (shard (Z.to_nat n) (Z.to_nat r)
                      (random_order (length (dataset dl)) (rng_of_seed e) (dataset dl)))
          end;
  mret (batch_sampler (Z.to_nat (batch_size dl)) (drop_last dl) [] order).

(** [DistributedDataParallel(model)]; [.module] is the wrapped model. *)
Record DDP := mkDDP { module : resnet }.

(** What [prepare_model] returns: the model wrapped for data-parallel
    training, or the model as it was. *)
Inductive PreparedModel :=
  | Wrapped (ddp : DDP)
  | Unwrapped (m : resnet).

(** The network whose parameters are trained, wrapped or not. *)
Definition network (m : PreparedModel) : resnet :=
  match m with
  | Wrapped ddp => module ddp
  | Unwrapped m => m
  end.

(** [ray.train.torch.prepare_model(model)]: with more than one worker the
    model is wrapped in [DistributedDataParallel], whose constructor gives
    every worker the tensors of rank 0; with one worker the model comes
    back as it is. *)
Definition prepare_model (m : resnet) : M PreparedModel :=
  lib EvPrepareModel;;
  c ← get context;
  if bool_decide (1 < world_size c)
  then
    r0 ← get rank0_data;
    mret (Wrapped (mkDDP (if bool_decide (world_rank c = 0) then m
                          else map_data (λ name _, r0 name) m)))
  else mret (Unwrapped m).

(** [model.device]: an attribute of the [DistributedDataParallel] wrapper,
    which a plain [torch.nn.Module] does not have. *)
Definition model_device (m : PreparedModel) : M string :=
  match m with
  | Wrapped _ => mret "cuda"
  | Unwrapped _ => raise (AttributeError "device")
  end.

(** [ray.train.torch.prepare_data_loader(loader)]: with more than one
    worker the loader gets a [DistributedSampler] for this worker. *)
Definition prepare_data_loader (dl : DataLoader) : M DataLoader :=
  lib EvPrepareDataLoader;;
  c ← get context;
  if bool_decide (1 < world_size c)
  then mret (mkDataLoader (dataset dl) (batch_size dl) (drop_last dl)
               (DistributedSampler (world_size c) (world_rank c) 0))
  else mret dl.

(** [data_loader.sampler.set_epoch(epoch)] *)
Definition set_epoch (dl : DataLoader) (epoch : Z) : M DataLoader :=
  lib (EvSetEpoch epoch);;
  match sampler dl with
  | DistributedSampler n r _ =>
      mret (mkDataLoader (dataset dl) (batch_size dl) (drop_last dl) (DistributedSampler n r epoch))
  | _ => raise (AttributeError "set_epoch")
  end.

(** ** Python itself *)

(** Reading a local variable that may not have been assigned yet. *)
Definition local {A} (name : string) (v : option A) : M A :=
  match v with
  | Some a => mret a
  | None => raise (UnboundLocalError name)
  end.

(** [config[key]] *)
Definition getitem (config : gmap string Z) (key : string) : M Z :=
  match config !! key with
  | Some v => mret v
  | None => raise (KeyError key)
  end.

(** [a // b] *)
Definition floordiv (a b : Z) : M Z :=
  if bool_decide (b = 0) then raise ZeroDivisionError else mret (a `div` b).

(** [print(metrics)] *)
Definition print (metrics : Metrics) : M unit := lib (EvPrint metrics).

(** [optimizer.zero_grad()] *)
Definition zero_grad : M (option Grads) :=
  lib EvZeroGrad;;
  mret None.

(** [loss.backward()] *)
Definition loss_backward (l : LossT) (g : option Grads) : M Grads :=
  lib EvBackward;;
  mret (backward l g).

(** [optimizer.step()] *)
Definition optimizer_step (o : OptState) (g : Grads) (m : resnet) : M (OptState * resnet) :=
  lib EvOptStep;;
  mret (adam_next o g, map_data (adam_update o g) m).

(** [acc(outputs, labels)] *)
Definition metric_update (a : Metric) (outputs : Logits) (labels : list Label) : M Metric :=
  lib EvMetricUpdate;;
  mret (mkMetric (metric_classes a) (acc_update (metric_state a) outputs labels)).

(** [acc.compute()] *)
Definition metric_compute (a : Metric) : M Scalar :=
  lib EvMetricCompute;;
  mret (acc_compute (metric_state a)).

(** [acc.reset()] *)
Definition metric_reset (a : Metric) : M Metric :=
  lib EvMetricReset;;
  mret (mkMetric (metric_classes a) (acc_init (metric_classes a))).

(** * The notebook *)

(** The variables a training loop assigns; [loss] and [grad] start
    unassigned. *)
Record Locals := mkLocals {
  model : resnet;
  optimizer : OptState;
  grad : option Grads;
  acc : Metric;
  data_loader : DataLoader;
  loss : option LossT
}.

(** ** 1. Single GPU PyTorch *)

Definition build_resnet18 : M resnet :=
  m ← resnet18 10;
  layer ← torch_nn_Conv2d (mkConv2d 1 64 (7, 7) (2, 2) (3, 3) false);
  mret (set_conv1 layer m).

Definition load_model_torch : M resnet :=
  m ← build_resnet18;
  lib (EvModelTo "cuda");;
  mret m.

Definition data_loader_torch (batch_size : Z) : M DataLoader :=
  train_data ← MNIST;
  train_loader ← torch_DataLoader train_data batch_size true true;
  mret train_loader.

Definition report_metrics_torch (l : LossT) (accuracy : Scalar) (epoch : Z) : M Metrics :=
  lv ← tensor_item (item l);
  av ← tensor_item accuracy;
  let metrics := [("loss", CFloat lv); ("epoch", CInt epoch); ("accuracy", CFloat av)] in
  print metrics;;
  mret metrics.

Definition save_checkpoint_and_metrics_torch (metrics : Metrics) (m : resnet) (local_path : Path)
  : M unit :=
  (* Save the metrics *)
  let f := os_path_join local_path "metrics.csv" in
  open_append f;;
  writerow f (values metrics);;
  (* Save the model *)
  let checkpoint_path := os_path_join local_path "model.pt" in
  torch_save (state_dict m) checkpoint_path.

(** The body of [for images, labels in data_loader]. *)
Definition train_loop_torch_batch (batch : list Sample) (st : Locals) : M Locals :=
  lib EvNextBatch;;
  let images := batch.*1 in
  let labels := batch.*2 in
  (* Move the data to the GPU *)
  lib (EvBatchTo "cuda");;
  lib (EvBatchTo "cuda");;
  (* Forward pass *)
  '(outputs, m) ← call_model (model st) images;
  (* Compute the loss *)
  l ← criterion outputs labels;
  (* Backward pass *)
  g0 ← zero_grad;
  g ← loss_backward l g0;
  '(o, m) ← optimizer_step (optimizer st) g m;
  (* Update the metric *)
  a ← metric_update (acc st) outputs labels;
  mret (mkLocals m o (Some g) a (data_loader st) (Some l)).

(** The body of [for epoch in range(num_epochs)]. *)
Definition train_loop_torch_epoch (local_path : Path) (epoch : Z) (st : Locals) : M Locals :=
  batches ← iter_batches (data_loader st);
  st ← for_each batches train_loop_torch_batch st;
  (* Report the metrics *)
  l ← local "loss" (loss st);
  accuracy ← metric_compute (acc st);
  metrics ← report_metrics_torch l accuracy epoch;
  (* Reset the metric *)
  a ← metric_reset (acc st);
  (* Save the checkpoint and metrics *)
  Path_mkdir local_path;;
  save_checkpoint_and_metrics_torch metrics (model st) local_path;;
  mret (mkLocals (model st) (optimizer st) (grad st) a (data_loader st) (loss st)).

(** What [train_loop_torch] sets up before its loop. *)
Definition train_loop_torch_setup (batch_size : Z) : M Locals :=
  (* Model, Loss, Optimizer *)
  lib EvCrossEntropyLoss;;
  m ← load_model_torch;
  o ← Adam m;
  (* Initialize the metric *)
  a ← Accuracy 10;
  lib EvMetricTo;;
  (* Load the data loader *)
  dl ← data_loader_torch batch_size;
  mret (mkLocals m o None a dl None).

(** [train_loop_torch], with the variables as they are at the end. *)
Definition train_loop_torch_locals (num_epochs batch_size : Z) (local_path : Path) : M Locals :=
  st ← train_loop_torch_setup batch_size;
  for_each (range num_epochs) (train_loop_torch_epoch local_path) st.

Definition train_loop_torch (num_epochs batch_size : Z) (local_path : Path) : M unit :=
  train_loop_torch_locals num_epochs batch_size local_path;;
  mret tt.

(** The cell that runs the single-GPU loop; [now] is what
    [datetime.datetime.now(datetime.UTC)] returns.
    [f"/mnt/cluster_storage/single_gpu_mnist/torch_{timestamp}/"], as its
    parts: *)
Definition cell_local_path (now : datetime) : Path :=
  let timestamp := strftime now in
  ["mnt"; "cluster_storage"; "single_gpu_mnist"; "torch_" +:+ timestamp].

(** [train_loop_torch(num_epochs=2, local_path=local_path)], the batch
    size being the default of 128. *)
Definition cell_train_loop_torch (now : datetime) : M unit :=
  let local_path := cell_local_path now in
  train_loop_torch 2 128 local_path.

(** ** 2. to 5. Ray Train *)

Definition load_model_ray_train : M PreparedModel :=
  m ← resnet18 10;
  layer ← torch_nn_Conv2d (mkConv2d 1 64 (7, 7) (2, 2) (3, 3) false);
  prepare_model (set_conv1 layer m).

Definition data_loader_ray_train (batch_size : Z) : M DataLoader :=
  train_data ← MNIST;
  train_loader ← torch_DataLoader train_data batch_size true true;
  (* Add DistributedSampler to the DataLoader *)
  prepare_data_loader train_loader.

Definition print_metrics_ray_train (l : LossT) (accuracy : Scalar) (epoch : Z) : M Metrics :=
  lv ← tensor_item (item l);
  av ← tensor_item accuracy;
  let metrics := [("loss", CFloat lv); ("accuracy", CFloat av); ("epoch", CInt epoch)] in
  rank ← ray_get_context GetWorldRank;
  (if bool_decide (rank = 0) then print metrics else mret tt);;
  mret metrics.

(** The cell that first defines [save_checkpoint_and_metrics_ray_train]:
    every worker saves and attaches a checkpoint. *)
Definition save_checkpoint_and_metrics_ray_train_first (m : DDP) (metrics : Metrics) : M unit :=
  with_TemporaryDirectory (λ temp_checkpoint_dir,
    torch_save (state_dict (module m)) (os_path_join temp_checkpoint_dir "model.pt");;
    checkpoint ← Checkpoint_from_directory temp_checkpoint_dir;
    ray_train_report metrics (Some checkpoint)).

(** The next cell defines it again; this is what the name is bound to
    when the training loop runs. *)
Definition save_checkpoint_and_metrics_ray_train (m : DDP) (metrics : Metrics) : M unit :=
  with_TemporaryDirectory (λ temp_checkpoint_dir,
    rank ← ray_get_context GetWorldRank;
    checkpoint ← (if bool_decide (rank = 0)
                  then torch_save (state_dict (module m))
                                  (os_path_join temp_checkpoint_dir "model.pt");;
                       c ← Checkpoint_from_directory temp_checkpoint_dir;
                       mret (Some c)
                  else mret None);
    ray_train_report metrics checkpoint).

Definition train_loop_ray_train_batch (batch : list Sample) (st : Locals) : M Locals :=
  lib EvNextBatch;;
  let images := batch.*1 in
  let labels := batch.*2 in
  '(outputs, m) ← call_model (model st) images;
  l ← criterion outputs labels;
  g0 ← zero_grad;
  g ← loss_backward l g0;
  '(o, m) ← optimizer_step (optimizer st) g m;
  a ← metric_update (acc st) outputs labels;
  mret (mkLocals m o (Some g) a (data_loader st) (Some l)).

(** The body of [for epoch in range(config["num_epochs"])]; [save] is
    what the global name [save_checkpoint_and_metrics_ray_train] is bound
    to. *)
Definition train_loop_ray_train_epoch (save : DDP → Metrics → M unit) (epoch : Z) (st : Locals)
  : M Locals :=
  dl ← set_epoch (data_loader st) epoch;
  batches ← iter_batches dl;
  st ← for_each batches train_loop_ray_train_batch st;
  l ← local "loss" (loss st);
  accuracy ← metric_compute (acc st);
  metrics ← print_metrics_ray_train l accuracy epoch;
  save (mkDDP (model st)) metrics;;
  a ← metric_reset (acc st);
  mret (mkLocals (model st) (optimizer st) (grad st) a dl (loss st)).

Definition train_loop_ray_train_setup (config : gmap string Z) : M Locals :=
  lib EvCrossEntropyLoss;;
  m ← load_model_ray_train;
  o ← Adam (network m);
  (* Calculate the batch size for each worker *)
  global_batch_size ← getitem config "global_batch_size";
  ws ← ray_get_context GetWorldSize;
  batch_size ← floordiv global_batch_size ws;
  dl ← data_loader_ray_train batch_size;
  a ← Accuracy 10;
  (* [.to(model.device)] *)
  device ← model_device m;
  lib EvMetricTo;;
  mret (mkLocals (network m) o None a dl None).

Definition train_loop_ray_train_with (save : DDP → Metrics → M unit) (config : gmap string Z)
  : M Locals :=
  st ← train_loop_ray_train_setup config;
  num_epochs ← getitem config "num_epochs";
  for_each (range num_epochs) (train_loop_ray_train_epoch save) st.

Definition train_loop_ray_train (config : gmap string Z) : M unit :=
  train_loop_ray_train_with save_checkpoint_and_metrics_ray_train config;;
  mret tt.

(** [TorchTrainer(train_loop, scaling_config=ScalingConfig(num_workers=n),
    train_loop_config=config).fit()]: every worker process runs the loop
    in its own world, with its rank and the world size in its context. *)
Definition worker_world (num_workers rank : Z) (w : World) : World :=
  set_context (mkContext rank num_workers (local_rank (context w))
                 (local_world_size (context w)) (node_rank (context w))) w.

Definition TorchTrainer_fit {A} (train_loop : gmap string Z → M A) (config : gmap string Z)
    (num_workers : Z) (worlds : Z → World) : list (result A * World) :=
  (λ rank, train_loop config (worker_world num_workers rank (worlds rank))) <$> seqZ 0 num_workers.

(** ** 6. Loading the checkpoint back *)

(** The cell under "take the latest checkpoint and load it", for the
    directory [ckpt.as_directory()] gives. *)
Definition reload_checkpoint (ckpt_dir : Path) : M resnet :=
  let model_path := os_path_join ckpt_dir "model.pt" in
  loaded_model ← build_resnet18;
  sd ← torch_load model_path;
  loaded_model ← load_state_dict loaded_model sd;
  eval loaded_model.

(** [result.checkpoint] after [trainer.fit()]: the checkpoint of the last
    report that had one; [None] when there was none. *)
Definition Result_checkpoint (reports : list (Metrics * option (Path * gmap Path Node)))
  : option (Path * gmap Path Node) :=
  last (omap snd reports).

(** The cell under "take the latest checkpoint and load it":
    [ckpt.as_directory()] puts the files of the checkpoint in place under
    its directory, and the model is loaded from there; [ckpt] being [None],
    the attribute access fails. *)
Definition load_latest_checkpoint (reports : list (Metrics * option (Path * gmap Path Node)))
  : M resnet :=
  match Result_checkpoint reports with
  | Some (ckpt_dir, files) =>
      modify (λ w, set_fs (files ∪ fs w) w);;
      reload_checkpoint ckpt_dir
  | None => raise (AttributeError "as_directory")
  end.

End Notebook.

(** * A small instance of the numerics, to run the notebook on *)

Module Toy.

(** Tensors hold one integer; images and labels are integers; the loss of a
    batch is the sum of its images, the metric counts samples. *)
#[export] Instance toy_torch : Torch := {|
  Scalar := Z;
  repr_float := pretty;
  TData := Z;
  Image := Z;
  Label := Z;
  Logits := list Z;
  LossT := Z;
  Grads := Z;
  OptState := Z;
  MetricState := Z;
  RNG := nat;
  rand_nat := λ g, g;
  rng_next := S;
  rng_of_seed := Z.to_nat;
  init_data := λ _ _ _, 0;
  resnet18_layers := [("bn1.weight", [64]); ("bn1.bias", [64])];
  forward := λ m images, images;
  bn_stats := λ _ _ _ d, d;
  cross_entropy := λ outputs labels, foldr Z.add 0 outputs;
  item := λ l, l;
  backward := λ l _, l;
  adam_init := λ _, 0;
  adam_update := λ _ g _ d, d + g;
  adam_next := λ o _, o + 1;
  acc_init := λ _, 0;
  acc_update := λ s outputs _, s + Z.of_nat (length outputs);
  acc_compute := λ s, s
|}.

(** A worker's world: its files, its dataset and what the environment
    will do to its library calls. *)
Definition world (f : gmap Path Node) (data : list (Z * Z)) (fl : list (option Exn)) : World :=
  @mkWorld toy_torch f ∅ 0%nat data (mkContext 0 1 0 1 0) (λ _, 0) [] 0%nat fl [].

Definition samples (n : nat) : list (Z * Z) := (λ i, (Z.of_nat i, 0)) <$> seq 1 n.

Definition metrics0 : Metrics :=
  [("loss", @CFloat toy_torch 6); ("epoch", @CInt toy_torch 0);
   ("accuracy", @CFloat toy_torch 4)].

(** A run directory that is there and empty. *)
Definition run_dir : gmap Path Node := <[ ["run"] := Dir ]> ∅.

End Toy.

(** * Properties *)

Section Outcome.
Context `{T : Torch}.

(** ** What a run leaves behind when nothing catches an exception *)

Definition is_raise (ev : Event) : bool :=
  match ev with EvRaise _ => true | _ => false end.

(** No exception was raised along [t]. *)
Definition quiet (t : list Event) : Prop := Forall (λ ev, is_raise ev = false) t.

(** The environment let every call of [c] through. *)
Definition calm (c : list (option Exn)) : Prop := Forall (λ x, x = None) c.

(** How a run that made the calls [t] and used up the schedule [c] may
    end: it returns and nothing was raised; or the last call failed in the
    environment with [e], or the code raised [e] itself, and [e] is what
    comes out, with nothing done after it. *)
Inductive outcome {A} : result A → list Event → list (option Exn) → Prop :=
  | outcome_return a t c : quiet t → calm c → outcome (Ok a) t c
  | outcome_fault e t c :
      quiet t → calm c → outcome (Raise e) (t ++ [EvRaise e]) (c ++ [Some e])
  | outcome_raise e t c :
      quiet t → calm c → outcome (Raise e) (t ++ [EvRaise e]) c.

Definition unhandled {A} (m : M A) : Prop :=
  ∀ w, ∃ t c,
    trace (m w).2 = trace w ++ t ∧ faults w = c ++ faults (m w).2 ∧ outcome (m w).1 t c.

Lemma unhandled_ret {A} (a : A) : unhandled (mret a).
Proof.
  intros w. exists [], []. simpl. rewrite app_nil_r.
  repeat split. constructor; constructor.
Qed.

Lemma unhandled_raise {A} e : unhandled (@raise _ A e).
Proof.
  intros w. exists [EvRaise e], []. simpl. repeat split.
  apply (outcome_raise e [] []); constructor.
Qed.

Lemma unhandled_lib ev : is_raise ev = false → unhandled (lib ev).
Proof.
  intros Hev w. unfold lib. simpl. destruct (faults w) as [|[e|] fl] eqn:Hf; simpl.
  - exists [ev], []. rewrite Hf. repeat split.
    constructor; [by repeat constructor | constructor].
  - exists [ev; EvRaise e], [Some e]. rewrite <- app_assoc. repeat split.
    apply (outcome_fault e [ev] []); [by repeat constructor | constructor].
  - exists [ev], [None]. repeat split.
    constructor; by repeat constructor.
Qed.

Lemma unhandled_lib_writing ev partial :
  is_raise ev = false →
  (∀ w, trace (partial w) = trace w) → (∀ w, faults (partial w) = faults w) →
  unhandled (lib_writing ev partial).
Proof.
  intros Hev Ht Hfl w. unfold lib_writing. simpl.
  destruct (faults w) as [|[e|] fl] eqn:Hf; simpl.
  - exists [ev], []. rewrite Hf. repeat split.
    constructor; [by repeat constructor | constructor].
  - exists [ev; EvRaise e], [Some e]. rewrite Ht, Hfl. simpl. rewrite <- app_assoc.
    repeat split.
    apply (outcome_fault e [ev] []); [by repeat constructor | constructor].
  - exists [ev], [None]. repeat split.
    constructor; by repeat constructor.
Qed.

Lemma unhandled_get {A} (f : World → A) : unhandled (get f).
Proof.
  intros w. exists [], []. simpl. rewrite app_nil_r.
  repeat split. constructor; constructor.
Qed.

Lemma unhandled_modify (f : World → World) :
  (∀ w, trace (f w) = trace w) → (∀ w, faults (f w) = faults w) → unhandled (modify f).
Proof.
  intros Ht Hf w. exists [], []. simpl. rewrite Ht, Hf, app_nil_r.
  repeat split. constructor; constructor.
Qed.

Lemma unhandled_bind {A B} (m : M A) (k : A → M B) :
  unhandled m → (∀ a, unhandled (k a)) → unhandled (m ≫= k).
Proof.
  intros Hm Hk w. destruct (Hm w) as (t1 & c1 & Ht1 & Hc1 & Ho1).
  unfold mbind, M_bind, bind. destruct (m w) as [[a|e] w1]; simpl in *.
  - destruct (Hk a w1) as (t2 & c2 & Ht2 & Hc2 & Ho2).
    inversion Ho1; subst.
    exists (t1 ++ t2), (c1 ++ c2). rewrite Ht2, Ht1, Hc1, Hc2, !app_assoc.
    repeat split.
    inversion Ho2; subst; rewrite ?app_assoc; constructor;
      try (apply Forall_app; split); done.
  - exists t1, c1. repeat split; [done..|].
    inversion Ho1; subst; constructor; done.
Qed.

Lemma unhandled_for_each {A S} (xs : list A) (body : A → S → M S) st :
  (∀ x s, unhandled (body x s)) → unhandled (for_each xs body st).
Proof.
  intros Hb. revert st. induction xs as [|x xs IH]; intros st; simpl.
  - apply unhandled_ret.
  - apply unhandled_bind; [apply Hb | apply IH].
Qed.

Lemma unhandled_cleanup {A} d (m : M A) : unhandled m → unhandled (cleanup d m).
Proof.
  intros Hm w. destruct (Hm w) as (t & c & Ht & Hc & Ho).
  unfold cleanup. destruct (m w) as [r w1]; simpl in *. eauto.
Qed.


End Outcome.

Create HintDb unhandled.

Ltac unhandled_step :=
  lazymatch goal with
  | |- unhandled (mret _) => apply unhandled_ret
  | |- unhandled (_ ≫= _) => apply unhandled_bind; [|intros]
  | |- unhandled (lib _) => apply unhandled_lib; reflexivity
  | |- unhandled (raise _) => apply unhandled_raise
  | |- unhandled (get _) => apply unhandled_get
  | |- unhandled (modify _) => apply unhandled_modify; intros; reflexivity
  | |- unhandled (for_each _ _ _) => apply unhandled_for_each; intros
  | |- unhandled (cleanup _ _) => apply unhandled_cleanup
  | |- unhandled (match ?x with _ => _ end) => destruct x
  | |- unhandled _ => solve [auto with unhandled]
  end.

Ltac unhandled_proof := intros; cbv zeta; repeat unhandled_step.


Section Unhandled.
Context `{T : Torch}.

Lemma unhandled_Path_mkdir p : unhandled (Path_mkdir p).
Proof. unfold Path_mkdir. unhandled_proof. Qed.

Lemma unhandled_open_append p : unhandled (open_append p).
Proof. unfold open_append. unhandled_proof. Qed.

Lemma unhandled_writerow p cells : unhandled (writerow p cells).
Proof. unfold writerow. unhandled_proof. Qed.

Lemma unhandled_torch_save sd p : unhandled (torch_save sd p).
Proof.
  unfold torch_save. unhandled_proof.
  apply unhandled_lib_writing; [done|..];
    intros w; unfold torch_save_partial; by destruct (write_error _ _).
Qed.

Lemma unhandled_MNIST : unhandled MNIST.
Proof.
  unfold MNIST. unhandled_proof. by apply unhandled_lib_writing.
Qed.

Lemma unhandled_torch_load p : unhandled (torch_load p).
Proof. unfold torch_load. unhandled_proof. Qed.

Lemma unhandled_with_TemporaryDirectory {A} (body : Path → M A) :
  (∀ d, unhandled (body d)) → unhandled (with_TemporaryDirectory body).
Proof. unfold with_TemporaryDirectory. unhandled_proof. Qed.

Lemma unhandled_resnet18 n : unhandled (resnet18 n).
Proof. unfold resnet18, draw_rng. unhandled_proof. Qed.

Lemma unhandled_torch_nn_Conv2d c : unhandled (torch_nn_Conv2d c).
Proof. unfold torch_nn_Conv2d, draw_rng. unhandled_proof. Qed.

Lemma unhandled_iter_batches dl : unhandled (iter_batches dl).
Proof. unfold iter_batches. unhandled_proof. Qed.

Lemma unhandled_torch_DataLoader d b s l : unhandled (torch_DataLoader d b s l).
Proof. unfold torch_DataLoader. unhandled_proof. Qed.

#[local] Hint Resolve unhandled_Path_mkdir unhandled_open_append unhandled_writerow
  unhandled_torch_save unhandled_torch_load unhandled_resnet18 unhandled_torch_nn_Conv2d
  unhandled_iter_batches unhandled_torch_DataLoader unhandled_MNIST : unhandled.

Lemma unhandled_build_resnet18 : unhandled build_resnet18.
Proof. unfold build_resnet18. unhandled_proof. Qed.

Lemma unhandled_save_checkpoint_and_metrics_torch metrics m p :
  unhandled (save_checkpoint_and_metrics_torch metrics m p).
Proof. unfold save_checkpoint_and_metrics_torch. unhandled_proof. Qed.

#[local] Hint Resolve unhandled_build_resnet18 unhandled_save_checkpoint_and_metrics_torch
  : unhandled.

Lemma unhandled_train_loop_torch_batch batch st : unhandled (train_loop_torch_batch batch st).
Proof.
  unfold train_loop_torch_batch, call_model, criterion, zero_grad, loss_backward,
    optimizer_step, metric_update.
  unhandled_proof.
Qed.

#[local] Hint Resolve unhandled_train_loop_torch_batch : unhandled.

Lemma unhandled_train_loop_torch_epoch p epoch st : unhandled (train_loop_torch_epoch p epoch st).
Proof.
  unfold train_loop_torch_epoch, local, metric_compute, metric_reset, report_metrics_torch,
    tensor_item, print.
  unhandled_proof.
Qed.

Lemma unhandled_train_loop_torch_setup bs : unhandled (train_loop_torch_setup bs).
Proof.
  unfold train_loop_torch_setup, load_model_torch, Adam, Accuracy, data_loader_torch.
  unhandled_proof.
Qed.

#[local] Hint Resolve unhandled_train_loop_torch_epoch unhandled_train_loop_torch_setup
  : unhandled.

Lemma unhandled_train_loop_torch n bs p : unhandled (train_loop_torch n bs p).
Proof. unfold train_loop_torch, train_loop_torch_locals. unhandled_proof. Qed.

End Unhandled.

Section Calm.
Context `{T : Torch}.

(** ** Runs in an environment that lets every call through *)

(** [m], started in [w], ends as [Q] says. *)
Definition wp {A} (m : M A) (w : World) (Q : result A → World → Prop) : Prop :=
  Q (m w).1 (m w).2.

Lemma wp_ret {A} (a : A) w Q : Q (Ok a) w → wp (mret a) w Q.
Proof. done. Qed.

Lemma wp_bind {A B} (m : M A) (k : A → M B) w Q :
  wp m w (λ r w', match r with Ok a => wp (k a) w' Q | Raise e => Q (Raise e) w' end) →
  wp (m ≫= k) w Q.
Proof.
  unfold wp, mbind, M_bind, bind. by destruct (m w) as [[a|e] w'].
Qed.

Lemma wp_mono {A} (m : M A) w (Q Q' : result A → World → Prop) :
  wp m w Q → (∀ r w', Q r w' → Q' r w') → wp m w Q'.
Proof. unfold wp. auto. Qed.

Lemma wp_get {A} (f : World → A) w Q : Q (Ok (f w)) w → wp (get f) w Q.
Proof. done. Qed.

Lemma wp_modify (f : World → World) w Q : Q (Ok tt) (f w) → wp (modify f) w Q.
Proof. done. Qed.

Lemma wp_raise {A} e w (Q : result A → World → Prop) :
  Q (Raise e) (log (EvRaise e) w) → wp (raise e) w Q.
Proof. done. Qed.

Lemma wp_lib ev w Q : faults w = [] → Q (Ok tt) (log ev w) → wp (lib ev) w Q.
Proof. unfold wp, lib. simpl. by intros ->. Qed.

Lemma wp_lib_writing ev partial w Q :
  faults w = [] → Q (Ok tt) (log ev w) → wp (lib_writing ev partial) w Q.
Proof. unfold wp, lib_writing. simpl. by intros ->. Qed.

Lemma wp_for_each {A S} (I : list A → S → World → Prop) (xs : list A)
    (body : A → S → M S) st w Q :
  I [] st w →
  (∀ done x rest s w1, xs = done ++ x :: rest → I done s w1 →
     wp (body x s) w1 (λ r w2, match r with
                               | Ok s' => I (done ++ [x]) s' w2
                               | Raise e => Q (Raise e) w2
                               end)) →
  (∀ s w', I xs s w' → Q (Ok s) w') →
  wp (for_each xs body st) w Q.
Proof.
  intros H0 Hstep Hend.
  assert (∀ rest done s w1, xs = done ++ rest → I done s w1 → wp (for_each rest body s) w1 Q)
    as Hgen.
  { induction rest as [|x rest IH]; intros done s w1 Hxs HI; simpl.
    - apply wp_ret, Hend. by rewrite Hxs, app_nil_r.
    - apply wp_bind. eapply wp_mono; [by eapply Hstep|].
      intros [s'|e] w2; [|done]. intros HI'. apply (IH (done ++ [x])); [|done].
      by rewrite <- app_assoc. }
  by apply (Hgen xs []).
Qed.

(** The world after the further calls [t]. *)
Definition add_trace (t : list Event) (w : World) : World :=
  mkWorld (fs w) (data_dir w) (rng w) (mnist w) (context w) (rank0_data w) (reported w)
          (tmp_count w) (faults w) (trace w ++ t).

Lemma world_ext (w1 w2 : World) :
  fs w1 = fs w2 → data_dir w1 = data_dir w2 → rng w1 = rng w2 → mnist w1 = mnist w2 →
  context w1 = context w2 → rank0_data w1 = rank0_data w2 →
  reported w1 = reported w2 → tmp_count w1 = tmp_count w2 → faults w1 = faults w2 →
  trace w1 = trace w2 → w1 = w2.
Proof. destruct w1, w2. simpl. by intros; subst. Qed.

End Calm.

Ltac wsimpl :=
  cbn [faults fs data_dir trace rng mnist context rank0_data reported tmp_count log add_trace
       set_fs set_data_dir set_rng set_faults set_context set_reported set_tmp_count fst snd].

Ltac wsimpl_in H :=
  cbn [faults fs data_dir trace rng mnist context rank0_data reported tmp_count log add_trace
       set_fs set_data_dir set_rng set_faults set_context set_reported set_tmp_count fst snd]
    in H.

Ltac wp_step :=
  lazymatch goal with
  | |- wp (mret _) _ _ => apply wp_ret
  | |- wp (_ ≫= _) _ _ => apply wp_bind
  | |- wp (lib _) _ _ => apply wp_lib; [wsimpl; done|]
  | |- wp (lib_writing _ _) _ _ => apply wp_lib_writing; [wsimpl; done|]
  | |- wp (get _) _ _ => apply wp_get
  | |- wp (modify _) _ _ => apply wp_modify
  | |- wp (raise _) _ _ => apply wp_raise
  end; cbv beta iota; wsimpl.

Ltac world_eq := apply world_ext; wsimpl; rewrite <- ?app_assoc; try done.


Section Library.
Context `{T : Torch}.

(** ** Facts about the modelled library calls *)

Lemma parent_join (p : Path) (name : string) : parent (os_path_join p name) = p.
Proof.
  unfold parent, os_path_join. rewrite length_app. simpl.
  replace (length p + 1 - 1)%nat with (length p) by lia.
  by rewrite take_app_length.
Qed.

Definition file_content (f : gmap Path Node) (p : Path) : list Chunk :=
  match f !! p with
  | Some (File c) => c
  | _ => []
  end.

(** The directory [p] is there, with everything above it. *)
Definition dir_ready (f : gmap Path Node) (p : Path) : Prop := mkdir_from [] p f = Ok f.

Lemma mkdir_from_other done rest f f' q :
  mkdir_from done rest f = Ok f' →
  (length (done ++ rest) < length q)%nat →
  f' !! q = f !! q.
Proof.
  revert done f. induction rest as [|c rest IH]; intros done f H Hlen; simpl in H.
  - by inversion H.
  - assert (length ((done ++ [c]) ++ rest) < length q)%nat as Hlen'
      by (by rewrite <- app_assoc).
    assert (done ++ [c] ≠ q) as Hne.
    { intros <-. rewrite !length_app in Hlen. simpl in Hlen. lia. }
    destruct (f !! (done ++ [c])) as [[|content]|] eqn:Hq; [|done|].
    + by apply (IH _ _ H).
    + rewrite (IH _ _ H Hlen'). by rewrite lookup_insert_ne.
Qed.

Lemma mkdir_from_fixed done rest f f' q :
  mkdir_from done rest f = Ok f' →
  (length q ≤ length done)%nat →
  f' !! q = f !! q.
Proof.
  revert done f. induction rest as [|c rest IH]; intros done f H Hlen; simpl in H.
  - by inversion H.
  - assert (length q ≤ length (done ++ [c]))%nat as Hlen'
      by (rewrite length_app; simpl; lia).
    assert (done ++ [c] ≠ q) as Hne.
    { intros <-. rewrite length_app in Hlen. simpl in Hlen. lia. }
    destruct (f !! (done ++ [c])) as [[|content]|] eqn:Hq; [|done|].
    + by apply (IH _ _ H).
    + rewrite (IH _ _ H Hlen'). by rewrite lookup_insert_ne.
Qed.

Lemma mkdir_from_idem done rest f f' :
  mkdir_from done rest f = Ok f' → mkdir_from done rest f' = Ok f'.
Proof.
  revert done f. induction rest as [|c rest IH]; intros done f H; simpl in *.
  - done.
  - assert (f' !! (done ++ [c]) = Some Dir) as Hd.
    { destruct (f !! (done ++ [c])) as [[|content]|] eqn:Hq; [|done|].
      - rewrite (mkdir_from_fixed _ _ _ _ _ H); done.
      - rewrite (mkdir_from_fixed _ _ _ _ _ H); [|done]. by rewrite lookup_insert_eq. }
    rewrite Hd.
    destruct (f !! (done ++ [c])) as [[|content]|] eqn:Hq; [|done|]; by eapply IH.
Qed.

Lemma mkdir_from_resolve (done : Path) (rest : list string) (f : gmap Path Node) (p : Path) :
  mkdir_from done rest f = Ok f → resolve done rest f p = None.
Proof.
  revert done. induction rest as [|c rest IH]; intros done H; simpl in *.
  - done.
  - destruct (f !! (done ++ [c])) as [[|content]|] eqn:Hq; [|done|].
    + by apply IH.
    + exfalso. pose proof (mkdir_from_fixed _ _ _ _ (done ++ [c]) H ltac:(done)) as Hfix.
      rewrite lookup_insert_eq in Hfix. congruence.
Qed.

Lemma resolve_insert (done : Path) (rest : list string) (f : gmap Path Node) (q : Path)
    (n : Node) (p : Path) :
  (length (done ++ rest) < length q)%nat →
  resolve done rest (<[q := n]> f) p = resolve done rest f p.
Proof.
  revert done. induction rest as [|c rest IH]; intros done Hlen; simpl.
  - done.
  - assert (length ((done ++ [c]) ++ rest) < length q)%nat as Hlen'
      by (by rewrite <- app_assoc).
    assert (q ≠ done ++ [c]) as Hne.
    { intros ->. rewrite !length_app in Hlen. simpl in Hlen. lia. }
    rewrite lookup_insert_ne by done.
    destruct (f !! (done ++ [c])) as [[|content]|]; [|done..].
    by apply IH.
Qed.

Lemma mkdir_from_insert done rest f q n :
  mkdir_from done rest f = Ok f →
  (length (done ++ rest) < length q)%nat →
  mkdir_from done rest (<[q := n]> f) = Ok (<[q := n]> f).
Proof.
  revert done. induction rest as [|c rest IH]; intros done H Hlen; simpl in *.
  - done.
  - assert (length ((done ++ [c]) ++ rest) < length q)%nat as Hlen'
      by (by rewrite <- app_assoc).
    assert (q ≠ done ++ [c]) as Hne.
    { intros ->. rewrite !length_app in Hlen. simpl in Hlen. lia. }
    rewrite lookup_insert_ne by done.
    destruct (f !! (done ++ [c])) as [[|content]|] eqn:Hq; [|done|].
    + by apply IH.
    + exfalso. pose proof (mkdir_from_fixed _ _ _ _ (done ++ [c]) H ltac:(done)) as Hfix.
      rewrite lookup_insert_eq in Hfix. congruence.
Qed.

Lemma dir_ready_mkdir p f f' : mkdir_from [] p f = Ok f' → dir_ready f' p.
Proof. apply mkdir_from_idem. Qed.

Lemma dir_ready_path_error p f name :
  dir_ready f p → path_error f (os_path_join p name) = None.
Proof. intros H. unfold path_error. rewrite parent_join. by apply mkdir_from_resolve. Qed.

Lemma path_error_insert (f : gmap Path Node) (p : Path) (n : Node) :
  path_error (<[p := n]> f) p = path_error f p.
Proof.
  unfold path_error. destruct p as [|c p]; [done|].
  apply resolve_insert. unfold parent. cbn [app]. rewrite length_take. simpl. lia.
Qed.

Lemma dir_ready_insert p f name n :
  dir_ready f p → dir_ready (<[os_path_join p name := n]> f) p.
Proof.
  intros H. apply mkdir_from_insert; [done|].
  unfold os_path_join. rewrite !length_app. simpl. lia.
Qed.

Lemma mkdir_from_join p f f' name :
  mkdir_from [] p f = Ok f' → f' !! os_path_join p name = f !! os_path_join p name.
Proof.
  intros H. apply (mkdir_from_other _ _ _ _ _ H).
  unfold os_path_join. rewrite !length_app. simpl. lia.
Qed.

Lemma write_error_join f p name :
  dir_ready f p → f !! os_path_join p name ≠ Some Dir →
  write_error f (os_path_join p name) = None.
Proof.
  intros Hd Hn. unfold write_error. rewrite dir_ready_path_error by done.
  by destruct (f !! os_path_join p name) as [[|c]|].
Qed.

End Library.

Section Steps.
Context `{T : Torch}.

Lemma wp_eq {A} (m : M A) w (Q : result A → World → Prop) r w' :
  m w = (r, w') → Q r w' → wp m w Q.
Proof. unfold wp. by intros ->. Qed.

Lemma wp_Path_mkdir p w f1 Q :
  faults w = [] → mkdir_from [] p (fs w) = Ok f1 →
  Q (Ok tt) (set_fs f1 (log (EvMkdir p) w)) →
  wp (Path_mkdir p) w Q.
Proof.
  intros Hf Hm HQ. unfold Path_mkdir. repeat wp_step. rewrite Hm. by wp_step.
Qed.

Lemma wp_open_append p w Q :
  faults w = [] → write_error (fs w) p = None →
  Q (Ok tt) (set_fs (<[p := File (file_content (fs w) p)]> (fs w)) (log (EvOpenAppend p) w)) →
  wp (open_append p) w Q.
Proof.
  intros Hf He HQ. unfold open_append. repeat wp_step. rewrite He.
  unfold file_content in HQ. unfold write_error in He.
  destruct (path_error (fs w) p); [done|].
  destruct (fs w !! p) as [[|c]|] eqn:Hp; [done| |].
  - wp_step. rewrite insert_id in HQ by done. exact HQ.
  - by wp_step.
Qed.

Lemma wp_writerow p cells c w Q :
  faults w = [] → fs w !! p = Some (File c) →
  Q (Ok tt) (set_fs (<[p := File (c ++ [Text (csv_line cells)])]> (fs w))
               (log (EvWriteRow p (csv_line cells)) w)) →
  wp (writerow p cells) w Q.
Proof.
  intros Hf Hp HQ. unfold writerow. repeat wp_step. rewrite Hp. by wp_step.
Qed.

Lemma wp_torch_save sd p w Q :
  faults w = [] → write_error (fs w) p = None →
  Q (Ok tt) (set_fs (<[p := File [Pickle sd]]> (fs w)) (log (EvTorchSave p) w)) →
  wp (torch_save sd p) w Q.
Proof.
  intros Hf He HQ. unfold torch_save. repeat wp_step. rewrite He. by wp_step.
Qed.

Lemma os_path_join_inj p a b : os_path_join p a = os_path_join p b → a = b.
Proof. unfold os_path_join. intros H. apply app_inv_head in H. by inversion H. Qed.

(** The files of the run directory after a checkpoint, and the calls made. *)
Definition saved_fs (f : gmap Path Node) (p : Path) (metrics : Metrics) (m : resnet)
  : gmap Path Node :=
  <[os_path_join p "model.pt" := File [Pickle (state_dict m)]]>
    (<[os_path_join p "metrics.csv" :=
         File (file_content f (os_path_join p "metrics.csv")
               ++ [Text (csv_line (values metrics))])]> f).

Definition save_events (p : Path) (metrics : Metrics) : list Event :=
  [EvOpenAppend (os_path_join p "metrics.csv");
   EvWriteRow (os_path_join p "metrics.csv") (csv_line (values metrics));
   EvTorchSave (os_path_join p "model.pt")].

Lemma wp_save_checkpoint_and_metrics_torch metrics m p w Q :
  faults w = [] → dir_ready (fs w) p →
  fs w !! os_path_join p "metrics.csv" ≠ Some Dir →
  fs w !! os_path_join p "model.pt" ≠ Some Dir →
  Q (Ok tt) (set_fs (saved_fs (fs w) p metrics m) (add_trace (save_events p metrics) w)) →
  wp (save_checkpoint_and_metrics_torch metrics m p) w Q.
Proof.
  intros Hf Hd Hcsv Hpt HQ. unfold save_checkpoint_and_metrics_torch.
  assert (os_path_join p "metrics.csv" ≠ os_path_join p "model.pt") as Hne
    by (intros H%os_path_join_inj; done).
  wp_step. apply wp_open_append; [done|by apply write_error_join|]. wsimpl.
  wp_step. eapply wp_writerow; [done|by wsimpl; rewrite lookup_insert_eq|]. wsimpl.
  apply wp_torch_save; [done| |].
  - wsimpl. rewrite insert_insert_eq. apply write_error_join.
    + by apply dir_ready_insert.
    + by rewrite lookup_insert_ne.
  - wsimpl. rewrite insert_insert_eq in *.
    match goal with |- Q _ ?w1 => match type of HQ with Q _ ?w2 =>
      replace w1 with w2; [exact HQ|] end end.
    unfold saved_fs, save_events. by world_eq.
Qed.

End Steps.

Section Torch_loop.
Context `{T : Torch}.

(** ** The single-GPU loop, call by call *)

(** What one batch does to the variables when no call fails. *)
Definition after_batch (st : Locals) (batch : list Sample) : Locals :=
  let outputs := forward (model st) batch.*1 in
  let m := if training (model st)
           then map_data (bn_stats (model st) batch.*1) (model st)
           else model st in
  let l := cross_entropy outputs batch.*2 in
  let g := backward l None in
  mkLocals (map_data (adam_update (optimizer st) g) m) (adam_next (optimizer st) g) (Some g)
    (mkMetric (metric_classes (acc st)) (acc_update (metric_state (acc st)) outputs batch.*2))
    (data_loader st) (Some l).

Definition torch_batch_events : list Event :=
  [EvNextBatch; EvBatchTo "cuda"; EvBatchTo "cuda"; EvForward; EvCriterion; EvZeroGrad;
   EvBackward; EvOptStep; EvMetricUpdate].

Lemma wp_train_loop_torch_batch batch st w Q :
  faults w = [] →
  Q (Ok (after_batch st batch)) (add_trace torch_batch_events w) →
  wp (train_loop_torch_batch batch st) w Q.
Proof.
  intros Hf HQ.
  unfold train_loop_torch_batch, call_model, criterion, zero_grad, loss_backward,
    optimizer_step, metric_update.
  repeat wp_step.
  match goal with |- Q _ ?w1 => replace w1 with (add_trace torch_batch_events w) end;
    [exact HQ | by world_eq].
Qed.

Lemma wp_train_loop_torch_batches batches st w Q :
  faults w = [] →
  Q (Ok (foldl after_batch st batches))
    (add_trace (concat (replicate (length batches) torch_batch_events)) w) →
  wp (for_each batches train_loop_torch_batch st) w Q.
Proof.
  revert st w. induction batches as [|b batches IH]; intros st w Hf HQ; simpl.
  - apply wp_ret. replace w with (add_trace [] w); [done|]. world_eq. apply app_nil_r.
  - apply wp_bind, wp_train_loop_torch_batch; [done|]. apply IH; [done|].
    match goal with |- Q _ ?w1 => match type of HQ with Q _ ?w2 =>
      replace w1 with w2; [exact HQ|] end end.
    by world_eq.
Qed.

End Torch_loop.

Section Batches.
Context `{T : Torch} {A : Type}.
Implicit Types (l batch : list A).

(** ** The data loader *)

Lemma batch_sampler_full bs batch l :
  Forall (λ b, length b = bs) (batch_sampler bs true batch l).
Proof.
  revert batch. induction l as [|x l IH]; intros batch; simpl.
  - destruct batch; constructor.
  - case_decide; [constructor|]; auto.
Qed.

Lemma batch_sampler_count bs batch l :
  (length batch < bs)%nat →
  length (batch_sampler bs true batch l) = ((length batch + length l) `div` bs)%nat.
Proof.
  revert batch. induction l as [|x l IH]; intros batch Hlt; simpl.
  - rewrite Nat.add_0_r, Nat.div_small by done. by destruct batch.
  - rewrite length_app. simpl. case_decide as Hfull.
    + simpl. rewrite IH by (simpl; lia). simpl.
      replace (length batch + S (length l))%nat with (1 * bs + length l)%nat by lia.
      rewrite Nat.div_add_l by lia. done.
    + rewrite IH by (rewrite length_app; simpl; lia).
      rewrite length_app. simpl. f_equal. lia.
Qed.

Lemma batch_sampler_concat bs batch l :
  (length batch < bs)%nat →
  concat (batch_sampler bs true batch l)
  = take (bs * ((length batch + length l) `div` bs)) (batch ++ l).
Proof.
  revert batch. induction l as [|x l IH]; intros batch Hlt; simpl.
  - rewrite Nat.add_0_r, Nat.div_small by done. rewrite Nat.mul_0_r.
    by destruct batch.
  - rewrite length_app. simpl. case_decide as Hfull.
    + simpl. rewrite IH by (simpl; lia). simpl.
      replace (length batch + S (length l))%nat with (1 * bs + length l)%nat by lia.
      rewrite Nat.div_add_l by lia.
      replace (batch ++ x :: l) with ((batch ++ [x]) ++ l) by (by rewrite <- app_assoc).
      replace (bs * (1 + length l `div` bs))%nat
        with (length (batch ++ [x]) + bs * (length l `div` bs))%nat
        by (rewrite length_app; simpl; lia).
      by rewrite take_app_add.
    + rewrite IH by (rewrite length_app; simpl; lia).
      rewrite length_app, <- app_assoc. simpl. do 3 f_equal. lia.
Qed.

Lemma random_order_Permutation n g l : length l = n → random_order n g l ≡ₚ l.
Proof.
  revert g l. induction n as [|n IH]; intros g l Hn; simpl.
  - by destruct l.
  - assert (rand_nat g `mod` length l < length l)%nat as Hi
      by (apply Nat.mod_upper_bound; lia).
    destruct (lookup_lt_is_Some_2 l _ Hi) as [x Hx]. rewrite Hx.
    etrans; [|symmetry; apply (delete_Permutation l _ x Hx)]. constructor.
    apply IH. rewrite length_delete by eauto. lia.
Qed.

Lemma random_order_length n g l : length l = n → length (random_order n g l) = n.
Proof. intros Hn. by rewrite (random_order_Permutation n g l Hn). Qed.

End Batches.

Section Torch_epoch.
Context `{T : Torch}.

(** The batches of one pass of a shuffling loader, from the random state. *)
Definition random_batches (dl : DataLoader) (g : RNG) : list (list Sample) :=
  batch_sampler (Z.to_nat (batch_size dl)) (drop_last dl) []
    (random_order (length (dataset dl)) g (dataset dl)).

Lemma wp_iter_batches_random dl w Q :
  faults w = [] → sampler dl = RandomSampler →
  Q (Ok (random_batches dl (rng w)))
    (set_rng (Nat.iter (length (dataset dl)) rng_next (rng w)) (log EvIter w)) →
  wp (iter_batches dl) w Q.
Proof.
  intros Hf Hs HQ. unfold iter_batches. rewrite Hs. by repeat wp_step.
Qed.

(** The model [build_resnet18] returns, from the random state. *)
Definition built_resnet18 (g : RNG) : resnet :=
  set_conv1 (Conv2d_init (mkConv2d 1 64 (7, 7) (2, 2) (3, 3) false) (rng_next g))
            (resnet18_init 10 g).

Definition build_events : list Event :=
  [EvResnet18 10; EvConv2d (mkConv2d 1 64 (7, 7) (2, 2) (3, 3) false)].

Lemma wp_build_resnet18 w Q :
  faults w = [] →
  Q (Ok (built_resnet18 (rng w)))
    (set_rng (rng_next (rng_next (rng w))) (add_trace build_events w)) →
  wp build_resnet18 w Q.
Proof.
  intros Hf HQ. unfold build_resnet18, resnet18, torch_nn_Conv2d, draw_rng.
  repeat wp_step.
  match goal with |- Q _ ?w1 => match type of HQ with Q _ ?w2 =>
    replace w1 with w2; [exact HQ|] end end.
  by world_eq.
Qed.

(** The names and shapes of the tensors of the model [build_resnet18]
    makes. *)
Definition mnist_resnet18_shapes : gmap string (list Z) :=
  delete "conv1.bias"
    (<["conv1.weight" := [64; 1; 7; 7]]>
       (<["conv1.weight" := [64; 3; 7; 7]]>
          (<["fc.weight" := [10; 512]]>
             (<["fc.bias" := [10]]> (list_to_map resnet18_layers))))).

Lemma shape_init_layers g (layers : list (string * list Z)) :
  shape <$> (list_to_map ((λ kv, (kv.1, init_tensor g kv.1 kv.2)) <$> layers)
             : gmap string tensor)
  = list_to_map layers.
Proof.
  induction layers as [|[k sh] layers IH].
  - apply fmap_empty.
  - rewrite fmap_cons, !list_to_map_cons, fmap_insert, IH. done.
Qed.

Lemma built_resnet18_shapes g : shape <$> tensors (built_resnet18 g) = mnist_resnet18_shapes.
Proof.
  unfold built_resnet18, set_conv1, resnet18_init, mnist_resnet18_shapes. simpl.
  by rewrite fmap_delete, !fmap_insert, shape_init_layers.
Qed.

Lemma map_data_shapes f (m : resnet) : shape <$> tensors (map_data f m) = shape <$> tensors m.
Proof.
  apply map_eq. intros k. unfold map_data. simpl.
  rewrite !lookup_fmap, map_lookup_imap. by destruct (tensors m !! k).
Qed.

Lemma after_batch_shapes st batch :
  shape <$> tensors (model (after_batch st batch)) = shape <$> tensors (model st).
Proof.
  unfold after_batch. cbn [model]. rewrite map_data_shapes.
  destruct (training (model st)); [apply map_data_shapes | done].
Qed.

Lemma after_batches_shapes st batches :
  shape <$> tensors (model (foldl after_batch st batches)) = shape <$> tensors (model st).
Proof.
  revert st. induction batches as [|b batches IH]; intros st; simpl; [done|].
  by rewrite IH, after_batch_shapes.
Qed.

(** The variables as [train_loop_torch] has them before its loop. *)
Definition torch_locals0 (batch_size : Z) (data : list Sample) (g : RNG) : Locals :=
  mkLocals (built_resnet18 g) (adam_init (built_resnet18 g)) None (mkMetric 10 (acc_init 10))
    (mkDataLoader data batch_size true RandomSampler) None.

Definition torch_setup_events (batch_size : Z) : list Event :=
  [EvCrossEntropyLoss] ++ build_events
  ++ [EvModelTo "cuda"; EvAdam; EvAccuracy 10; EvMetricTo; EvMNIST; EvDataLoader batch_size].

Lemma wp_train_loop_torch_setup bs w Q :
  faults w = [] → 0 < bs →
  Q (Ok (torch_locals0 bs (mnist w) (rng w)))
    (set_data_dir (mnist_download (data_dir w))
       (set_rng (rng_next (rng_next (rng w))) (add_trace (torch_setup_events bs) w))) →
  wp (train_loop_torch_setup bs) w Q.
Proof.
  intros Hf Hbs HQ.
  unfold train_loop_torch_setup, load_model_torch, Adam, Accuracy, data_loader_torch, MNIST,
    torch_DataLoader.
  repeat wp_step. apply wp_build_resnet18; [done|]. repeat wp_step.
  rewrite bool_decide_eq_false_2 by lia. repeat wp_step.
  match goal with |- Q _ ?w1 => match type of HQ with Q _ ?w2 =>
    replace w1 with w2; [exact HQ|] end end.
  by world_eq.
Qed.

(** The record [report_metrics_torch] builds. *)
Definition torch_metrics (l : LossT) (a : Metric) (epoch : Z) : Metrics :=
  [("loss", CFloat (item l)); ("epoch", CInt epoch);
   ("accuracy", CFloat (acc_compute (metric_state a)))].

Definition reset_acc (st : Locals) : Locals :=
  mkLocals (model st) (optimizer st) (grad st)
    (mkMetric (metric_classes (acc st)) (acc_init (metric_classes (acc st))))
    (data_loader st) (loss st).

(** The calls of one epoch of [train_loop_torch] over [n] batches. *)
Definition torch_epoch_events (p : Path) (metrics : Metrics) (n : nat) : list Event :=
  [EvIter] ++ concat (replicate n torch_batch_events)
  ++ [EvMetricCompute; EvItem; EvItem; EvPrint metrics; EvMetricReset; EvMkdir p]
  ++ save_events p metrics.

Lemma data_loader_after_batches st batches :
  data_loader (foldl after_batch st batches) = data_loader st.
Proof.
  revert st. induction batches as [|b batches IH]; intros st; simpl; [done|]. by rewrite IH.
Qed.

Definition next_epoch_rng (st : Locals) (g : RNG) : RNG :=
  Nat.iter (length (dataset (data_loader st))) rng_next g.

Lemma wp_train_loop_torch_epoch p epoch st w f1 l Q :
  let batches := random_batches (data_loader st) (rng w) in
  let st2 := foldl after_batch st batches in
  let metrics := torch_metrics l (acc st2) epoch in
  faults w = [] → sampler (data_loader st) = RandomSampler →
  loss st2 = Some l →
  mkdir_from [] p (fs w) = Ok f1 →
  fs w !! os_path_join p "metrics.csv" ≠ Some Dir →
  fs w !! os_path_join p "model.pt" ≠ Some Dir →
  Q (Ok (reset_acc st2))
    (set_fs (saved_fs f1 p metrics (model st2))
       (set_rng (next_epoch_rng st (rng w))
          (add_trace (torch_epoch_events p metrics (length batches)) w))) →
  wp (train_loop_torch_epoch p epoch st) w Q.
Proof.
  intros batches st2 metrics Hf Hs Hl Hm Hcsv Hpt HQ.
  unfold train_loop_torch_epoch.
  wp_step. apply wp_iter_batches_random; [done..|]. wsimpl.
  wp_step. apply wp_train_loop_torch_batches; [done|]. fold batches st2.
  wp_step. rewrite Hl. unfold local, metric_compute, report_metrics_torch, tensor_item, print,
    metric_reset.
  repeat wp_step.
  eapply wp_Path_mkdir; [done..|]. wsimpl.
  wp_step. apply wp_save_checkpoint_and_metrics_torch; wsimpl.
  - done.
  - by eapply dir_ready_mkdir.
  - by rewrite (mkdir_from_join _ _ _ _ Hm).
  - by rewrite (mkdir_from_join _ _ _ _ Hm).
  - wp_step. rewrite <- Hl.
    match goal with |- Q _ ?w1 => match type of HQ with Q _ ?w2 =>
      replace w1 with w2; [exact HQ|] end end.
    unfold torch_epoch_events, next_epoch_rng.
    world_eq.
Qed.

End Torch_epoch.

Section Torch_run.
Context `{T : Torch}.

Lemma random_batches_full dl g :
  drop_last dl = true →
  Forall (λ b, length b = Z.to_nat (batch_size dl)) (random_batches dl g).
Proof. intros Hd. unfold random_batches. rewrite Hd. apply batch_sampler_full. Qed.

Lemma random_batches_length dl g :
  drop_last dl = true → 0 < batch_size dl →
  length (random_batches dl g)
  = (length (dataset dl) `div` Z.to_nat (batch_size dl))%nat.
Proof.
  intros Hd Hbs. unfold random_batches. rewrite Hd.
  rewrite batch_sampler_count by (simpl; lia). simpl.
  by rewrite random_order_length.
Qed.

Lemma loss_after_batches st batches :
  batches ≠ [] → is_Some (loss (foldl after_batch st batches)).
Proof.
  destruct batches as [|b batches _] using rev_ind; [done|]. intros _.
  rewrite foldl_app. simpl. eauto.
Qed.

Lemma model_reset_acc st : model (reset_acc st) = model st.
Proof. done. Qed.

(** The metrics of the epochs [es], one record each, in order. *)
Definition epoch_records (es : list Z) (ms : list Metrics) : Prop :=
  Forall2 (λ e m, ∃ l a, m = [("loss", CFloat l); ("epoch", CInt e); ("accuracy", CFloat a)])
          es ms.

Definition csv_rows (ms : list Metrics) : list Chunk := (λ m, Text (csv_line (values m))) <$> ms.

(** What holds between the epochs of a run of [train_loop_torch] in which
    no call fails: [c0] is what the metrics file held before the run and
    [t0] the trace when the loop was entered. *)
Definition torch_inv (p : Path) (dl : DataLoader) (c0 : list Chunk) (t0 : list Event)
    (done : list Z) (st : Locals) (w : World) : Prop :=
  faults w = [] ∧ data_loader st = dl ∧
  shape <$> state_dict (model st) = mnist_resnet18_shapes ∧
  (∃ f, mkdir_from [] p (fs w) = Ok f) ∧
  fs w !! os_path_join p "metrics.csv" ≠ Some Dir ∧
  fs w !! os_path_join p "model.pt" ≠ Some Dir ∧
  ∃ ms, epoch_records done ms ∧
        file_content (fs w) (os_path_join p "metrics.csv") = c0 ++ csv_rows ms ∧
        trace w = t0 ++ concat ((λ m, torch_epoch_events p m
                                        (length (dataset dl) `div` Z.to_nat (batch_size dl))) <$> ms) ∧
        (done ≠ [] →
         dir_ready (fs w) p ∧
         fs w !! os_path_join p "metrics.csv" = Some (File (c0 ++ csv_rows ms)) ∧
         fs w !! os_path_join p "model.pt" = Some (File [Pickle (state_dict (model st))])).

Lemma torch_inv_step p dl c0 t0 done epoch st w :
  sampler dl = RandomSampler → drop_last dl = true →
  (0 < Z.to_nat (batch_size dl) ≤ length (dataset dl))%nat →
  torch_inv p dl c0 t0 done st w →
  wp (train_loop_torch_epoch p epoch st) w
     (λ r w', ∃ st', r = Ok st' ∧ torch_inv p dl c0 t0 (done ++ [epoch]) st' w').
Proof.
  intros Hs Hd Hbs (Hf & Hdl & Hsh & [f1 Hm] & Hcsv & Hpt & ms & Hms & Hc & Ht & Hlast).
  subst dl.
  assert (length (random_batches (data_loader st) (rng w))
          = (length (dataset (data_loader st)) `div` Z.to_nat (batch_size (data_loader st)))%nat)
    as Hlen by (apply random_batches_length; [done|lia]).
  destruct (loss_after_batches st (random_batches (data_loader st) (rng w))) as [l Hl].
  { intros Hnil. rewrite Hnil in Hlen. simpl in Hlen.
    symmetry in Hlen. apply Nat.div_small_iff in Hlen; lia. }
  eapply wp_train_loop_torch_epoch; [done..|].
  set (st2 := foldl after_batch st _) in *.
  set (metrics := torch_metrics l (acc st2) epoch).
  pose proof (dir_ready_mkdir _ _ _ Hm) as Hready.
  assert (os_path_join p "metrics.csv" ≠ os_path_join p "model.pt") as Hne
    by (intros H%os_path_join_inj; done).
  assert (file_content f1 (os_path_join p "metrics.csv") = c0 ++ csv_rows ms) as Hc1.
  { unfold file_content in *. by rewrite (mkdir_from_join _ _ _ _ Hm). }
  eexists. split; [done|]. unfold torch_inv. wsimpl.
  split; [done|].
  split; [cbn [data_loader reset_acc]; unfold st2; by rewrite data_loader_after_batches|].
  split; [cbn [model reset_acc]; unfold st2, state_dict; by rewrite after_batches_shapes|].
  split.
  { exists (saved_fs f1 p metrics (model st2)). unfold saved_fs.
    by do 2 apply dir_ready_insert. }
  unfold saved_fs. rewrite lookup_insert_ne by done. rewrite !lookup_insert_eq.
  split; [done|]. split; [done|].
  exists (ms ++ [metrics]). split; [|split; [|split]].
  - apply Forall2_app; [done|]. repeat constructor. unfold metrics, torch_metrics. eauto.
  - rewrite Hc1. unfold file_content.
    rewrite lookup_insert_ne by done. rewrite lookup_insert_eq.
    unfold csv_rows. by rewrite fmap_app, app_assoc.
  - rewrite Ht, fmap_app, concat_app, <- app_assoc. simpl. rewrite app_nil_r.
    by rewrite Hlen.
  - intros _. split; [by do 2 apply dir_ready_insert|].
    rewrite Hc1. unfold csv_rows. by rewrite fmap_app, app_assoc.
Qed.

(** A run of [train_loop_torch] in which no call fails, from a world where
    the run directory can be made and has no directory in the way of the
    two files: it returns, and leaves one record per epoch. *)
Lemma train_loop_torch_calm num_epochs bs p w :
  faults w = [] →
  (0 < Z.to_nat bs ≤ length (mnist w))%nat →
  (∃ f, mkdir_from [] p (fs w) = Ok f) →
  fs w !! os_path_join p "metrics.csv" ≠ Some Dir →
  fs w !! os_path_join p "model.pt" ≠ Some Dir →
  ∃ st w',
    train_loop_torch_locals num_epochs bs p w = (Ok st, w') ∧
    torch_inv p (mkDataLoader (mnist w) bs true RandomSampler)
      (file_content (fs w) (os_path_join p "metrics.csv"))
      (trace w ++ torch_setup_events bs) (range num_epochs) st w'.
Proof.
  intros Hf Hbs Hm Hcsv Hpt.
  set (dl := mkDataLoader (mnist w) bs true RandomSampler).
  set (c0 := file_content (fs w) (os_path_join p "metrics.csv")).
  set (t0 := trace w ++ torch_setup_events bs).
  cut (wp (train_loop_torch_locals num_epochs bs p) w
          (λ r w', ∃ st, r = Ok st ∧ torch_inv p dl c0 t0 (range num_epochs) st w')).
  { unfold wp. destruct (train_loop_torch_locals num_epochs bs p w) as [r w'].
    simpl. intros (st & -> & HI). eauto. }
  unfold train_loop_torch_locals. wp_step.
  apply wp_train_loop_torch_setup; [done|lia|].
  apply (wp_for_each (torch_inv p dl c0 t0)).
  - unfold torch_inv. wsimpl. repeat split; try done.
    { apply built_resnet18_shapes. }
    exists []. repeat split; try done.
    + constructor.
    + by rewrite app_nil_r.
    + simpl. by rewrite app_nil_r.
  - intros done x rest s w1 _ HI.
    eapply wp_mono; [by apply (torch_inv_step p dl c0 t0 done x s w1)|].
    intros r w2 (st' & -> & HI'). done.
  - intros s w' HI. eauto.
Qed.

(** The variables and the random state of a run in which no call fails,
    from the start of one epoch to the end of its batches, and to the start
    of the next epoch. *)
Definition torch_epoch_end (s : Locals * RNG) : Locals :=
  foldl after_batch s.1 (random_batches (data_loader s.1) s.2).

Definition torch_next_epoch (s : Locals * RNG) : Locals * RNG :=
  (reset_acc (torch_epoch_end s), next_epoch_rng s.1 s.2).

Lemma range_middle (n : Z) (done rest : list Z) (x : Z) :
  range n = done ++ x :: rest → x = Z.of_nat (length done).
Proof.
  intros H. assert (range n !! length done = Some x) as Hx.
  { rewrite H. by apply list_lookup_middle. }
  unfold range in Hx. apply lookup_seqZ in Hx as [-> _]. lia.
Qed.

(** The rows a run has put in the log after the epochs [done], from the
    variables and the random state [s0] it entered its loop with: the row
    of the epoch [k] is the line of the loss the last batch of the epoch
    left, of [k], and of the accuracy over the epoch. *)
Definition torch_rows_inv (p : Path) (s0 : Locals * RNG) (c0 : list Chunk)
    (done : list Z) (st : Locals) (w : World) : Prop :=
  (st, rng w) = Nat.iter (length done) torch_next_epoch s0 ∧
  ∃ rows : list string,
    file_content (fs w) (os_path_join p "metrics.csv") = c0 ++ (Text <$> rows) ∧
    length rows = length done ∧
    ∀ k, (k < length done)%nat →
      let st2 := torch_epoch_end (Nat.iter k torch_next_epoch s0) in
      ∃ l, loss st2 = Some l ∧
           rows !! k = Some ((repr_float (item l) +:+ "," +:+ pretty (Z.of_nat k) +:+ ","
                              +:+ repr_float (acc_compute (metric_state (acc st2))))
                             +:+ crlf).

Lemma torch_rows_inv_step p dl s0 c0 t0 done epoch st w :
  sampler dl = RandomSampler → drop_last dl = true →
  (0 < Z.to_nat (batch_size dl) ≤ length (dataset dl))%nat →
  epoch = Z.of_nat (length done) →
  torch_inv p dl c0 t0 done st w → torch_rows_inv p s0 c0 done st w →
  wp (train_loop_torch_epoch p epoch st) w
     (λ r w', ∃ st', r = Ok st' ∧ torch_inv p dl c0 t0 (done ++ [epoch]) st' w' ∧
                     torch_rows_inv p s0 c0 (done ++ [epoch]) st' w').
Proof.
  intros Hs Hd Hbs Hepoch HI [Hstate (rows & Hrows & Hlen & Hall)].
  pose proof (torch_inv_step p dl c0 t0 done epoch st w Hs Hd Hbs HI) as H1.
  destruct HI as (Hf & Hdl & Hsh & [f1 Hm] & Hcsv & Hpt & _). subst dl.
  destruct (loss_after_batches st (random_batches (data_loader st) (rng w))) as [l Hl].
  { intros Hnil. apply (f_equal length) in Hnil.
    rewrite random_batches_length in Hnil by (done || lia). simpl in Hnil.
    apply Nat.div_small_iff in Hnil; lia. }
  set (st2 := foldl after_batch st (random_batches (data_loader st) (rng w))) in *.
  set (metrics := torch_metrics l (acc st2) epoch).
  assert (wp (train_loop_torch_epoch p epoch st) w
            (λ r w', r = Ok (reset_acc st2) ∧ rng w' = next_epoch_rng st (rng w) ∧
                     fs w' = saved_fs f1 p metrics (model st2))) as H2.
  { eapply wp_train_loop_torch_epoch; [done..|]. done. }
  unfold wp in *. destruct (train_loop_torch_epoch p epoch st w) as [r w2]. simpl in *.
  destruct H1 as (st' & -> & HI'). destruct H2 as ([= ->] & Hrng & Hfs).
  exists (reset_acc st2). split; [done|]. split; [done|].
  assert (torch_epoch_end (Nat.iter (length done) torch_next_epoch s0) = st2) as Hend.
  { by rewrite <- Hstate. }
  split.
  - rewrite length_app, Nat.add_1_r. simpl. rewrite <- Hstate.
    unfold torch_next_epoch. simpl. fold st2. by rewrite Hrng.
  - exists (rows ++ [(repr_float (item l) +:+ "," +:+ pretty epoch +:+ ","
                      +:+ repr_float (acc_compute (metric_state (acc st2)))) +:+ crlf]).
    split; [|split].
    + rewrite Hfs. unfold saved_fs, file_content at 1.
      rewrite lookup_insert_ne by (intros H%os_path_join_inj; done).
      rewrite lookup_insert_eq. unfold file_content at 1.
      rewrite (mkdir_from_join _ _ _ _ Hm). unfold file_content in Hrows. rewrite Hrows.
      by rewrite fmap_app, <- app_assoc.
    + rewrite !length_app. simpl. lia.
    + intros k Hk. rewrite length_app in Hk. simpl in Hk.
      destruct (decide (k < length done)%nat) as [Hlt|Hge].
      * destruct (Hall k Hlt) as (l' & Hl' & Hrow). exists l'. split; [done|].
        by rewrite lookup_app_l by lia.
      * assert (k = length done) as -> by lia. rewrite Hend. exists l. split; [done|].
        rewrite lookup_app_r by lia. rewrite Hlen, Nat.sub_diag. simpl. by rewrite Hepoch.
Qed.

(** The log of a run of [train_loop_torch] in which no call fails, row by
    row. *)
Lemma train_loop_torch_rows num_epochs bs p w :
  faults w = [] →
  (0 < Z.to_nat bs ≤ length (mnist w))%nat →
  (∃ f, mkdir_from [] p (fs w) = Ok f) →
  fs w !! os_path_join p "metrics.csv" ≠ Some Dir →
  fs w !! os_path_join p "model.pt" ≠ Some Dir →
  let s0 := (torch_locals0 bs (mnist w) (rng w), rng_next (rng_next (rng w))) in
  ∃ st w',
    train_loop_torch_locals num_epochs bs p w = (Ok st, w') ∧
    torch_rows_inv p s0 (file_content (fs w) (os_path_join p "metrics.csv"))
      (range num_epochs) st w'.
Proof.
  intros Hf Hbs Hm Hcsv Hpt s0.
  set (dl := mkDataLoader (mnist w) bs true RandomSampler).
  set (c0 := file_content (fs w) (os_path_join p "metrics.csv")).
  set (t0 := trace w ++ torch_setup_events bs).
  cut (wp (train_loop_torch_locals num_epochs bs p) w
          (λ r w', ∃ st, r = Ok st ∧ torch_inv p dl c0 t0 (range num_epochs) st w' ∧
                         torch_rows_inv p s0 c0 (range num_epochs) st w')).
  { unfold wp. destruct (train_loop_torch_locals num_epochs bs p w) as [r w'].
    simpl. intros (st & -> & _ & HI). eauto. }
  unfold train_loop_torch_locals. wp_step.
  apply wp_train_loop_torch_setup; [done|lia|].
  apply (wp_for_each (λ done st w', torch_inv p dl c0 t0 done st w' ∧
                                    torch_rows_inv p s0 c0 done st w')).
  - split.
    + unfold torch_inv. wsimpl. repeat split; try done.
      { apply built_resnet18_shapes. }
      exists []. repeat split; try done.
      * constructor.
      * by rewrite app_nil_r.
      * simpl. by rewrite app_nil_r.
    + split; [done|]. exists []. wsimpl. split; [by rewrite app_nil_r|].
      split; [done|]. intros k Hk. simpl in Hk. lia.
  - intros done x rest s w1 Hxs [HI HR].
    eapply wp_mono.
    + apply (torch_rows_inv_step p dl s0 c0 t0 done x s w1); try done.
      by apply (range_middle num_epochs done rest).
    + intros r w2 (st' & -> & HI' & HR'). done.
  - intros s w' HI. eauto.
Qed.

End Torch_run.

Section Metrics_log.
Context `{T : Torch}.

(** ** The metrics log *)

(** Nothing is in the way of making the run directory [p], and nothing is
    in it yet. *)
Definition fresh_dir (f : gmap Path Node) (p : Path) : Prop :=
  (∀ q c, q `prefix_of` p → f !! q ≠ Some (File c)) ∧
  (∀ name, f !! os_path_join p name = None).

Lemma mkdir_from_Ok (done rest : Path) (f : gmap Path Node) :
  (∀ q c, q `prefix_of` done ++ rest → f !! q ≠ Some (File c)) →
  ∃ f', mkdir_from done rest f = Ok f'.
Proof.
  revert done f. induction rest as [|x rest IH]; intros done f Hfree; simpl.
  - eauto.
  - assert (done ++ [x] `prefix_of` done ++ x :: rest) as Hpre.
    { exists rest. by rewrite <- app_assoc. }
    destruct (f !! (done ++ [x])) as [[|c]|] eqn:Hq.
    + apply IH. intros q c. rewrite <- app_assoc. apply Hfree.
    + by destruct (Hfree _ c Hpre).
    + apply IH. intros q c Hq'. rewrite <- app_assoc in Hq'.
      destruct (decide (q = done ++ [x])) as [->|Hne].
      * by rewrite lookup_insert_eq.
      * rewrite lookup_insert_ne by done. by apply Hfree.
Qed.

Lemma fresh_dir_ready f p :
  fresh_dir f p →
  (∃ f', mkdir_from [] p f = Ok f') ∧
  f !! os_path_join p "metrics.csv" ≠ Some Dir ∧
  f !! os_path_join p "model.pt" ≠ Some Dir ∧
  file_content f (os_path_join p "metrics.csv") = [].
Proof.
  intros [Hfree Hempty]. split; [by apply mkdir_from_Ok|].
  unfold file_content. by rewrite !Hempty.
Qed.

Lemma epoch_records_length es ms : epoch_records es ms → length ms = length es.
Proof. intros H. symmetry. by eapply Forall2_length. Qed.

Lemma epoch_records_lookup n ms k :
  epoch_records (range n) ms → (k < Z.to_nat n)%nat →
  ∃ l a, ms !! k = Some [("loss", CFloat l); ("epoch", CInt (Z.of_nat k)); ("accuracy", CFloat a)].
Proof.
  intros H Hk.
  assert (range n !! k = Some (Z.of_nat k)) as He.
  { unfold range. rewrite lookup_seqZ. lia. }
  destruct (Forall2_lookup_l _ _ _ _ _ H He) as (m & Hm & l & a & ->). eauto.
Qed.

(** C3. After [train_loop_torch] has run for [num_epochs] epochs on a
    fresh run directory, with no call failing and a dataset of at least one
    batch, the metrics log holds exactly [num_epochs] rows, in the order
    of the epochs (and with no epoch there is no log).  The row of the
    epoch [k] is the text of three values with commas between them and the
    line end of [csv.writer] after them: the loss, which is the loss the
    last batch of the epoch [k] left, then [k], then the accuracy, which is
    that of the metric as the batches of the epoch [k] left it.  The epoch
    [k] starts from the variables and the random state that [k] epochs
    make of those the loop was entered with. *)
Theorem metrics_log_one_row_per_epoch (num_epochs bs : Z) (p : Path) (w : World) :
  faults w = [] →
  (0 < Z.to_nat bs ≤ length (mnist w))%nat →
  fresh_dir (fs w) p →
  let s0 := (torch_locals0 bs (mnist w) (rng w), rng_next (rng_next (rng w))) in
  ∃ w' (rows : list string),
    train_loop_torch num_epochs bs p w = (Ok tt, w') ∧
    file_content (fs w') (os_path_join p "metrics.csv") = Text <$> rows ∧
    (0 < num_epochs → is_Some (fs w' !! os_path_join p "metrics.csv")) ∧
    length rows = Z.to_nat num_epochs ∧
    ∀ k, (k < Z.to_nat num_epochs)%nat →
      let st2 := torch_epoch_end (Nat.iter k torch_next_epoch s0) in
      ∃ l, loss st2 = Some l ∧
           rows !! k = Some ((repr_float (item l) +:+ "," +:+ pretty (Z.of_nat k) +:+ ","
                              +:+ repr_float (acc_compute (metric_state (acc st2))))
                             +:+ crlf).
Proof.
  intros Hf Hbs Hfresh s0.
  destruct (fresh_dir_ready _ _ Hfresh) as (Hm & Hcsv & Hpt & Hc0).
  destruct (train_loop_torch_calm num_epochs bs p w Hf Hbs Hm Hcsv Hpt)
    as (st & w' & Hrun & _ & _ & _ & _ & _ & _ & ms & Hms & Hc & _ & Hlast).
  destruct (train_loop_torch_rows num_epochs bs p w Hf Hbs Hm Hcsv Hpt)
    as (st1 & w1 & Hrun1 & _ & rows & Hrows & Hlen & Hall).
  rewrite Hrun in Hrun1. injection Hrun1 as <- <-.
  exists w', rows. split; [|split; [|split; [|split]]].
  - unfold train_loop_torch, mbind, M_bind, bind. by rewrite Hrun.
  - by rewrite Hrows, Hc0.
  - intros Hn. destruct Hlast as (_ & -> & _); [|done].
    unfold range. rewrite seqZ_cons by done. done.
  - rewrite Hlen. unfold range. by rewrite length_seqZ.
  - intros k Hk. apply Hall. unfold range. by rewrite length_seqZ.
Qed.

End Metrics_log.

Section Checkpoints.
Context `{T : Torch}.

Lemma wp_run {A} (m : M A) w (r : result A) (P : World → Prop) :
  wp m w (λ r' w', r' = r ∧ P w') → ∃ w', m w = (r, w') ∧ P w'.
Proof. unfold wp. destruct (m w) as [r' w']. simpl. intros [-> HP]. eauto. Qed.

(** C10. The log is appended to.  In a run directory that is there and
    holds a metrics log [c], with no call failing: making the directory
    again is no error and changes nothing; a checkpoint write keeps [c]
    and puts exactly one row after it; and a whole run of the loop leaves
    [c] followed by one row per epoch. *)
Theorem metrics_log_is_appended_to (p : Path) (c : list Chunk) (w : World) :
  faults w = [] →
  dir_ready (fs w) p →
  fs w !! os_path_join p "metrics.csv" = Some (File c) →
  fs w !! os_path_join p "model.pt" ≠ Some Dir →
  (∃ w', Path_mkdir p w = (Ok tt, w') ∧ fs w' = fs w) ∧
  (∀ metrics m, ∃ w',
     save_checkpoint_and_metrics_torch metrics m p w = (Ok tt, w') ∧
     fs w' !! os_path_join p "metrics.csv"
     = Some (File (c ++ [Text (csv_line (values metrics))]))) ∧
  (∀ num_epochs bs, (0 < Z.to_nat bs ≤ length (mnist w))%nat →
     ∃ w' (rows : list (list Cell)),
       train_loop_torch num_epochs bs p w = (Ok tt, w') ∧
       length rows = Z.to_nat num_epochs ∧
       file_content (fs w') (os_path_join p "metrics.csv")
       = c ++ ((λ row, Text (csv_line row)) <$> rows)).
Proof.
  intros Hf Hd Hcsv Hpt.
  assert (os_path_join p "metrics.csv" ≠ os_path_join p "model.pt") as Hne
    by (intros H%os_path_join_inj; done).
  assert (fs w !! os_path_join p "metrics.csv" ≠ Some Dir) as Hcsv' by (by rewrite Hcsv).
  split; [|split].
  - apply wp_run. by eapply wp_Path_mkdir.
  - intros metrics m. apply wp_run.
    apply wp_save_checkpoint_and_metrics_torch; [done..|]. wsimpl. split; [done|].
    unfold saved_fs, file_content. rewrite lookup_insert_ne by done.
    by rewrite lookup_insert_eq, Hcsv.
  - intros num_epochs bs Hbs.
    destruct (train_loop_torch_calm num_epochs bs p w Hf Hbs) as
      (st & w' & Hrun & _ & _ & _ & _ & _ & _ & ms & Hms & Hc & _); [by eexists|done..|].
    exists w', (values <$> ms). split; [|split].
    + unfold train_loop_torch, mbind, M_bind, bind. by rewrite Hrun.
    + rewrite length_fmap, (epoch_records_length _ _ Hms). unfold range.
      by rewrite length_seqZ.
    + rewrite Hc. unfold file_content at 1. rewrite Hcsv.
      unfold csv_rows. by rewrite <- list_fmap_compose.
Qed.

Definition is_torch_save (ev : Event) : bool :=
  match ev with EvTorchSave _ => true | _ => false end.

Lemma filter_batch_events (P : Event → bool) (l : list Event) n :
  List.filter P l = [] → List.filter P (concat (replicate n l)) = [].
Proof.
  intros H. induction n as [|n IH]; simpl; [done|]. by rewrite List.filter_app, H, IH.
Qed.

(** What the spec says of a checkpoint write: that it is atomic, that is,
    when it fails the files are as they were. *)
Definition checkpoint_write_atomic : Prop :=
  ∀ metrics m p w,
    match (save_checkpoint_and_metrics_torch metrics m p w).1 with
    | Ok _ => True
    | Raise _ => fs (save_checkpoint_and_metrics_torch metrics m p w).2 = fs w
    end.

(** C4, as the code has it.  In every epoch of [train_loop_torch] that no
    call fails in, exactly one [torch.save] is made, after the epoch's
    batches, and what it writes replaces whatever the weights file held:
    when the epoch is over the file holds exactly the state dict of the
    model as the epoch left it.  (The row of the metrics log is written by
    a call of its own before that; nothing ties the two together.) *)
Theorem checkpoint_superseded_each_epoch (p : Path) (epoch : Z) (st : Locals) (w : World) :
  faults w = [] →
  sampler (data_loader st) = RandomSampler →
  drop_last (data_loader st) = true →
  (0 < Z.to_nat (batch_size (data_loader st)) ≤ length (dataset (data_loader st)))%nat →
  (∃ f, mkdir_from [] p (fs w) = Ok f) →
  fs w !! os_path_join p "metrics.csv" ≠ Some Dir →
  fs w !! os_path_join p "model.pt" ≠ Some Dir →
  ∃ st' w' t,
    train_loop_torch_epoch p epoch st w = (Ok st', w') ∧
    trace w' = trace w ++ t ∧
    List.filter is_torch_save t = [EvTorchSave (os_path_join p "model.pt")] ∧
    model st' = model (foldl after_batch st (random_batches (data_loader st) (rng w))) ∧
    fs w' !! os_path_join p "model.pt" = Some (File [Pickle (state_dict (model st'))]).
Proof.
  intros Hf Hs Hd Hbs [f1 Hm] Hcsv Hpt.
  assert (length (random_batches (data_loader st) (rng w))
          = (length (dataset (data_loader st)) `div` Z.to_nat (batch_size (data_loader st)))%nat)
    as Hlen by (apply random_batches_length; [done|lia]).
  destruct (loss_after_batches st (random_batches (data_loader st) (rng w))) as [l Hl].
  { intros Hnil. rewrite Hnil in Hlen. simpl in Hlen.
    symmetry in Hlen. apply Nat.div_small_iff in Hlen; lia. }
  set (st2 := foldl after_batch st (random_batches (data_loader st) (rng w))) in *.
  cut (wp (train_loop_torch_epoch p epoch st) w
         (λ r w', r = Ok (reset_acc st2) ∧
            trace w' = trace w ++ torch_epoch_events p (torch_metrics l (acc st2) epoch)
                                     (length (random_batches (data_loader st) (rng w))) ∧
            fs w' !! os_path_join p "model.pt"
            = Some (File [Pickle (state_dict (model st2))]))).
  { intros (w' & Hrun & Ht & Hfs)%wp_run. exists (reset_acc st2), w'. eexists.
    split; [done|]. split; [done|]. split; [|done].
    unfold torch_epoch_events. rewrite !List.filter_app.
    rewrite filter_batch_events by done. done. }
  eapply wp_train_loop_torch_epoch; [done..|]. wsimpl.
  split; [done|]. split; [done|]. unfold saved_fs. by rewrite lookup_insert_eq.
Qed.

End Checkpoints.

(** C4, the part that does not hold: the row of the metrics log is in the
    file before the weights are written, so a write that fails when saving
    the weights has changed the files all the same. *)
Lemma checkpoint_write_not_atomic : ¬ @checkpoint_write_atomic Toy.toy_torch.
Proof.
  intros H.
  specialize (H Toy.metrics0 (@built_resnet18 Toy.toy_torch 0%nat) ["run"]
                (Toy.world Toy.run_dir []
                   [None; None; Some (LibraryError "No space left on device")])).
  apply (f_equal (λ f, f !! ["run"; "metrics.csv"])) in H.
  vm_compute in H. discriminate H.
Qed.

Section Exceptions.
Context `{T : Torch}.

Lemma quiet_snoc_split (t0 t1 t2 : list Event) e e' :
  quiet t0 → t0 ++ [EvRaise e] = t1 ++ EvRaise e' :: t2 → t2 = [] ∧ e' = e.
Proof.
  intros Hq Heq. destruct t2 as [|x t2 _] using rev_ind.
  - apply app_inj_tail in Heq as [_ Heq]. by inversion Heq.
  - rewrite app_comm_cons, app_assoc in Heq. apply app_inj_tail in Heq as [-> _].
    apply Forall_app in Hq as [_ Hq]. by inversion Hq.
Qed.

Lemma calm_snoc_split (c0 c1 c2 : list (option Exn)) e e' :
  calm c0 → c0 ++ [Some e] = c1 ++ Some e' :: c2 → c2 = [] ∧ e' = e.
Proof.
  intros Hq Heq. destruct c2 as [|x c2 _] using rev_ind.
  - apply app_inj_tail in Heq as [_ Heq]. by inversion Heq.
  - rewrite app_comm_cons, app_assoc in Heq. apply app_inj_tail in Heq as [-> _].
    apply Forall_app in Hq as [_ Hq]. by inversion Hq.
Qed.

Lemma outcome_propagates {A} (r : result A) t c :
  outcome r t c →
  (∀ e t1 t2, t = t1 ++ EvRaise e :: t2 → t2 = [] ∧ r = Raise e) ∧
  (∀ e c1 c2, c = c1 ++ Some e :: c2 → c2 = [] ∧ r = Raise e) ∧
  (∀ e, r = Raise e → ∃ t1, t = t1 ++ [EvRaise e]).
Proof.
  intros Ho. inversion Ho as [a t0 c0 Hq Hc|e t0 c0 Hq Hc|e t0 c0 Hq Hc]; subst.
  - split; [|split].
    + intros e t1 t2 ->. apply Forall_app in Hq as [_ Hq]. by inversion Hq.
    + intros e c1 c2 ->. apply Forall_app in Hc as [_ Hc]. by inversion Hc.
    + done.
  - split; [|split].
    + intros e' t1 t2 Heq. by destruct (quiet_snoc_split _ _ _ _ _ Hq Heq) as [-> ->].
    + intros e' c1 c2 Heq. by destruct (calm_snoc_split _ _ _ _ _ Hc Heq) as [-> ->].
    + intros e' [= ->]. eauto.
  - split; [|split].
    + intros e' t1 t2 Heq. by destruct (quiet_snoc_split _ _ _ _ _ Hq Heq) as [-> ->].
    + intros e' c1 c2 ->. apply Forall_app in Hc as [_ Hc]. by inversion Hc.
    + intros e' [= ->]. eauto.
Qed.

(** C6. [train_loop_torch] has no handler.  Whatever the environment does
    to its library calls: with [t] the calls the run made and [c] the part
    of the schedule it used up, an exception raised at any point of [t],
    by the code or by a failing call of [c], is followed by nothing and is,
    unchanged, the outcome of the loop; and a run that ends in an
    exception ends at the point where it was raised. *)
Theorem train_loop_torch_exceptions_propagate (num_epochs bs : Z) (p : Path) (w : World) :
  ∃ t c,
    trace (train_loop_torch num_epochs bs p w).2 = trace w ++ t ∧
    faults w = c ++ faults (train_loop_torch num_epochs bs p w).2 ∧
    (∀ e t1 t2, t = t1 ++ EvRaise e :: t2 →
       t2 = [] ∧ (train_loop_torch num_epochs bs p w).1 = Raise e) ∧
    (∀ e c1 c2, c = c1 ++ Some e :: c2 →
       c2 = [] ∧ (train_loop_torch num_epochs bs p w).1 = Raise e) ∧
    (∀ e, (train_loop_torch num_epochs bs p w).1 = Raise e → ∃ t1, t = t1 ++ [EvRaise e]).
Proof.
  destruct (unhandled_train_loop_torch num_epochs bs p w) as (t & c & Ht & Hc & Ho).
  exists t, c. split; [done|]. split; [done|]. by apply outcome_propagates.
Qed.

End Exceptions.

Section Drop_last.
Context `{T : Torch}.

Lemma wp_data_loader_torch bs w Q :
  faults w = [] → 0 < bs →
  Q (Ok (mkDataLoader (mnist w) bs true RandomSampler))
    (set_data_dir (mnist_download (data_dir w))
       (add_trace [EvMNIST; EvDataLoader bs] w)) →
  wp (data_loader_torch bs) w Q.
Proof.
  intros Hf Hbs HQ. unfold data_loader_torch, MNIST, torch_DataLoader.
  repeat wp_step. rewrite bool_decide_eq_false_2 by lia. repeat wp_step.
  match goal with |- Q _ ?w1 => match type of HQ with Q _ ?w2 =>
    replace w1 with w2; [exact HQ|] end end.
  by world_eq.
Qed.

(** C9. The loader of [data_loader_torch] drops the last, short batch.
    With no call failing and a positive batch size: building the loader
    leaves the dataset in [./data] and touches no other file; every batch
    of a pass has exactly [bs] samples; there are [length data / bs] of
    them, which together are the first [bs * (length data / bs)] samples of
    the pass's random order of the dataset, so that the remaining [length
    data mod bs] are skipped; and when the dataset has fewer than [bs]
    samples, a pass yields no batch, and [train_loop_torch], asked for at
    least one epoch, ends its first epoch with [UnboundLocalError] for
    [loss], having written the dataset into [./data] and no other file:
    no run directory, no log, no weights. *)
Theorem drop_last_batches (bs : Z) (w : World) :
  faults w = [] → 0 < bs →
  ∃ dl w1,
    data_loader_torch bs w = (Ok dl, w1) ∧ drop_last dl = true ∧
    data_dir w1 = mnist_download (data_dir w) ∧ fs w1 = fs w ∧
    (∀ w2, faults w2 = [] →
       ∃ batches order w3,
         iter_batches dl w2 = (Ok batches, w3) ∧
         Forall (λ b, length b = Z.to_nat bs) batches ∧
         length batches = (length (mnist w) `div` Z.to_nat bs)%nat ∧
         order ≡ₚ mnist w ∧
         concat batches = take (Z.to_nat bs * (length (mnist w) `div` Z.to_nat bs)) order ∧
         (length (mnist w) < Z.to_nat bs → batches = [])%nat) ∧
    ((length (mnist w) < Z.to_nat bs)%nat →
     ∀ num_epochs p, 0 < num_epochs →
       ∃ w', train_loop_torch num_epochs bs p w = (Raise (UnboundLocalError "loss"), w') ∧
             data_dir w' = mnist_download (data_dir w) ∧
             fs w' = fs w).
Proof.
  intros Hf Hbs.
  exists (mkDataLoader (mnist w) bs true RandomSampler),
         (set_data_dir (mnist_download (data_dir w))
            (add_trace [EvMNIST; EvDataLoader bs] w)).
  split; [|split; [done|split; [done|split; [done|split]]]].
  - destruct (wp_run (data_loader_torch bs) w
                (Ok (mkDataLoader (mnist w) bs true RandomSampler))
                (λ w', w' = set_data_dir (mnist_download (data_dir w))
                              (add_trace [EvMNIST; EvDataLoader bs] w)))
      as (w' & Hrun & ->); [|done].
    by apply wp_data_loader_torch.
  - intros w2 Hf2.
    set (dl := mkDataLoader (mnist w) bs true RandomSampler).
    exists (random_batches dl (rng w2)),
           (random_order (length (mnist w)) (rng w2) (mnist w)).
    destruct (wp_run (iter_batches dl) w2 (Ok (random_batches dl (rng w2))) (λ _, True))
      as (w3 & Hrun & _); [by apply wp_iter_batches_random|].
    exists w3. split; [done|].
    assert (length (random_batches dl (rng w2)) = (length (mnist w) `div` Z.to_nat bs)%nat)
      as Hlen by (by apply random_batches_length).
    split; [by apply (random_batches_full dl)|]. split; [done|].
    split; [by apply random_order_Permutation|]. split.
    + unfold random_batches. simpl. rewrite batch_sampler_concat by (simpl; lia).
      simpl. by rewrite random_order_length.
    + intros Hlt. apply length_zero_iff_nil. rewrite Hlen. by apply Nat.div_small.
  - intros Hlt num_epochs p Hn.
    apply wp_run with (P := λ w', data_dir w' = mnist_download (data_dir w)
                                  ∧ fs w' = fs w).
    unfold train_loop_torch, train_loop_torch_locals. do 2 wp_step.
    apply wp_train_loop_torch_setup; [done..|].
    unfold range. rewrite seqZ_cons by done. simpl.
    wp_step. unfold train_loop_torch_epoch.
    wp_step. apply wp_iter_batches_random; [done..|]. wsimpl.
    assert (random_batches (data_loader (torch_locals0 bs (mnist w) (rng w)))
              (rng_next (rng_next (rng w))) = []) as ->.
    { apply length_zero_iff_nil. rewrite random_batches_length by done.
      by apply Nat.div_small. }
    simpl. by repeat wp_step.
Qed.

End Drop_last.

Section Epoch_metrics.
Context `{T : Torch}.

(** ** What the metrics record holds *)

(** The outputs and labels of the batches of an epoch, as the model, which
    changes from batch to batch, gives them. *)
Fixpoint batch_outputs (st : Locals) (batches : list (list Sample))
  : list (Logits * list Label) :=
  match batches with
  | [] => []
  | b :: batches' => (forward (model st) b.*1, b.*2) :: batch_outputs (after_batch st b) batches'
  end.

Lemma acc_after_batches st batches :
  metric_state (acc (foldl after_batch st batches))
  = foldl (λ s ol, acc_update s ol.1 ol.2) (metric_state (acc st)) (batch_outputs st batches).
Proof.
  revert st. induction batches as [|b batches IH]; intros st; simpl; [done|].
  by rewrite IH.
Qed.

Lemma loss_after_last_batch st init final :
  loss (foldl after_batch st (init ++ [final]))
  = Some (cross_entropy (forward (model (foldl after_batch st init)) final.*1) final.*2).
Proof. by rewrite foldl_app. Qed.

Lemma metric_classes_after_batches st batches :
  metric_classes (acc (foldl after_batch st batches)) = metric_classes (acc st).
Proof.
  revert st. induction batches as [|b batches IH]; intros st; simpl; [done|].
  by rewrite IH.
Qed.

(** C8. The loss of an epoch's record is the loss of its last batch
    alone, from the model as the batches before it left it (the optimizer
    step of the last batch comes after); the accuracy is computed from the
    metric updated with every batch of the epoch, starting from the fresh
    state in which every epoch finds it, and in which this one leaves it.
    This record is what is printed and what goes into the log. *)
Theorem epoch_loss_is_last_batch_loss (p : Path) (epoch : Z) (st : Locals) (w : World)
    (init : list (list Sample)) (final : list Sample) :
  faults w = [] →
  sampler (data_loader st) = RandomSampler →
  random_batches (data_loader st) (rng w) = init ++ [final] →
  metric_state (acc st) = acc_init (metric_classes (acc st)) →
  (∃ f, mkdir_from [] p (fs w) = Ok f) →
  fs w !! os_path_join p "metrics.csv" ≠ Some Dir →
  fs w !! os_path_join p "model.pt" ≠ Some Dir →
  let before_final := foldl after_batch st init in
  let loss_value :=
    item (cross_entropy (forward (model before_final) final.*1) final.*2) in
  let accuracy_value :=
    acc_compute (foldl (λ s ol, acc_update s ol.1 ol.2) (acc_init (metric_classes (acc st)))
                   (batch_outputs st (init ++ [final]))) in
  let metrics :=
    [("loss", CFloat loss_value); ("epoch", CInt epoch); ("accuracy", CFloat accuracy_value)] in
  ∃ st' w',
    train_loop_torch_epoch p epoch st w = (Ok st', w') ∧
    trace w' = trace w ++ torch_epoch_events p metrics (length (init ++ [final])) ∧
    last (file_content (fs w') (os_path_join p "metrics.csv"))
    = Some (Text (csv_line (values metrics))) ∧
    model st' = model (after_batch before_final final) ∧
    metric_state (acc st') = acc_init (metric_classes (acc st')).
Proof.
  intros Hf Hs Hb Hfresh [f1 Hm] Hcsv Hpt before_final loss_value accuracy_value metrics.
  assert (os_path_join p "metrics.csv" ≠ os_path_join p "model.pt") as Hne
    by (intros H%os_path_join_inj; done).
  set (st2 := foldl after_batch st (init ++ [final])).
  assert (torch_metrics (cross_entropy (forward (model before_final) final.*1) final.*2)
            (acc st2) epoch = metrics) as Hmetrics.
  { unfold torch_metrics, metrics, accuracy_value, st2.
    by rewrite acc_after_batches, Hfresh. }
  cut (wp (train_loop_torch_epoch p epoch st) w
         (λ r w', r = Ok (reset_acc st2) ∧
            trace w' = trace w ++ torch_epoch_events p metrics (length (init ++ [final])) ∧
            last (file_content (fs w') (os_path_join p "metrics.csv"))
            = Some (Text (csv_line (values metrics))))).
  { intros (w' & Hrun & Ht & Hrow)%wp_run. exists (reset_acc st2), w'.
    split; [done|]. split; [done|]. split; [done|]. split; [|done].
    unfold st2. by rewrite foldl_app. }
  eapply wp_train_loop_torch_epoch; [done|done| |done..|].
  - rewrite Hb. apply loss_after_last_batch.
  - wsimpl. rewrite Hb.
    repeat match goal with
           | |- context [torch_metrics ?l ?a ?e] =>
               replace (torch_metrics l a e) with metrics by (by rewrite <- Hmetrics)
           end.
    split; [done|]. split; [done|].
    unfold saved_fs, file_content at 1. rewrite lookup_insert_ne by done.
    rewrite lookup_insert_eq. apply last_snoc.
Qed.

End Epoch_metrics.

Section Reload.
Context `{T : Torch}.

(** ** Saving and loading the weights *)

Lemma wp_torch_load p sd w Q :
  faults w = [] → path_error (fs w) p = None → fs w !! p = Some (File [Pickle sd]) →
  Q (Ok sd) (log (EvTorchLoad p) w) → wp (torch_load p) w Q.
Proof.
  intros Hf He Hp HQ. unfold torch_load. repeat wp_step. rewrite He, Hp. by wp_step.
Qed.

Lemma wp_load_state_dict (m : resnet) sd w Q :
  faults w = [] → shape <$> sd = shape <$> tensors m →
  Q (Ok (mkResNet (conv1 m) (fc m) (training m) sd)) (log EvLoadStateDict w) →
  wp (load_state_dict m sd) w Q.
Proof.
  intros Hf Hs HQ. unfold load_state_dict. repeat wp_step.
  rewrite bool_decide_eq_true_2 by done. by wp_step.
Qed.

(** C7. Saving and reloading the weights is a round trip.  Let [m] be a
    model with the tensors of [build_resnet18]'s, of whatever values.  Once
    [torch.save] has written its state dict to [model.pt] in a directory
    and no later call fails, the reload cell returns a model, in eval mode,
    whose state dict is the saved one, whose first convolution takes one
    channel, whose classifier has ten outputs, and which maps a batch of
    one-channel images to ten values each (and refuses three channels). *)
Theorem checkpoint_reload_round_trip (m : resnet) (d : Path) (w w1 : World) :
  shape <$> state_dict m = mnist_resnet18_shapes →
  torch_save (state_dict m) (os_path_join d "model.pt") w = (Ok tt, w1) →
  faults w1 = [] →
  ∃ loaded w2,
    reload_checkpoint d w1 = (Ok loaded, w2) ∧
    state_dict loaded = state_dict m ∧
    in_channels (conv1 loaded) = 1 ∧
    out_features (fc loaded) = 10 ∧
    training loaded = false ∧
    ∀ n h wd, output_shape loaded [n; 1; h; wd] = Some [n; 10] ∧
              output_shape loaded [n; 3; h; wd] = None.
Proof.
  intros Hshape Hsave Hf.
  assert (fs w1 !! os_path_join d "model.pt" = Some (File [Pickle (state_dict m)])) as Hfile.
  { revert Hsave.
    unfold torch_save, lib_writing, mbind, M_bind, bind, get, modify, raise. simpl.
    destruct (faults w) as [|[e|] fl]; simpl; try done;
      destruct (write_error _ _); simpl; intros [= <-]; simpl; by rewrite lookup_insert_eq. }
  assert (path_error (fs w1) (os_path_join d "model.pt") = None) as Hpath.
  { revert Hsave.
    unfold torch_save, lib_writing, mbind, M_bind, bind, get, modify, raise. simpl.
    destruct (faults w) as [|[e|] fl]; simpl; try done;
      destruct (write_error _ _) eqn:He; simpl; intros [= <-]; simpl;
      rewrite path_error_insert; unfold write_error in He;
      by destruct (path_error _ _). }
  cut (wp (reload_checkpoint d) w1
         (λ r w2, r = Ok (mkResNet (conv1 (built_resnet18 (rng w1))) (fc (built_resnet18 (rng w1)))
                            false (state_dict m)) ∧ True)).
  { intros (w2 & Hrun & _)%wp_run. eexists _, w2. split; [done|].
    simpl. repeat split; try done.
    - unfold output_shape. simpl.
      assert (shape <$> state_dict m !! "conv1.weight" = Some [64; 1; 7; 7]) as ->.
      { rewrite <- lookup_fmap, Hshape. unfold mnist_resnet18_shapes.
        rewrite lookup_delete_ne by done. by rewrite lookup_insert_eq. }
      assert (shape <$> state_dict m !! "fc.weight" = Some [10; 512]) as ->.
      { rewrite <- lookup_fmap, Hshape. unfold mnist_resnet18_shapes.
        rewrite lookup_delete_ne by done. rewrite !lookup_insert_ne by done.
        by rewrite lookup_insert_eq. }
      done.
    - unfold output_shape. simpl.
      assert (shape <$> state_dict m !! "conv1.weight" = Some [64; 1; 7; 7]) as ->.
      { rewrite <- lookup_fmap, Hshape. unfold mnist_resnet18_shapes.
        rewrite lookup_delete_ne by done. by rewrite lookup_insert_eq. }
      assert (shape <$> state_dict m !! "fc.weight" = Some [10; 512]) as ->.
      { rewrite <- lookup_fmap, Hshape. unfold mnist_resnet18_shapes.
        rewrite lookup_delete_ne by done. rewrite !lookup_insert_ne by done.
        by rewrite lookup_insert_eq. }
      done. }
  unfold reload_checkpoint. wp_step. apply wp_build_resnet18; [done|]. wsimpl.
  wp_step. eapply wp_torch_load; [done..|]. wsimpl.
  wp_step. apply wp_load_state_dict; [done| |].
  { by rewrite built_resnet18_shapes. }
  unfold eval. by repeat wp_step.
Qed.

End Reload.

Section Guarantees.
Context `{T : Torch}.

(** ** What a worker does whatever the environment does *)

(** Run in the context [c], [m] leaves the context alone, makes only calls
    that [P] allows, and returns only values that [R] allows.  [P] is to
    allow every [EvRaise]. *)
Definition guarantees {A} (c : TrainContext) (P : Event → Prop) (R : A → Prop) (m : M A)
  : Prop :=
  ∀ w, context w = c →
    context (m w).2 = c ∧
    (∃ t, trace (m w).2 = trace w ++ t ∧ Forall P t) ∧
    (∀ a, (m w).1 = Ok a → R a).

Variable c : TrainContext.
Variable P : Event → Prop.
Hypothesis P_raise : ∀ e, P (EvRaise e).

Lemma guarantees_ret {A} (R : A → Prop) a : R a → guarantees c P R (mret a).
Proof.
  intros HR w Hc. simpl. split; [done|]. split.
  - exists []. by rewrite app_nil_r.
  - by intros a' [= <-].
Qed.

Lemma guarantees_raise {A} (R : A → Prop) e : guarantees c P R (raise e).
Proof.
  intros w Hc. simpl. split; [done|]. split; [|done].
  exists [EvRaise e]. split; [done|]. by repeat constructor.
Qed.

Lemma guarantees_lib (R : unit → Prop) ev : P ev → R tt → guarantees c P R (lib ev).
Proof.
  intros Hev HR w Hc. unfold lib. simpl.
  destruct (faults w) as [|[e|] fl]; simpl.
  - split; [done|]. split; [|by intros []].
    exists [ev]. split; [done|]. by repeat constructor.
  - split; [done|]. split; [|done].
    exists [ev; EvRaise e]. rewrite <- app_assoc. split; [done|]. by repeat constructor.
  - split; [done|]. split; [|by intros []].
    exists [ev]. split; [done|]. by repeat constructor.
Qed.

Lemma guarantees_lib_writing (R : unit → Prop) ev partial :
  P ev → R tt →
  (∀ w, context (partial w) = context w) → (∀ w, trace (partial w) = trace w) →
  guarantees c P R (lib_writing ev partial).
Proof.
  intros Hev HR Hpc Hpt w Hc. unfold lib_writing. simpl.
  destruct (faults w) as [|[e|] fl]; simpl.
  - split; [done|]. split; [|by intros []].
    exists [ev]. split; [done|]. by repeat constructor.
  - rewrite Hpc, Hpt. simpl. split; [done|]. split; [|done].
    exists [ev; EvRaise e]. rewrite <- app_assoc. split; [done|]. by repeat constructor.
  - split; [done|]. split; [|by intros []].
    exists [ev]. split; [done|]. by repeat constructor.
Qed.

Lemma guarantees_get {A} (R : A → Prop) (f : World → A) :
  (∀ w, context w = c → R (f w)) → guarantees c P R (get f).
Proof.
  intros HR w Hc. simpl. split; [done|]. split.
  - exists []. by rewrite app_nil_r.
  - intros a [= <-]. by apply HR.
Qed.

Lemma guarantees_modify (R : unit → Prop) (f : World → World) :
  (∀ w, context (f w) = context w) → (∀ w, trace (f w) = trace w) → R tt →
  guarantees c P R (modify f).
Proof.
  intros Hcf Htf HR w Hc. simpl. rewrite Hcf, Htf. split; [done|]. split.
  - exists []. by rewrite app_nil_r.
  - by intros [].
Qed.

Lemma guarantees_bind {A B} (R : A → Prop) (R' : B → Prop) (m : M A) (k : A → M B) :
  guarantees c P R m → (∀ a, R a → guarantees c P R' (k a)) → guarantees c P R' (m ≫= k).
Proof.
  intros Hm Hk w Hc. destruct (Hm w Hc) as (Hc1 & (t1 & Ht1 & HP1) & HR).
  unfold mbind, M_bind, bind. destruct (m w) as [[a|e] w1]; simpl in *.
  - destruct (Hk a (HR a eq_refl) w1 Hc1) as (Hc2 & (t2 & Ht2 & HP2) & HR').
    split; [done|]. split; [|done].
    exists (t1 ++ t2). rewrite Ht2, Ht1, app_assoc. split; [done|]. by apply Forall_app.
  - split; [done|]. split; [eauto|done].
Qed.

Lemma guarantees_weaken {A} (R R' : A → Prop) (m : M A) :
  guarantees c P R m → (∀ a, R a → R' a) → guarantees c P R' m.
Proof.
  intros Hm HR w Hc. destruct (Hm w Hc) as (Hc1 & Ht & HR1). eauto.
Qed.

Lemma guarantees_for_each {A S} (xs : list A) (body : A → S → M S) st :
  (∀ x s, guarantees c P (λ _, True) (body x s)) →
  guarantees c P (λ _, True) (for_each xs body st).
Proof.
  intros Hb. revert st. induction xs as [|x xs IH]; intros st; simpl.
  - by apply guarantees_ret.
  - eapply guarantees_bind; [apply Hb | intros; apply IH].
Qed.

Lemma guarantees_cleanup {A} (R : A → Prop) d (m : M A) :
  guarantees c P R m → guarantees c P R (cleanup d m).
Proof.
  intros Hm w Hc. destruct (Hm w Hc) as (Hc1 & Ht & HR).
  unfold cleanup. destruct (m w) as [r w1]; simpl in *. eauto.
Qed.

End Guarantees.

Create HintDb guarantees.

(** One step of a proof that a program [guarantees] a trace property with
    any returned value; the calls have to be allowed on sight. *)
Ltac guarantees_step :=
  lazymatch goal with
  | |- guarantees _ _ _ (mret _) => apply guarantees_ret; done
  | |- guarantees _ _ _ (ray_get_context _ ≫= _) => fail "the value read matters"
  | |- guarantees _ _ _ (getitem _ _ ≫= _) => fail "the value read matters"
  | |- guarantees _ _ _ (_ ≫= _) => eapply (guarantees_bind _ _ (λ _, True)); [|intros ? _]
  | |- guarantees _ _ _ (lib _) =>
      apply guarantees_lib; [auto with guarantees | cbn; eauto 7 with guarantees | done]
  | |- guarantees _ _ _ (lib_writing _ _) =>
      apply guarantees_lib_writing;
        [auto with guarantees | cbn; eauto 7 with guarantees | done
        | intros ?; try reflexivity; unfold torch_save_partial; by destruct (write_error _ _)
        | intros ?; try reflexivity; unfold torch_save_partial; by destruct (write_error _ _)]
  | |- guarantees _ _ _ (raise _) => apply guarantees_raise; auto with guarantees
  | |- guarantees _ _ _ (get _) => apply guarantees_get; done
  | |- guarantees _ _ _ (modify _) => apply guarantees_modify; done
  | |- guarantees _ _ _ (for_each _ _ _) => apply guarantees_for_each; intros
  | |- guarantees _ _ _ (cleanup _ _) => apply guarantees_cleanup
  | |- guarantees _ _ _ (match ?x with _ => _ end) => destruct x
  | |- guarantees _ _ _ _ => solve [auto with guarantees]
  end.

Ltac guarantees_proof := intros; cbv zeta; repeat guarantees_step.

Section Worker.
Context `{T : Torch}.
Variable config : gmap string Z.

(** What a worker with the context [c] may do in [train_loop_ray_train]:
    of its context it asks the rank and the world size only; the batch
    size it builds its loader with is the global one divided, rounding
    down, by the world size; it saves weights and makes a checkpoint only
    with rank 0; and its reports carry a checkpoint with rank 0 and none
    otherwise. *)
Definition worker_ok (c : TrainContext) (ev : Event) : Prop :=
  match ev with
  | EvCtx q => q = GetWorldRank ∨ q = GetWorldSize
  | EvDataLoader b =>
      ∃ g, config !! "global_batch_size" = Some g ∧ world_size c ≠ 0 ∧
           b = g `div` world_size c
  | EvTorchSave _ | EvCheckpointFromDirectory _ => world_rank c = 0
  | EvReport _ checkpoint => is_Some checkpoint ↔ world_rank c = 0
  | _ => True
  end.

Lemma worker_ok_raise c e : worker_ok c (EvRaise e).
Proof. done. Qed.

#[local] Hint Resolve worker_ok_raise : guarantees.

Lemma guarantees_ray_get_context c q :
  q = GetWorldRank ∨ q = GetWorldSize →
  guarantees c (worker_ok c) (λ a, a = ctx_get c q) (ray_get_context q).
Proof.
  intros Hq. unfold ray_get_context.
  eapply (guarantees_bind _ _ (λ _, True)); [guarantees_step|intros ? _].
  eapply (guarantees_bind _ _ (λ c', c' = c)); [by apply guarantees_get|intros ? ->].
  by apply guarantees_ret.
Qed.

Lemma guarantees_getitem c key :
  guarantees c (worker_ok c) (λ v, config !! key = Some v) (getitem config key).
Proof.
  unfold getitem. destruct (config !! key) as [v|] eqn:Hv.
  - by apply guarantees_ret.
  - apply guarantees_raise. auto with guarantees.
Qed.

Lemma guarantees_floordiv c a b :
  guarantees c (worker_ok c) (λ r, b ≠ 0 ∧ r = a `div` b) (floordiv a b).
Proof.
  unfold floordiv. case_bool_decide.
  - apply guarantees_raise. auto with guarantees.
  - by apply guarantees_ret.
Qed.

Lemma guarantees_save_checkpoint_and_metrics_ray_train c m metrics :
  guarantees c (worker_ok c) (λ _, True) (save_checkpoint_and_metrics_ray_train m metrics).
Proof.
  unfold save_checkpoint_and_metrics_ray_train, with_TemporaryDirectory.
  guarantees_proof.
  eapply guarantees_bind; [apply guarantees_ray_get_context; by left|].
  intros rank ->. simpl.
  eapply (guarantees_bind _ _ (λ ck, is_Some ck ↔ world_rank c = 0)).
  - case_bool_decide as Hrank.
    + unfold torch_save, Checkpoint_from_directory.
      eapply (guarantees_bind _ _ (λ _, True)); [guarantees_proof|intros ? _].
      eapply (guarantees_bind _ _ (λ _, True)); [guarantees_proof|intros ? _].
      apply guarantees_ret. split; [done|by eexists].
    + apply guarantees_ret. split; [by intros [? ?]|done].
  - intros ck Hck. unfold ray_train_report. guarantees_proof.
Qed.

Lemma guarantees_print_metrics_ray_train c l a epoch :
  guarantees c (worker_ok c) (λ _, True) (print_metrics_ray_train l a epoch).
Proof.
  unfold print_metrics_ray_train, tensor_item, print. guarantees_proof.
  eapply guarantees_bind; [apply guarantees_ray_get_context; by left|].
  intros rank ->. guarantees_proof.
Qed.

Lemma guarantees_train_loop_ray_train_batch c batch st :
  guarantees c (worker_ok c) (λ _, True) (train_loop_ray_train_batch batch st).
Proof.
  unfold train_loop_ray_train_batch, call_model, criterion, zero_grad, loss_backward,
    optimizer_step, metric_update.
  guarantees_proof.
Qed.

Lemma guarantees_iter_batches c dl :
  guarantees c (worker_ok c) (λ _, True) (iter_batches dl).
Proof. unfold iter_batches. guarantees_proof. Qed.

#[local] Hint Resolve guarantees_save_checkpoint_and_metrics_ray_train
  guarantees_print_metrics_ray_train guarantees_train_loop_ray_train_batch
  guarantees_iter_batches : guarantees.

Lemma guarantees_train_loop_ray_train_epoch c epoch st :
  guarantees c (worker_ok c) (λ _, True)
    (train_loop_ray_train_epoch save_checkpoint_and_metrics_ray_train epoch st).
Proof.
  unfold train_loop_ray_train_epoch, set_epoch, local, metric_compute, metric_reset.
  guarantees_proof.
Qed.

Lemma guarantees_train_loop_ray_train_setup c :
  guarantees c (worker_ok c) (λ _, True) (train_loop_ray_train_setup config).
Proof.
  unfold train_loop_ray_train_setup, load_model_ray_train, resnet18, torch_nn_Conv2d, draw_rng,
    prepare_model, Adam, data_loader_ray_train, MNIST, torch_DataLoader,
    prepare_data_loader, Accuracy, model_device.
  guarantees_proof.
  eapply guarantees_bind; [apply guarantees_getitem|]. intros g Hg. simpl in Hg.
  eapply guarantees_bind; [apply guarantees_ray_get_context; by right|].
  intros ws ->. cbn [ctx_get].
  eapply guarantees_bind; [apply guarantees_floordiv|]. intros bs [Hws ->].
  guarantees_proof.
Qed.

#[local] Hint Resolve guarantees_train_loop_ray_train_epoch
  guarantees_train_loop_ray_train_setup : guarantees.

(** Whatever the environment does, a worker keeps to [worker_ok]. *)
Lemma guarantees_train_loop_ray_train c :
  guarantees c (worker_ok c) (λ _, True) (train_loop_ray_train config).
Proof.
  unfold train_loop_ray_train, train_loop_ray_train_with, getitem. guarantees_proof.
Qed.

End Worker.

Section Shards.
Context {A : Type}.
Implicit Types l : list A.

Lemma strided_length n skip l :
  (skip < n)%nat → length (strided n skip l) = ((length l + n - 1 - skip) `div` n)%nat.
Proof.
  intros Hskip. revert skip Hskip. induction l as [|x l IH]; intros skip Hskip.
  - symmetry. apply Nat.div_small. simpl. lia.
  - destruct skip as [|k]; cbn [strided length].
    + rewrite IH by lia.
      replace (length l + n - 1 - (n - 1))%nat with (length l) by lia.
      replace (S (length l) + n - 1 - 0)%nat with (1 * n + length l)%nat by lia.
      rewrite Nat.div_add_l by lia. done.
    + rewrite IH by lia. f_equal. lia.
Qed.

Lemma shard_length n rank l :
  (rank < n)%nat → length (shard n rank l) = ((length l + n - 1) `div` n)%nat.
Proof.
  intros Hrank. unfold shard. rewrite strided_length by done.
  set (q := ((length l + n - 1) `div` n)%nat).
  assert (length (take (q * n) (mjoin (replicate (S n) l))) = q * n)%nat as ->.
  { rewrite length_take. apply Nat.min_l.
    assert (length (mjoin (replicate (S n) l)) = S n * length l)%nat as ->.
    { generalize (S n). intros k. induction k as [|k IH]; simpl; [done|].
      rewrite length_app, IH. lia. }
    destruct (decide (length l = 0)%nat) as [Hz|Hnz].
    - unfold q. rewrite Hz. simpl. rewrite Nat.div_small by lia. lia.
    - pose proof (Nat.Div0.mul_div_le (length l + n - 1) n) as Hle.
      fold q in Hle. nia. }
  replace (q * n + n - 1 - rank)%nat with (q * n + (n - 1 - rank))%nat by lia.
  rewrite Nat.div_add_l by lia. rewrite (Nat.div_small (n - 1 - rank)) by lia. lia.
Qed.

End Shards.

Section Temporary.
Context `{T : Torch}.

(** Nothing is left under [/tmp]. *)
Definition no_tmp (f : gmap Path Node) : Prop :=
  ∀ q, ["tmp"] `prefix_of` q → q ≠ ["tmp"] → f !! q = None.

Lemma tmp_path_prefix (n : nat) (q : Path) : tmp_path n `prefix_of` q → ["tmp"] `prefix_of` q ∧ q ≠ ["tmp"].
Proof. intros [k ->]. split; [by eexists|done]. Qed.

Lemma no_tmp_insert_tmp f : no_tmp f → no_tmp (<[["tmp"] := Dir]> f).
Proof. intros H q Hq Hne. rewrite lookup_insert_ne by done. by apply H. Qed.

Lemma rmtree_lookup (d : Path) (f : gmap Path Node) (q : Path) :
  rmtree d f !! q = if decide (d `prefix_of` q) then None else f !! q.
Proof.
  unfold rmtree. rewrite map_lookup_filter.
  destruct (f !! q) as [x|]; simpl; [|by case_decide].
  case_guard; simpl in *; by case_decide.
Qed.

Lemma rmtree_tmp_saved (n : nat) (f : gmap Path Node) (x : Node) :
  no_tmp f →
  rmtree (tmp_path n)
    (<[os_path_join (tmp_path n) "model.pt" := x]>
       (<[tmp_path n := Dir]> (<[["tmp"] := Dir]> f)))
  = <[["tmp"] := Dir]> f.
Proof.
  intros Hno. apply map_eq. intros q. rewrite rmtree_lookup. case_decide as Hpre.
  - destruct (tmp_path_prefix _ _ Hpre) as [Hq Hne].
    rewrite lookup_insert_ne by done. symmetry. by apply Hno.
  - rewrite (lookup_insert_ne _ (os_path_join (tmp_path n) "model.pt")),
      (lookup_insert_ne _ (tmp_path n)); [done|..];
      intros <-; apply Hpre; first [done | by eexists].
Qed.

Lemma rmtree_tmp_empty (n : nat) (f : gmap Path Node) :
  no_tmp f →
  rmtree (tmp_path n) (<[tmp_path n := Dir]> (<[["tmp"] := Dir]> f)) = <[["tmp"] := Dir]> f.
Proof.
  intros Hno. apply map_eq. intros q. rewrite rmtree_lookup. case_decide as Hpre.
  - destruct (tmp_path_prefix _ _ Hpre) as [Hq Hne].
    rewrite lookup_insert_ne by done. symmetry. by apply Hno.
  - rewrite lookup_insert_ne; [done|]. intros <-. by apply Hpre.
Qed.

Lemma write_error_tmp (n : nat) (f : gmap Path Node) :
  no_tmp f →
  write_error (<[tmp_path n := Dir]> (<[["tmp"] := Dir]> f))
    (os_path_join (tmp_path n) "model.pt") = None.
Proof.
  intros Hno. unfold write_error.
  assert (f !! os_path_join (tmp_path n) "model.pt" = None) as Hnone.
  { apply Hno; [by eexists|done]. }
  unfold path_error. rewrite parent_join. rewrite !lookup_insert_ne by done. rewrite Hnone.
  unfold tmp_path at 1. cbn [resolve app]. rewrite lookup_insert_ne by done.
  rewrite lookup_insert_eq. fold (tmp_path n). by rewrite lookup_insert_eq.
Qed.

Lemma wp_cleanup {A} d (m : M A) w Q :
  wp m w (λ r w', Q r (set_fs (rmtree d (fs w')) w')) → wp (cleanup d m) w Q.
Proof. unfold wp, cleanup. by destruct (m w). Qed.

Lemma wp_ray_get_context q w Q :
  faults w = [] → Q (Ok (ctx_get (context w) q)) (log (EvCtx q) w) →
  wp (ray_get_context q) w Q.
Proof. intros Hf HQ. unfold ray_get_context. by repeat wp_step. Qed.

End Temporary.

Section Ray_loop.
Context `{T : Torch}.

(** ** The Ray Train loop, call by call *)

(** The files of the checkpoint a worker hands over: its temporary
    directory [d] with the weights in it. *)
Definition checkpoint_files (d : Path) (sd : state_dict_t) (f : gmap Path Node)
  : gmap Path Node :=
  dir_snapshot d (<[os_path_join d "model.pt" := File [Pickle sd]]>
                    (<[d := Dir]> (<[["tmp"] := Dir]> f))).

(** What a worker of rank [rank] reports at the end of an epoch. *)
Definition worker_report (rank : Z) (metrics : Metrics) (d : Path) (sd : state_dict_t)
    (f : gmap Path Node) : Metrics * option (Path * gmap Path Node) :=
  (metrics, if bool_decide (rank = 0) then Some (d, checkpoint_files d sd f) else None).

Definition ray_save_events (rank : Z) (metrics : Metrics) (d : Path) : list Event :=
  [EvTemporaryDirectory d; EvCtx GetWorldRank]
  ++ (if bool_decide (rank = 0)
      then [EvTorchSave (os_path_join d "model.pt"); EvCheckpointFromDirectory d]
      else [])
  ++ [EvReport metrics (if bool_decide (rank = 0) then Some d else None)].

Lemma wp_save_checkpoint_and_metrics_ray_train m metrics w Q :
  faults w = [] → no_tmp (fs w) →
  Q (Ok tt)
    (set_fs (<[["tmp"] := Dir]> (fs w))
       (set_tmp_count (S (tmp_count w))
          (set_reported
             (reported w ++ [worker_report (world_rank (context w)) metrics
                               (tmp_path (tmp_count w)) (state_dict (module m)) (fs w)])
             (add_trace (ray_save_events (world_rank (context w)) metrics
                           (tmp_path (tmp_count w))) w)))) →
  wp (save_checkpoint_and_metrics_ray_train m metrics) w Q.
Proof.
  intros Hf Hno HQ.
  unfold save_checkpoint_and_metrics_ray_train, with_TemporaryDirectory.
  repeat wp_step. apply wp_cleanup.
  wp_step. apply wp_ray_get_context; [done|]. wsimpl. cbn [ctx_get].
  unfold worker_report, ray_save_events, checkpoint_files in HQ.
  wp_step. destruct (decide (world_rank (context w) = 0)) as [Hrank|Hrank].
  - rewrite !bool_decide_eq_true_2 in * by done.
    wp_step. apply wp_torch_save; [done|by apply write_error_tmp|]. wsimpl.
    unfold Checkpoint_from_directory, ray_train_report. repeat wp_step.
    rewrite rmtree_tmp_saved by done.
    match goal with |- Q _ ?w1 => match type of HQ with Q _ ?w2 =>
      replace w1 with w2; [exact HQ|] end end.
    by world_eq.
  - rewrite !bool_decide_eq_false_2 in * by done.
    unfold ray_train_report. repeat wp_step.
    rewrite rmtree_tmp_empty by done.
    match goal with |- Q _ ?w1 => match type of HQ with Q _ ?w2 =>
      replace w1 with w2; [exact HQ|] end end.
    by world_eq.
Qed.

Definition ray_batch_events : list Event :=
  [EvNextBatch; EvForward; EvCriterion; EvZeroGrad; EvBackward; EvOptStep; EvMetricUpdate].

Lemma wp_train_loop_ray_train_batch batch st w Q :
  faults w = [] →
  Q (Ok (after_batch st batch)) (add_trace ray_batch_events w) →
  wp (train_loop_ray_train_batch batch st) w Q.
Proof.
  intros Hf HQ.
  unfold train_loop_ray_train_batch, call_model, criterion, zero_grad, loss_backward,
    optimizer_step, metric_update.
  repeat wp_step.
  match goal with |- Q _ ?w1 => replace w1 with (add_trace ray_batch_events w) end;
    [exact HQ | by world_eq].
Qed.

Lemma wp_train_loop_ray_train_batches batches st w Q :
  faults w = [] →
  Q (Ok (foldl after_batch st batches))
    (add_trace (concat (replicate (length batches) ray_batch_events)) w) →
  wp (for_each batches train_loop_ray_train_batch st) w Q.
Proof.
  revert st w. induction batches as [|b batches IH]; intros st w Hf HQ; simpl.
  - apply wp_ret. replace w with (add_trace [] w); [done|]. world_eq. apply app_nil_r.
  - apply wp_bind, wp_train_loop_ray_train_batch; [done|]. apply IH; [done|].
    match goal with |- Q _ ?w1 => match type of HQ with Q _ ?w2 =>
      replace w1 with w2; [exact HQ|] end end.
    by world_eq.
Qed.

(** The batches of the pass of epoch [epoch] for the replica [rank] of
    [n]. *)
Definition shard_batches (dl : DataLoader) (n rank epoch : Z) : list (list Sample) :=
  batch_sampler (Z.to_nat (batch_size dl)) (drop_last dl) []
    (shard (Z.to_nat n) (Z.to_nat rank)
       (random_order (length (dataset dl)) (rng_of_seed epoch) (dataset dl))).

Definition with_epoch (dl : DataLoader) (n rank epoch : Z) : DataLoader :=
  mkDataLoader (dataset dl) (batch_size dl) (drop_last dl) (DistributedSampler n rank epoch).

(** The record [print_metrics_ray_train] builds. *)
Definition ray_metrics (l : LossT) (a : Metric) (epoch : Z) : Metrics :=
  [("loss", CFloat (item l)); ("accuracy", CFloat (acc_compute (metric_state a)));
   ("epoch", CInt epoch)].

Definition ray_print_events (rank : Z) (metrics : Metrics) : list Event :=
  [EvItem; EvItem; EvCtx GetWorldRank] ++ (if bool_decide (rank = 0) then [EvPrint metrics] else []).

(** The calls of one epoch of [train_loop_ray_train] over [k] batches, by
    the worker of rank [rank] with the temporary directory [d]. *)
Definition ray_epoch_events (rank epoch : Z) (metrics : Metrics) (d : Path) (k : nat)
  : list Event :=
  [EvSetEpoch epoch; EvIter] ++ concat (replicate k ray_batch_events)
  ++ [EvMetricCompute] ++ ray_print_events rank metrics
  ++ ray_save_events rank metrics d ++ [EvMetricReset].

Definition ray_after_epoch (st2 : Locals) (dl : DataLoader) : Locals :=
  mkLocals (model st2) (optimizer st2) (grad st2)
    (mkMetric (metric_classes (acc st2)) (acc_init (metric_classes (acc st2))))
    dl (loss st2).

Lemma wp_train_loop_ray_train_epoch epoch st w n rank e0 l Q :
  let dl := with_epoch (data_loader st) n rank epoch in
  let batches := shard_batches (data_loader st) n rank epoch in
  let st2 := foldl after_batch st batches in
  let metrics := ray_metrics l (acc st2) epoch in
  let d := tmp_path (tmp_count w) in
  faults w = [] → no_tmp (fs w) →
  sampler (data_loader st) = DistributedSampler n rank e0 →
  loss st2 = Some l →
  Q (Ok (ray_after_epoch st2 dl))
    (set_fs (<[["tmp"] := Dir]> (fs w))
       (set_tmp_count (S (tmp_count w))
          (set_reported
             (reported w ++ [worker_report (world_rank (context w)) metrics d
                               (state_dict (model st2)) (fs w)])
             (add_trace (ray_epoch_events (world_rank (context w)) epoch metrics d
                           (length batches)) w)))) →
  wp (train_loop_ray_train_epoch save_checkpoint_and_metrics_ray_train epoch st) w Q.
Proof.
  intros dl batches st2 metrics d Hf Hno Hs Hl HQ.
  unfold train_loop_ray_train_epoch, set_epoch.
  repeat wp_step. rewrite Hs. repeat wp_step.
  unfold iter_batches. cbn [sampler]. repeat wp_step.
  apply wp_train_loop_ray_train_batches; [done|].
  cbn [dataset batch_size drop_last]. fold (shard_batches (data_loader st) n rank epoch).
  fold batches st2. wp_step. rewrite Hl.
  unfold local, metric_compute, print_metrics_ray_train, tensor_item, print.
  repeat wp_step. apply wp_ray_get_context; [done|]. wsimpl. cbn [ctx_get].
  wp_step.
  unfold ray_epoch_events, ray_print_events in HQ.
  destruct (decide (world_rank (context w) = 0)) as [Hrank|Hrank].
  - rewrite !bool_decide_eq_true_2 in * by done.
    repeat wp_step. apply wp_save_checkpoint_and_metrics_ray_train; [done..|]. wsimpl.
    unfold metric_reset. repeat wp_step. rewrite <- Hl.
    match goal with |- Q _ ?w1 => match type of HQ with Q _ ?w2 =>
      replace w1 with w2; [exact HQ|] end end.
    world_eq.
  - rewrite !bool_decide_eq_false_2 in * by done.
    repeat wp_step. apply wp_save_checkpoint_and_metrics_ray_train; [done..|]. wsimpl.
    unfold metric_reset. repeat wp_step. rewrite <- Hl.
    match goal with |- Q _ ?w1 => match type of HQ with Q _ ?w2 =>
      replace w1 with w2; [exact HQ|] end end.
    world_eq.
Qed.

End Ray_loop.

Section Ray_run.
Context `{T : Torch}.

Definition ray_setup_events (batch_size : Z) : list Event :=
  [EvCrossEntropyLoss] ++ build_events
  ++ [EvPrepareModel; EvAdam; EvCtx GetWorldSize; EvMNIST; EvDataLoader batch_size;
      EvPrepareDataLoader; EvAccuracy 10; EvMetricTo].

(** The network a worker trains, with more than one worker: the one it
    built with rank 0, and otherwise that one with the tensor values [r0]
    of rank 0. *)
Definition ray_model (c : TrainContext) (r0 : string → TData) (g : RNG) : resnet :=
  if bool_decide (world_rank c = 0) then built_resnet18 g
  else map_data (λ name _, r0 name) (built_resnet18 g).

Lemma ray_model_shapes c r0 g : shape <$> tensors (ray_model c r0 g) = mnist_resnet18_shapes.
Proof.
  unfold ray_model. case_bool_decide; [|rewrite map_data_shapes]; apply built_resnet18_shapes.
Qed.

(** The variables as [train_loop_ray_train] has them before its loop, with
    more than one worker. *)
Definition ray_locals0 (batch_size : Z) (data : list Sample) (c : TrainContext)
    (r0 : string → TData) (g : RNG) : Locals :=
  mkLocals (ray_model c r0 g) (adam_init (ray_model c r0 g)) None (mkMetric 10 (acc_init 10))
    (mkDataLoader data batch_size true (DistributedSampler (world_size c) (world_rank c) 0))
    None.

Lemma wp_train_loop_ray_train_setup config g w Q :
  faults w = [] →
  config !! "global_batch_size" = Some g →
  1 < world_size (context w) →
  0 < g `div` world_size (context w) →
  Q (Ok (ray_locals0 (g `div` world_size (context w)) (mnist w) (context w) (rank0_data w)
           (rng w)))
    (set_data_dir (mnist_download (data_dir w))
       (set_rng (rng_next (rng_next (rng w)))
          (add_trace (ray_setup_events (g `div` world_size (context w))) w))) →
  wp (train_loop_ray_train_setup config) w Q.
Proof.
  intros Hf Hg Hn Hbs HQ.
  unfold train_loop_ray_train_setup, load_model_ray_train, resnet18, torch_nn_Conv2d, draw_rng,
    prepare_model, Adam, getitem, floordiv, data_loader_ray_train, MNIST, torch_DataLoader,
    prepare_data_loader, Accuracy, model_device.
  rewrite Hg. repeat wp_step. rewrite !bool_decide_eq_true_2 by done. repeat wp_step.
  apply wp_ray_get_context; [done|]. wsimpl. cbn [ctx_get].
  rewrite (bool_decide_eq_false_2 (world_size (context w) = 0)) by lia. repeat wp_step.
  rewrite bool_decide_eq_false_2 by lia. repeat wp_step.
  rewrite !bool_decide_eq_true_2 by done. repeat wp_step.
  match goal with |- Q _ ?w1 => match type of HQ with Q _ ?w2 =>
    replace w1 with w2; [exact HQ|] end end.
  by world_eq.
Qed.

Lemma shard_batches_length dl n rank epoch :
  drop_last dl = true → 0 < batch_size dl → 0 ≤ rank < n →
  length (shard_batches dl n rank epoch)
  = (((length (dataset dl) + Z.to_nat n - 1) `div` Z.to_nat n) `div` Z.to_nat (batch_size dl))%nat.
Proof.
  intros Hd Hbs Hrank. unfold shard_batches. rewrite Hd.
  rewrite batch_sampler_count by (simpl; lia). simpl.
  rewrite shard_length by lia. by rewrite random_order_length.
Qed.

(** What a worker of rank [rank] reports for the epoch [e]: the record of
    the epoch, and a checkpoint holding the weights if and only if the
    rank is 0. *)
Definition epoch_report (rank e : Z) (r : Metrics * option (Path * gmap Path Node)) : Prop :=
  (∃ l a, r.1 = [("loss", CFloat l); ("accuracy", CFloat a); ("epoch", CInt e)]) ∧
  match r.2 with
  | Some (d, files) =>
      rank = 0 ∧
      ∃ sd : state_dict_t,
        files !! os_path_join d "model.pt" = Some (File [Pickle sd]) ∧
        shape <$> sd = mnist_resnet18_shapes
  | None => rank ≠ 0
  end.

Lemma checkpoint_files_weights (d : Path) (sd : state_dict_t) (f : gmap Path Node) :
  checkpoint_files d sd f !! os_path_join d "model.pt" = Some (File [Pickle sd]).
Proof.
  unfold checkpoint_files, dir_snapshot. apply map_lookup_filter_Some_2.
  - by rewrite lookup_insert_eq.
  - simpl. by eexists.
Qed.

(** What holds between the epochs of a worker's run of
    [train_loop_ray_train] in which no call fails. *)
Definition ray_inv (c : TrainContext) (data : list Sample) (bs : Z)
    (r0 : list (Metrics * option (Path * gmap Path Node)))
    (done : list Z) (st : Locals) (w : World) : Prop :=
  faults w = [] ∧ no_tmp (fs w) ∧ context w = c ∧
  dataset (data_loader st) = data ∧ batch_size (data_loader st) = bs ∧
  drop_last (data_loader st) = true ∧
  (∃ e0, sampler (data_loader st) = DistributedSampler (world_size c) (world_rank c) e0) ∧
  shape <$> state_dict (model st) = mnist_resnet18_shapes ∧
  ∃ rs, reported w = r0 ++ rs ∧ Forall2 (epoch_report (world_rank c)) done rs.

Lemma ray_inv_step c data bs r0 done epoch st w :
  0 ≤ world_rank c < world_size c →
  (0 < Z.to_nat bs
   ≤ (length data + Z.to_nat (world_size c) - 1) `div` Z.to_nat (world_size c))%nat →
  ray_inv c data bs r0 done st w →
  wp (train_loop_ray_train_epoch save_checkpoint_and_metrics_ray_train epoch st) w
     (λ r w', ∃ st', r = Ok st' ∧ ray_inv c data bs r0 (done ++ [epoch]) st' w').
Proof.
  intros Hrank Hbs (Hf & Hno & Hc & Hdata & Hbsz & Hd & [e0 Hs] & Hsh & rs & Hrep & Hrs).
  set (batches := shard_batches (data_loader st) (world_size c) (world_rank c) epoch).
  assert (batches ≠ []) as Hne.
  { intros Hnil. apply (f_equal length) in Hnil. unfold batches in Hnil.
    rewrite shard_batches_length in Hnil by (done || lia).
    rewrite Hdata, Hbsz in Hnil. simpl in Hnil.
    apply Nat.div_small_iff in Hnil; lia. }
  destruct (loss_after_batches st batches Hne) as [l Hl].
  eapply wp_train_loop_ray_train_epoch; [done..|].
  fold batches. set (st2 := foldl after_batch st batches) in *.
  eexists. split; [done|]. unfold ray_inv. wsimpl. cbn [ray_after_epoch data_loader with_epoch
    dataset batch_size drop_last sampler model].
  rewrite Hc. repeat split; try done.
  - by apply no_tmp_insert_tmp.
  - by eexists.
  - unfold st2, state_dict. by rewrite after_batches_shapes.
  - eexists. split; [by rewrite Hrep, <- app_assoc|].
    apply Forall2_app; [done|]. repeat constructor.
    + unfold worker_report, ray_metrics. simpl. eauto.
    + unfold worker_report. simpl. case_bool_decide; [|done].
      split; [done|]. eexists. split; [apply checkpoint_files_weights|].
      unfold st2, state_dict. by rewrite after_batches_shapes.
Qed.

(** A worker's run of [train_loop_ray_train] in which no call fails: it
    returns, having reported once per epoch. *)
Lemma train_loop_ray_train_calm config g num_epochs w :
  faults w = [] → no_tmp (fs w) →
  config !! "global_batch_size" = Some g →
  config !! "num_epochs" = Some num_epochs →
  1 < world_size (context w) →
  0 ≤ world_rank (context w) < world_size (context w) →
  (0 < Z.to_nat (g `div` world_size (context w))
   ≤ (length (mnist w) + Z.to_nat (world_size (context w)) - 1)
     `div` Z.to_nat (world_size (context w)))%nat →
  ∃ st w',
    train_loop_ray_train_with save_checkpoint_and_metrics_ray_train config w = (Ok st, w') ∧
    ray_inv (context w) (mnist w) (g `div` world_size (context w)) (reported w)
      (range num_epochs) st w'.
Proof.
  intros Hf Hno Hg Hn Hws Hrank Hbs.
  cut (wp (train_loop_ray_train_with save_checkpoint_and_metrics_ray_train config) w
          (λ r w', ∃ st, r = Ok st ∧
             ray_inv (context w) (mnist w) (g `div` world_size (context w)) (reported w)
               (range num_epochs) st w')).
  { unfold wp. destruct (train_loop_ray_train_with _ config w) as [r w'].
    simpl. intros (st & -> & HI). eauto. }
  unfold train_loop_ray_train_with. wp_step.
  eapply wp_train_loop_ray_train_setup; [done|done|lia|lia|].
  unfold getitem. rewrite Hn. repeat wp_step.
  apply (wp_for_each (ray_inv (context w) (mnist w) (g `div` world_size (context w))
                        (reported w))).
  - unfold ray_inv. wsimpl. repeat split; try done.
    + by eexists.
    + apply ray_model_shapes.
    + exists []. split; [by rewrite app_nil_r|constructor].
  - intros done x rest s w1 _ HI.
    eapply wp_mono; [by apply ray_inv_step|].
    intros r w2 (st' & -> & HI'). done.
  - intros s w' HI. eauto.
Qed.

End Ray_run.

Section Workers.
Context `{T : Torch}.

(** ** All the workers of a job *)



Lemma batch_size_fits (n g : Z) (len : nat) :
  1 ≤ n → n ≤ g ≤ Z.of_nat len →
  (0 < Z.to_nat (g `div` n) ≤ (len + Z.to_nat n - 1) `div` Z.to_nat n)%nat.
Proof.
  intros Hn Hg.
  assert (1 ≤ g `div` n) as Hlow by (apply Z.div_le_lower_bound; lia).
  split; [lia|].
  apply Nat2Z.inj_le. rewrite Nat2Z.inj_div. rewrite !Z2Nat.id by lia.
  replace (Z.of_nat (len + Z.to_nat n - 1)) with (Z.of_nat len + n - 1) by lia.
  apply Z.div_le_mono; lia.
Qed.

(** The run of one worker of a job in which no call fails. *)
Lemma worker_run_calm config (num_workers g num_epochs rank : Z) (w : World) :
  2 ≤ num_workers → 0 ≤ rank < num_workers →
  config !! "global_batch_size" = Some g →
  config !! "num_epochs" = Some num_epochs →
  faults w = [] → no_tmp (fs w) → reported w = [] →
  num_workers ≤ g ≤ Z.of_nat (length (mnist w)) →
  ∃ w' rs,
    train_loop_ray_train config (worker_world num_workers rank w) = (Ok tt, w') ∧
    reported w' = rs ∧ Forall2 (epoch_report rank) (range num_epochs) rs.
Proof.
  intros Hn Hrank Hg Hne Hf Hno Hrep Hsize.
  destruct (train_loop_ray_train_calm config g num_epochs (worker_world num_workers rank w))
    as (st & w' & Hrun & _ & _ & _ & _ & _ & _ & _ & _ & rs & Hrs & Hall); try done.
  { simpl. lia. }
  { simpl. apply batch_size_fits; [lia|done]. }
  exists w', rs. split; [|split].
  - unfold train_loop_ray_train, mbind, M_bind, bind. by rewrite Hrun.
  - rewrite Hrs. simpl. by rewrite Hrep.
  - done.
Qed.

Lemma epoch_report_lookup rank n rs (k : nat) :
  Forall2 (epoch_report rank) (range n) rs → (Z.of_nat k < n) →
  ∃ r, rs !! k = Some r ∧ epoch_report rank (Z.of_nat k) r.
Proof.
  intros H Hk.
  assert (range n !! k = Some (Z.of_nat k)) as He.
  { unfold range. rewrite lookup_seqZ. lia. }
  destruct (Forall2_lookup_l _ _ _ _ _ H He) as (r & Hr & Hok). eauto.
Qed.




End Workers.

Section Batch_size.
Context `{T : Torch}.

Lemma wp_iter_batches_distributed dl n rank epoch w Q :
  faults w = [] → sampler dl = DistributedSampler n rank epoch →
  Q (Ok (shard_batches dl n rank epoch)) (log EvIter w) →
  wp (iter_batches dl) w Q.
Proof.
  intros Hf Hs HQ. unfold iter_batches. rewrite Hs. by repeat wp_step.
Qed.

(** C5. The local batch size is [g // w].  Let the configuration give
    the global batch size [g] and the worker's world have [w >= 1]
    workers.  Whatever the environment does, a data loader is only ever
    built with the batch size [g // w], and the worker asks its context
    for nothing but its rank and the world size.  When no call fails, the
    loader is indeed asked for with that size; if the size is positive and
    there are two workers or more, the set-up returns and the loader the
    loop works with has that size, so that every batch of every pass has
    exactly [g // w] samples; with one worker the loader is built with the
    size [g], and the set-up, which goes on to read [model.device] of a
    model that [prepare_model] has not wrapped, ends with [AttributeError]
    before the first epoch. *)
Theorem local_batch_size_is_floor_division (config : gmap string Z) (g : Z) (w : World) :
  config !! "global_batch_size" = Some g →
  1 ≤ world_size (context w) →
  (∃ t, trace (train_loop_ray_train config w).2 = trace w ++ t ∧
        (∀ b, EvDataLoader b ∈ t → b = g `div` world_size (context w)) ∧
        (∀ q, EvCtx q ∈ t → q = GetWorldRank ∨ q = GetWorldSize)) ∧
  (faults w = [] →
   (∃ t1 t2, trace (train_loop_ray_train_setup config w).2
             = trace w ++ t1 ++ EvDataLoader (g `div` world_size (context w)) :: t2) ∧
   (1 < world_size (context w) → 0 < g `div` world_size (context w) →
    ∃ st w',
      train_loop_ray_train_setup config w = (Ok st, w') ∧
      batch_size (data_loader st) = g `div` world_size (context w) ∧
      ∀ w2, faults w2 = [] →
        ∃ batches w3,
          iter_batches (data_loader st) w2 = (Ok batches, w3) ∧
          Forall (λ b, length b = Z.to_nat (g `div` world_size (context w))) batches) ∧
   (world_size (context w) = 1 → 0 < g →
    ∃ w' t,
      train_loop_ray_train_setup config w = (Raise (AttributeError "device"), w') ∧
      trace w' = trace w ++ t ∧ EvDataLoader g ∈ t)).
Proof.
  intros Hg Hn. split.
  - destruct (guarantees_train_loop_ray_train config (context w) w eq_refl)
      as (_ & (t & Ht & HP) & _).
    exists t. split; [done|]. rewrite Forall_forall in HP. split.
    + intros b Hb. destruct (HP _ Hb) as (g' & Hg' & _ & ->). congruence.
    + intros q Hq. apply (HP _ Hq).
  - intros Hf. split; [|split].
    + set (bs := g `div` world_size (context w)).
      cut (wp (train_loop_ray_train_setup config) w
             (λ _ w', ∃ t2, trace w'
                = trace w ++ [EvCrossEntropyLoss; EvResnet18 10;
                              EvConv2d (mkConv2d 1 64 (7, 7) (2, 2) (3, 3) false);
                              EvPrepareModel; EvAdam; EvCtx GetWorldSize; EvMNIST]
                  ++ EvDataLoader bs :: t2)).
      { intros [t2 Ht]. eauto. }
      unfold train_loop_ray_train_setup, load_model_ray_train, resnet18, torch_nn_Conv2d,
        draw_rng, prepare_model, Adam, getitem, floordiv, data_loader_ray_train, MNIST,
        torch_DataLoader, prepare_data_loader, Accuracy, model_device.
      rewrite Hg. repeat wp_step.
      destruct (bool_decide (1 < world_size (context w))) eqn:Hws; repeat wp_step;
        (apply wp_ray_get_context; [done|]); wsimpl; cbn [ctx_get];
        rewrite (bool_decide_eq_false_2 (world_size (context w) = 0)) by lia;
        repeat wp_step; fold bs;
        destruct (bool_decide (bs ≤ 0)); repeat wp_step; rewrite ?Hws; repeat wp_step;
        rewrite <- ?app_assoc; simpl; by eexists.
    + intros Hws Hbs.
      destruct (wp_run (train_loop_ray_train_setup config) w
                  (Ok (ray_locals0 (g `div` world_size (context w)) (mnist w)
                         (context w) (rank0_data w) (rng w))) (λ _, True)) as (w' & Hrun & _).
      { eapply wp_train_loop_ray_train_setup; [done|done|lia|done|]. done. }
      eexists _, w'. split; [exact Hrun|]. split; [done|].
      intros w2 Hf2. simpl.
      destruct (wp_run (iter_batches (data_loader
                          (ray_locals0 (g `div` world_size (context w)) (mnist w)
                             (context w) (rank0_data w) (rng w))))
                  w2 (Ok (shard_batches
                            (data_loader (ray_locals0 (g `div` world_size (context w))
                                            (mnist w) (context w) (rank0_data w) (rng w)))
                            (world_size (context w)) (world_rank (context w)) 0))
                  (λ _, True)) as (w3 & Hrun3 & _).
      { by eapply wp_iter_batches_distributed. }
      eexists _, w3. split; [exact Hrun3|].
      unfold shard_batches. simpl. apply batch_sampler_full.
    + intros Hws Hpos.
      cut (wp (train_loop_ray_train_setup config) w
             (λ r w', r = Raise (AttributeError "device") ∧
                      ∃ t, trace w' = trace w ++ t ∧ EvDataLoader g ∈ t)).
      { intros (w' & Hrun & t & Ht & Hin)%wp_run. eauto. }
      unfold train_loop_ray_train_setup, load_model_ray_train, resnet18, torch_nn_Conv2d,
        draw_rng, prepare_model, Adam, getitem, floordiv, data_loader_ray_train, MNIST,
        torch_DataLoader, prepare_data_loader, Accuracy, model_device.
      rewrite Hg. repeat wp_step. rewrite Hws. simpl. repeat wp_step.
      apply wp_ray_get_context; [done|]. wsimpl. cbn [ctx_get]. rewrite Hws. simpl.
      repeat wp_step. rewrite Z.div_1_r.
      rewrite bool_decide_eq_false_2 by lia. repeat wp_step. rewrite Hws. simpl.
      repeat wp_step. split; [done|]. eexists. rewrite <- !app_assoc. split; [done|].
      set_solver.
Qed.

End Batch_size.

Section Epoch_end.
Context `{T : Torch}.

(** ** The order of the actions that end an epoch *)

(** Emitting the record, resetting the metric, writing the row, saving the
    weights, reporting. *)
Definition is_epoch_end (ev : Event) : bool :=
  match ev with
  | EvPrint _ | EvMetricReset | EvWriteRow _ _ | EvTorchSave _ | EvReport _ _ => true
  | _ => false
  end.

(** The order the spec gives: the record is emitted, then the checkpoint
    is written, and only then is the metric reset. *)
Definition emitted_saved_then_reset (t : list Event) : Prop :=
  ∀ (i j k : nat) m q,
    t !! i = Some (EvPrint m) → t !! j = Some (EvTorchSave q) → t !! k = Some EvMetricReset →
    (i < j < k)%nat.

(** C2, as the code has it.  With no call failing: an epoch of
    [train_loop_torch] ends by printing the record, resetting the metric,
    and then writing the record's row and saving the weights; an epoch of
    [train_loop_ray_train] ends, on the worker of rank 0, by printing the
    record, saving the weights, reporting record and checkpoint, and then
    resetting the metric, and on any other worker by reporting the record
    and then resetting the metric. *)
Theorem epoch_end_order (epoch : Z) (st : Locals) (w : World) :
  faults w = [] →
  drop_last (data_loader st) = true →
  (sampler (data_loader st) = RandomSampler →
   (0 < Z.to_nat (batch_size (data_loader st)) ≤ length (dataset (data_loader st)))%nat →
   ∀ p, (∃ f, mkdir_from [] p (fs w) = Ok f) →
        fs w !! os_path_join p "metrics.csv" ≠ Some Dir →
        fs w !! os_path_join p "model.pt" ≠ Some Dir →
        ∃ st' w' t metrics,
          train_loop_torch_epoch p epoch st w = (Ok st', w') ∧
          trace w' = trace w ++ t ∧
          List.filter is_epoch_end t
          = [EvPrint metrics; EvMetricReset;
             EvWriteRow (os_path_join p "metrics.csv") (csv_line (values metrics));
             EvTorchSave (os_path_join p "model.pt")]) ∧
  (∀ n rank e0,
     sampler (data_loader st) = DistributedSampler n rank e0 →
     0 ≤ rank < n →
     (0 < Z.to_nat (batch_size (data_loader st))
      ≤ (length (dataset (data_loader st)) + Z.to_nat n - 1) `div` Z.to_nat n)%nat →
     no_tmp (fs w) →
     ∃ st' w' t metrics d,
       train_loop_ray_train_epoch save_checkpoint_and_metrics_ray_train epoch st w
       = (Ok st', w') ∧
       trace w' = trace w ++ t ∧
       List.filter is_epoch_end t
       = (if bool_decide (world_rank (context w) = 0)
          then [EvPrint metrics; EvTorchSave (os_path_join d "model.pt");
                EvReport metrics (Some d); EvMetricReset]
          else [EvReport metrics None; EvMetricReset]) ∧
       emitted_saved_then_reset t).
Proof.
  intros Hf Hd. split.
  - intros Hs Hbs p [f1 Hm] Hcsv Hpt.
    set (batches := random_batches (data_loader st) (rng w)).
    destruct (loss_after_batches st batches) as [l Hl].
    { intros Hnil. apply (f_equal length) in Hnil. unfold batches in Hnil.
      rewrite random_batches_length in Hnil by (done || lia). simpl in Hnil.
      apply Nat.div_small_iff in Hnil; lia. }
    set (st2 := foldl after_batch st batches) in *.
    destruct (wp_run (train_loop_torch_epoch p epoch st) w (Ok (reset_acc st2))
                (λ w', trace w' = trace w ++ torch_epoch_events p (torch_metrics l (acc st2) epoch)
                                               (length batches))) as (w' & Hrun & Ht).
    { eapply wp_train_loop_torch_epoch; [done..|]. done. }
    eexists _, w', _, _. split; [exact Hrun|]. split; [exact Ht|].
    unfold torch_epoch_events. rewrite !List.filter_app.
    by rewrite filter_batch_events.
  - intros n rank e0 Hs Hrank Hbs Hno.
    set (batches := shard_batches (data_loader st) n rank epoch).
    destruct (loss_after_batches st batches) as [l Hl].
    { intros Hnil. apply (f_equal length) in Hnil. unfold batches in Hnil.
      rewrite shard_batches_length in Hnil by (done || lia). simpl in Hnil.
      apply Nat.div_small_iff in Hnil; lia. }
    set (st2 := foldl after_batch st batches) in *.
    set (metrics := ray_metrics l (acc st2) epoch).
    set (d := tmp_path (tmp_count w)).
    destruct (wp_run (train_loop_ray_train_epoch save_checkpoint_and_metrics_ray_train epoch st)
                w (Ok (ray_after_epoch st2 (with_epoch (data_loader st) n rank epoch)))
                (λ w', trace w' = trace w ++ ray_epoch_events (world_rank (context w)) epoch
                                               metrics d (length batches)))
      as (w' & Hrun & Ht).
    { eapply wp_train_loop_ray_train_epoch; [done..|]. done. }
    exists (ray_after_epoch st2 (with_epoch (data_loader st) n rank epoch)), w',
      (ray_epoch_events (world_rank (context w)) epoch metrics d (length batches)), metrics, d.
    split; [exact Hrun|]. split; [exact Ht|].
    assert (∀ k, ∃ pre,
              concat (replicate k ray_batch_events) = pre ∧
              List.filter is_epoch_end pre = [] ∧
              Forall (λ ev, match ev with
                            | EvPrint _ | EvTorchSave _ | EvMetricReset => False
                            | _ => True
                            end) pre) as Hpre.
    { intros k. eexists. split; [done|]. split; [by apply filter_batch_events|].
      induction k as [|k IH]; simpl; [constructor|]. by repeat constructor. }
    destruct (Hpre (length batches)) as (pre & Hpre_eq & Hpre_filter & Hpre_none).
    unfold ray_epoch_events, ray_print_events, ray_save_events. rewrite Hpre_eq.
    split.
    + rewrite !List.filter_app, Hpre_filter. by case_bool_decide.
    + intros i j k m q Hi Hj Hk.
      assert (∀ (x : nat) ev, ([EvSetEpoch epoch; EvIter] ++ pre) !! x = Some ev →
                match ev with
                | EvPrint _ | EvTorchSave _ | EvMetricReset => False
                | _ => True
                end) as Hhead.
      { intros x ev Hx. apply list_elem_of_lookup_2 in Hx.
        apply elem_of_app in Hx as [Hx|Hx].
        - by repeat (apply elem_of_cons in Hx as [->|Hx]; [done|]); apply elem_of_nil in Hx.
        - rewrite Forall_forall in Hpre_none. by apply Hpre_none. }
      rewrite (app_assoc [EvSetEpoch epoch; EvIter] pre) in Hi, Hj, Hk.
      set (h := [EvSetEpoch epoch; EvIter] ++ pre) in *.
      destruct (decide (i < length h)%nat) as [Hlt|Hge];
        [rewrite lookup_app_l in Hi by done; by apply Hhead in Hi|].
      destruct (decide (j < length h)%nat) as [Hlt|Hge'];
        [rewrite lookup_app_l in Hj by done; by apply Hhead in Hj|].
      destruct (decide (k < length h)%nat) as [Hlt|Hge''];
        [rewrite lookup_app_l in Hk by done; by apply Hhead in Hk|].
      rewrite lookup_app_r in Hi, Hj, Hk by lia.
      assert (∃ i', i = length h + i')%nat as [i' ->] by (exists (i - length h)%nat; lia).
      assert (∃ j', j = length h + j')%nat as [j' ->] by (exists (j - length h)%nat; lia).
      assert (∃ k', k = length h + k')%nat as [k' ->] by (exists (k - length h)%nat; lia).
      replace (length h + i' - length h)%nat with i' in Hi by lia.
      replace (length h + j' - length h)%nat with j' in Hj by lia.
      replace (length h + k' - length h)%nat with k' in Hk by lia.
      cut (i' < j' < k')%nat; [lia|].
      case_bool_decide; simpl in Hi, Hj, Hk;
        repeat (destruct i' as [|i']; simpl in Hi; try done);
        repeat (destruct j' as [|j']; simpl in Hj; try done);
        repeat (destruct k' as [|k']; simpl in Hk; try done); lia.
Qed.

End Epoch_end.

(** C2, the part that does not hold: [train_loop_torch] resets the metric
    before it writes the checkpoint.  One epoch over one batch of two
    samples: the record is printed by the 23rd call, the metric is reset
    by the 24th, the weights are saved by the 28th. *)
Lemma torch_epoch_resets_before_saving :
  ¬ emitted_saved_then_reset
      (trace (train_loop_torch 1 2 ["run"] (Toy.world ∅ (Toy.samples 2) [])).2).
Proof.
  intros H.
  edestruct (H 22%nat 27%nat 23%nat) as [_ Hlt]; [reflexivity..|lia].
Qed.

(** * Further properties of the notebook's code *)

Section Unhandled_ray.
Context `{T : Torch}.

(** ** The Ray Train loop has no handler either *)

#[local] Hint Resolve unhandled_torch_save unhandled_resnet18 unhandled_torch_nn_Conv2d
  unhandled_iter_batches unhandled_torch_DataLoader unhandled_MNIST : unhandled.

Lemma unhandled_ray_get_context q : unhandled (ray_get_context q).
Proof. unfold ray_get_context. unhandled_proof. Qed.

Lemma unhandled_ray_train_report metrics checkpoint :
  unhandled (ray_train_report metrics checkpoint).
Proof. unfold ray_train_report. unhandled_proof. Qed.

#[local] Hint Resolve unhandled_ray_get_context unhandled_ray_train_report : unhandled.

Lemma unhandled_save_checkpoint_and_metrics_ray_train m metrics :
  unhandled (save_checkpoint_and_metrics_ray_train m metrics).
Proof.
  unfold save_checkpoint_and_metrics_ray_train. apply unhandled_with_TemporaryDirectory.
  unfold Checkpoint_from_directory. unhandled_proof.
Qed.

Lemma unhandled_train_loop_ray_train_batch batch st :
  unhandled (train_loop_ray_train_batch batch st).
Proof.
  unfold train_loop_ray_train_batch, call_model, criterion, zero_grad, loss_backward,
    optimizer_step, metric_update.
  unhandled_proof.
Qed.

#[local] Hint Resolve unhandled_save_checkpoint_and_metrics_ray_train
  unhandled_train_loop_ray_train_batch : unhandled.

Lemma unhandled_train_loop_ray_train_epoch epoch st :
  unhandled (train_loop_ray_train_epoch save_checkpoint_and_metrics_ray_train epoch st).
Proof.
  unfold train_loop_ray_train_epoch, set_epoch, local, metric_compute, metric_reset,
    print_metrics_ray_train, tensor_item, print.
  unhandled_proof.
Qed.

Lemma unhandled_train_loop_ray_train_setup config :
  unhandled (train_loop_ray_train_setup config).
Proof.
  unfold train_loop_ray_train_setup, load_model_ray_train, prepare_model, Adam, getitem,
    floordiv, data_loader_ray_train, prepare_data_loader, Accuracy, model_device.
  unhandled_proof.
Qed.

#[local] Hint Resolve unhandled_train_loop_ray_train_epoch
  unhandled_train_loop_ray_train_setup : unhandled.

Lemma unhandled_train_loop_ray_train config : unhandled (train_loop_ray_train config).
Proof.
  unfold train_loop_ray_train, train_loop_ray_train_with, getitem. unhandled_proof.
Qed.

(** X1.  [train_loop_ray_train] installs no handler, and the [with] block of
    its checkpoint function passes on what is raised inside it.  Whatever
    the environment does to the calls of a worker: an exception raised at
    any point of the run, by the code ([KeyError], [ZeroDivisionError],
    [UnboundLocalError], ...) or by a failing call, is followed by no
    further call and is, unchanged, the outcome of the loop. *)
Theorem train_loop_ray_train_exceptions_propagate (config : gmap string Z) (w : World) :
  ∃ t c,
    trace (train_loop_ray_train config w).2 = trace w ++ t ∧
    faults w = c ++ faults (train_loop_ray_train config w).2 ∧
    (∀ e t1 t2, t = t1 ++ EvRaise e :: t2 →
       t2 = [] ∧ (train_loop_ray_train config w).1 = Raise e) ∧
    (∀ e c1 c2, c = c1 ++ Some e :: c2 →
       c2 = [] ∧ (train_loop_ray_train config w).1 = Raise e) ∧
    (∀ e, (train_loop_ray_train config w).1 = Raise e → ∃ t1, t = t1 ++ [EvRaise e]).
Proof.
  destruct (unhandled_train_loop_ray_train config w) as (t & c & Ht & Hc & Ho).
  exists t, c. split; [done|]. split; [done|]. by apply outcome_propagates.
Qed.

End Unhandled_ray.

Section Config.
Context `{T : Torch}.

(** ** What the loops do with input they cannot work with *)

(** The calls [train_loop_ray_train] makes before it reads its
    configuration. *)
Definition ray_model_events : list Event :=
  [EvCrossEntropyLoss] ++ build_events ++ [EvPrepareModel; EvAdam].

(** X2.  A configuration without one of the two keys.  With no call failing:
    without ["global_batch_size"] the loop raises [KeyError] for it, once
    the model and the optimizer are built and before the context is asked
    or any data loaded, so that nothing is reported and no file is
    touched, under [./data] or elsewhere; without ["num_epochs"], in a job
    of two workers or more, it raises [KeyError] for that only after all
    of the set-up, data loader and metric included: the dataset is in
    [./data] by then, nothing is reported and no other file is touched. *)
Theorem config_keys_are_required (config : gmap string Z) (w : World) :
  faults w = [] →
  (config !! "global_batch_size" = None →
   ∃ w', train_loop_ray_train config w = (Raise (KeyError "global_batch_size"), w') ∧
         trace w' = trace w ++ ray_model_events ++ [EvRaise (KeyError "global_batch_size")] ∧
         reported w' = reported w ∧ data_dir w' = data_dir w ∧ fs w' = fs w) ∧
  (∀ g, config !! "global_batch_size" = Some g →
        config !! "num_epochs" = None →
        1 < world_size (context w) →
        0 < g `div` world_size (context w) →
   ∃ w', train_loop_ray_train config w = (Raise (KeyError "num_epochs"), w') ∧
         trace w' = trace w ++ ray_setup_events (g `div` world_size (context w))
                    ++ [EvRaise (KeyError "num_epochs")] ∧
         reported w' = reported w ∧
         data_dir w' = mnist_download (data_dir w) ∧ fs w' = fs w).
Proof.
  intros Hf. split.
  - intros Hg. apply wp_run.
    unfold train_loop_ray_train, train_loop_ray_train_with, train_loop_ray_train_setup,
      load_model_ray_train, resnet18, torch_nn_Conv2d, draw_rng, prepare_model, Adam, getitem.
    rewrite Hg. repeat wp_step.
    destruct (bool_decide (1 < world_size (context w))); repeat wp_step;
      by rewrite <- !app_assoc.
  - intros g Hg Hn Hws Hbs. apply wp_run.
    unfold train_loop_ray_train, train_loop_ray_train_with. do 2 wp_step.
    eapply wp_train_loop_ray_train_setup; [done..|].
    unfold getitem. rewrite Hn. repeat wp_step. by rewrite <- !app_assoc.
Qed.

(** X3.  A global batch size smaller than the number of workers leaves every
    worker with the batch size 0, which [DataLoader] refuses: with no call
    failing, the worker raises the [ValueError] of [DataLoader], naming
    the size 0, when it builds its loader; the dataset has been loaded,
    and put in [./data], by then; nothing is reported and no other file is
    touched. *)
Theorem global_batch_smaller_than_world (config : gmap string Z) (g : Z) (w : World) :
  faults w = [] →
  config !! "global_batch_size" = Some g →
  0 ≤ g < world_size (context w) →
  let e := ValueError "batch_size should be a positive integer value, but got batch_size=0" in
  ∃ w', train_loop_ray_train config w = (Raise e, w') ∧
        trace w' = trace w ++ ray_model_events
                   ++ [EvCtx GetWorldSize; EvMNIST; EvDataLoader 0; EvRaise e] ∧
        reported w' = reported w ∧
        data_dir w' = mnist_download (data_dir w) ∧ fs w' = fs w.
Proof.
  intros Hf Hg Hlt e. apply wp_run.
  unfold train_loop_ray_train, train_loop_ray_train_with, train_loop_ray_train_setup,
    load_model_ray_train, resnet18, torch_nn_Conv2d, draw_rng, prepare_model, Adam, getitem,
    floordiv, data_loader_ray_train, MNIST, torch_DataLoader.
  rewrite Hg. repeat wp_step.
  destruct (bool_decide (1 < world_size (context w))); repeat wp_step;
    (apply wp_ray_get_context; [done|]); wsimpl; cbn [ctx_get];
    rewrite (bool_decide_eq_false_2 (world_size (context w) = 0)) by lia; repeat wp_step;
    rewrite Z.div_small by done;
    rewrite bool_decide_eq_true_2 by done; repeat wp_step; by rewrite <- !app_assoc.
Qed.

(** X4.  [train_loop_torch] with a batch size that is not positive: with no
    call failing, [DataLoader] raises its [ValueError], naming the size,
    at the end of the set-up, the model being built and the dataset loaded,
    and put in [./data], already; no epoch starts and no other file is
    touched. *)
Theorem train_loop_torch_batch_size_not_positive (num_epochs bs : Z) (p : Path) (w : World) :
  faults w = [] → bs ≤ 0 →
  let e := ValueError ("batch_size should be a positive integer value, but got batch_size="
                       +:+ pretty bs) in
  ∃ w', train_loop_torch num_epochs bs p w = (Raise e, w') ∧
        trace w' = trace w ++ torch_setup_events bs ++ [EvRaise e] ∧
        data_dir w' = mnist_download (data_dir w) ∧ fs w' = fs w.
Proof.
  intros Hf Hbs e. apply wp_run.
  unfold train_loop_torch, train_loop_torch_locals, train_loop_torch_setup, load_model_torch,
    Adam, Accuracy, data_loader_torch, MNIST, torch_DataLoader.
  repeat wp_step. apply wp_build_resnet18; [done|]. repeat wp_step.
  rewrite bool_decide_eq_true_2 by done. repeat wp_step. by rewrite <- !app_assoc.
Qed.

(** X5.  A worker, of two or more, whose share of the dataset is smaller
    than its batch size gets no batch (the loader drops the short one), so
    [loss] is never assigned: with no call failing and at least one epoch
    asked for, the worker raises [UnboundLocalError] for [loss] at the end
    of its first epoch, before it has reported anything; the dataset is in
    [./data], and no other file is touched. *)
Theorem train_loop_ray_train_no_batch (config : gmap string Z) (g num_epochs : Z) (w : World) :
  faults w = [] →
  config !! "global_batch_size" = Some g →
  config !! "num_epochs" = Some num_epochs →
  0 < num_epochs →
  1 < world_size (context w) →
  0 ≤ world_rank (context w) < world_size (context w) →
  0 < g `div` world_size (context w) →
  ((length (mnist w) + Z.to_nat (world_size (context w)) - 1) `div` Z.to_nat (world_size (context w))
   < Z.to_nat (g `div` world_size (context w)))%nat →
  ∃ w', train_loop_ray_train config w = (Raise (UnboundLocalError "loss"), w') ∧
        trace w' = trace w ++ ray_setup_events (g `div` world_size (context w))
                   ++ [EvSetEpoch 0; EvIter; EvRaise (UnboundLocalError "loss")] ∧
        reported w' = reported w ∧
        data_dir w' = mnist_download (data_dir w) ∧ fs w' = fs w.
Proof.
  intros Hf Hg Hn Hpos Hws Hrank Hbs Hsmall. apply wp_run.
  unfold train_loop_ray_train, train_loop_ray_train_with. do 2 wp_step.
  eapply wp_train_loop_ray_train_setup; [done|done|lia|done|].
  unfold getitem. rewrite Hn. repeat wp_step.
  unfold range. rewrite seqZ_cons by done. cbn [for_each]. wp_step.
  unfold train_loop_ray_train_epoch, set_epoch. cbn [ray_locals0 data_loader sampler].
  repeat wp_step. eapply wp_iter_batches_distributed; [done..|]. wsimpl.
  set (dl := mkDataLoader _ _ _ _).
  assert (shard_batches dl (world_size (context w)) (world_rank (context w)) 0 = []) as ->.
  { apply length_zero_iff_nil. rewrite shard_batches_length by done.
    by apply Nat.div_small. }
  cbn [for_each]. repeat wp_step. unfold local, ray_locals0. cbn [loss]. repeat wp_step.
  by rewrite <- !app_assoc.
Qed.

(** X6.  No epoch to run.  With [num_epochs <= 0] and no call failing, both
    loops return after their set-up, which has put the dataset in
    [./data] and touched no other file: [train_loop_torch] has not made
    the run directory, let alone written to it, and a worker of
    [train_loop_ray_train], in a job of two workers or more, has reported
    nothing and made no temporary directory. *)
Theorem no_epoch_no_output (num_epochs : Z) (w : World) :
  faults w = [] → num_epochs ≤ 0 →
  (∀ bs p, 0 < bs →
     ∃ w', train_loop_torch num_epochs bs p w = (Ok tt, w') ∧
           trace w' = trace w ++ torch_setup_events bs ∧
           data_dir w' = mnist_download (data_dir w) ∧ fs w' = fs w) ∧
  (∀ config g,
     config !! "global_batch_size" = Some g →
     config !! "num_epochs" = Some num_epochs →
     1 < world_size (context w) →
     0 < g `div` world_size (context w) →
     ∃ w', train_loop_ray_train config w = (Ok tt, w') ∧
           trace w' = trace w ++ ray_setup_events (g `div` world_size (context w)) ∧
           reported w' = reported w ∧ tmp_count w' = tmp_count w ∧
           data_dir w' = mnist_download (data_dir w) ∧ fs w' = fs w).
Proof.
  intros Hf Hn. split.
  - intros bs p Hbs. apply wp_run.
    unfold train_loop_torch, train_loop_torch_locals. do 2 wp_step.
    apply wp_train_loop_torch_setup; [done..|].
    unfold range. rewrite seqZ_nil by done. cbn [for_each]. by repeat wp_step.
  - intros config g Hg Hne Hws Hbs. apply wp_run.
    unfold train_loop_ray_train, train_loop_ray_train_with. do 2 wp_step.
    eapply wp_train_loop_ray_train_setup; [done..|].
    unfold getitem. rewrite Hne. repeat wp_step.
    unfold range. rewrite seqZ_nil by done. cbn [for_each]. by repeat wp_step.
Qed.

End Config.

Section Run_directory.
Context `{T : Torch}.

(** ** A run directory that cannot be made or is not there *)

Lemma mkdir_from_file_exists (done rest : Path) (name : string) (f : gmap Path Node)
    (c : list Chunk) :
  mkdir_from done rest f = Ok f →
  f !! (done ++ rest ++ [name]) = Some (File c) →
  mkdir_from done (rest ++ [name]) f = Raise (FileExistsError (done ++ rest ++ [name])).
Proof.
  revert done. induction rest as [|x rest IH]; intros done Hm Hfile; simpl in *.
  - by rewrite Hfile.
  - assert (done ++ x :: rest ++ [name] = (done ++ [x]) ++ rest ++ [name]) as Heq
      by (by rewrite <- app_assoc).
    rewrite Heq in *.
    destruct (f !! (done ++ [x])) as [[|content]|] eqn:Hq; [|done|].
    + by apply IH.
    + pose proof (mkdir_from_fixed _ _ _ _ (done ++ [x]) Hm ltac:(done)) as Hfix.
      rewrite lookup_insert_eq in Hfix. congruence.
Qed.

(** X7.  [local_path] names a regular file (in a directory that is there).
    With no call failing and data for at least one batch, the loop trains
    its whole first epoch and prints the epoch's record, and only then
    fails, in [mkdir], with [FileExistsError]; the dataset was put in
    [./data] by the set-up, and no other file is touched. *)
Theorem local_path_is_a_file (num_epochs bs : Z) (q : Path) (name : string)
    (c : list Chunk) (w : World) :
  faults w = [] →
  (0 < Z.to_nat bs ≤ length (mnist w))%nat →
  0 < num_epochs →
  dir_ready (fs w) q →
  fs w !! os_path_join q name = Some (File c) →
  ∃ w' metrics,
    train_loop_torch num_epochs bs (os_path_join q name) w
    = (Raise (FileExistsError (os_path_join q name)), w') ∧
    data_dir w' = mnist_download (data_dir w) ∧
    fs w' = fs w ∧
    trace w' = trace w ++ torch_setup_events bs ++ [EvIter]
               ++ concat (replicate (length (mnist w) `div` Z.to_nat bs) torch_batch_events)
               ++ [EvMetricCompute; EvItem; EvItem; EvPrint metrics; EvMetricReset;
                   EvMkdir (os_path_join q name);
                   EvRaise (FileExistsError (os_path_join q name))].
Proof.
  intros Hf Hbs Hn Hq Hfile.
  set (p := os_path_join q name).
  set (st := torch_locals0 bs (mnist w) (rng w)).
  set (batches := random_batches (data_loader st) (rng_next (rng_next (rng w)))).
  assert (length batches = (length (mnist w) `div` Z.to_nat bs)%nat) as Hlen.
  { unfold batches. rewrite random_batches_length; [done|done|simpl; lia]. }
  destruct (loss_after_batches st batches) as [l Hl].
  { intros Hnil. rewrite Hnil in Hlen. simpl in Hlen.
    symmetry in Hlen. apply Nat.div_small_iff in Hlen; lia. }
  set (st2 := foldl after_batch st batches) in *.
  cut (wp (train_loop_torch num_epochs bs p) w
         (λ r w', r = Raise (FileExistsError p) ∧
            data_dir w' = mnist_download (data_dir w) ∧ fs w' = fs w ∧
            trace w' = trace w ++ torch_setup_events bs ++ [EvIter]
                       ++ concat (replicate (length batches) torch_batch_events)
                       ++ [EvMetricCompute; EvItem; EvItem;
                           EvPrint (torch_metrics l (acc st2) 0); EvMetricReset;
                           EvMkdir p; EvRaise (FileExistsError p)])).
  { intros (w' & Hrun & Hdata & Hfs & Ht)%wp_run. rewrite Hlen in Ht.
    by exists w', (torch_metrics l (acc st2) 0). }
  unfold train_loop_torch, train_loop_torch_locals. do 2 wp_step.
  apply wp_train_loop_torch_setup; [done|lia|].
  unfold range. rewrite seqZ_cons by done. cbn [for_each]. wp_step.
  unfold train_loop_torch_epoch. fold st.
  wp_step. apply wp_iter_batches_random; [done..|]. wsimpl.
  wp_step. apply wp_train_loop_torch_batches; [done|]. fold batches st2.
  wp_step. rewrite Hl.
  unfold local, metric_compute, report_metrics_torch, tensor_item, print, metric_reset,
    Path_mkdir.
  repeat wp_step.
  unfold p, os_path_join. rewrite (mkdir_from_file_exists [] q name _ c Hq Hfile).
  repeat wp_step. split; [done|]. split; [done|]. split; [done|]. unfold torch_metrics.
  by rewrite <- !app_assoc.
Qed.

Lemma resolve_app (done rest rest' : Path) (f : gmap Path Node) (p : Path) :
  mkdir_from done rest f = Ok f →
  resolve done (rest ++ rest') f p = resolve (done ++ rest) rest' f p.
Proof.
  revert done. induction rest as [|x rest IH]; intros done Hm; simpl in *.
  - by rewrite app_nil_r.
  - replace (done ++ x :: rest) with ((done ++ [x]) ++ rest) by (by rewrite <- app_assoc).
    destruct (f !! (done ++ [x])) as [[|content]|] eqn:Hq; [|done|].
    + by apply IH.
    + pose proof (mkdir_from_fixed _ _ _ _ (done ++ [x]) Hm ltac:(done)) as Hfix.
      rewrite lookup_insert_eq in Hfix. congruence.
Qed.

(** X8.  [save_checkpoint_and_metrics_torch] does not make its directory.  Let
    the directories down to [q] be there, and the run directory be [q/c] or
    lie below it.  With no call failing, opening the metrics log raises
    [FileNotFoundError] when there is nothing at [q/c], and
    [NotADirectoryError] when [q/c] is a regular file; either way no row
    is written, [torch.save] is not reached and no file is touched. *)
Theorem save_checkpoint_needs_the_directory (metrics : Metrics) (m : resnet) (q : Path)
    (c : string) (rest : Path) (w : World) :
  faults w = [] → dir_ready (fs w) q →
  let p := q ++ c :: rest in
  let csv := os_path_join p "metrics.csv" in
  let fails e :=
    ∃ w', save_checkpoint_and_metrics_torch metrics m p w = (Raise e, w') ∧
          fs w' = fs w ∧ trace w' = trace w ++ [EvOpenAppend csv; EvRaise e] in
  (fs w !! (q ++ [c]) = None → fails (FileNotFoundError csv)) ∧
  (∀ content, fs w !! (q ++ [c]) = Some (File content) → fails (NotADirectoryError csv)).
Proof.
  intros Hf Hq p csv fails.
  assert (path_error (fs w) csv
          = match fs w !! (q ++ [c]) with
            | Some Dir => resolve (q ++ [c]) rest (fs w) csv
            | Some (File _) => Some (NotADirectoryError csv)
            | None => Some (FileNotFoundError csv)
            end) as Hpath.
  { unfold path_error, csv. rewrite parent_join. unfold p.
    by rewrite (resolve_app [] q (c :: rest) _ _ Hq). }
  split; [intros Hc|intros content Hc]; rewrite Hc in Hpath; apply wp_run;
    unfold save_checkpoint_and_metrics_torch, open_append; repeat wp_step;
    fold p; fold csv; unfold write_error; rewrite Hpath; repeat wp_step;
    by rewrite <- !app_assoc.
Qed.

End Run_directory.

Section Reload_errors.
Context `{T : Torch}.

(** ** Loading weights back *)

Definition reload_events (d : Path) : list Event :=
  build_events ++ [EvTorchLoad (os_path_join d "model.pt"); EvLoadStateDict; EvEval].

(** The reload cell on a directory whose [model.pt] holds a state dict
    with the names and shapes of [build_resnet18]'s model. *)
Lemma wp_reload_checkpoint d (sd : state_dict_t) w Q :
  faults w = [] →
  path_error (fs w) (os_path_join d "model.pt") = None →
  fs w !! os_path_join d "model.pt" = Some (File [Pickle sd]) →
  shape <$> sd = mnist_resnet18_shapes →
  Q (Ok (mkResNet (conv1 (built_resnet18 (rng w))) (fc (built_resnet18 (rng w))) false sd))
    (set_rng (rng_next (rng_next (rng w))) (add_trace (reload_events d) w)) →
  wp (reload_checkpoint d) w Q.
Proof.
  intros Hf Hpath Hfile Hsh HQ.
  unfold reload_checkpoint. wp_step. apply wp_build_resnet18; [done|]. wsimpl.
  wp_step. eapply wp_torch_load; [done..|]. wsimpl.
  wp_step. apply wp_load_state_dict; [done| |].
  { by rewrite built_resnet18_shapes. }
  unfold eval. repeat wp_step.
  match goal with |- Q _ ?w1 => match type of HQ with Q _ ?w2 =>
    replace w1 with w2; [exact HQ|] end end.
  unfold reload_events. by world_eq.
Qed.

Lemma stock_resnet18_shapes (n : Z) (g : RNG) :
  shape <$> state_dict (resnet18_init n g) ≠ mnist_resnet18_shapes.
Proof.
  intros Heq. apply (f_equal (λ m, m !! "conv1.weight")) in Heq.
  unfold state_dict, resnet18_init, mnist_resnet18_shapes in Heq. cbn [tensors] in Heq.
  rewrite lookup_fmap, lookup_insert_eq in Heq.
  rewrite lookup_delete_ne in Heq by done. rewrite lookup_insert_eq in Heq.
  discriminate Heq.
Qed.

(** X9.  What the reload cell does with a directory, there with those above
    it, that it cannot load from, no call failing.  In each case a fresh
    model has been built before the file is looked at, none is returned
    and no file is touched: without [model.pt] the cell raises
    [FileNotFoundError]; with a [model.pt] that does not hold one pickled
    state dict (a text, what a failed write left, ...) [torch.load] raises
    what its unpickler makes of the bytes; with a state dict whose names
    or shapes are not those of [build_resnet18]'s model, such as the
    weights of a [resnet18] whose first convolution was not replaced, the
    [RuntimeError] of [load_state_dict]. *)
Theorem reload_checkpoint_errors (d : Path) (w : World) :
  faults w = [] → dir_ready (fs w) d →
  let model_path := os_path_join d "model.pt" in
  let fails e t :=
    ∃ w', reload_checkpoint d w = (Raise e, w') ∧ fs w' = fs w ∧
          trace w' = trace w ++ build_events ++ t ++ [EvRaise e] in
  (fs w !! model_path = None →
   fails (FileNotFoundError model_path) [EvTorchLoad model_path]) ∧
  (∀ c, fs w !! model_path = Some (File c) → (∀ sd, c ≠ [Pickle sd]) →
        fails (LoadError model_path) [EvTorchLoad model_path]) ∧
  (∀ sd, fs w !! model_path = Some (File [Pickle sd]) →
         shape <$> sd ≠ mnist_resnet18_shapes →
         fails (RuntimeError "Error(s) in loading state_dict for ResNet")
               [EvTorchLoad model_path; EvLoadStateDict]) ∧
  (∀ n g, fs w !! model_path = Some (File [Pickle (state_dict (resnet18_init n g))]) →
          fails (RuntimeError "Error(s) in loading state_dict for ResNet")
                [EvTorchLoad model_path; EvLoadStateDict]).
Proof.
  intros Hf Hd model_path fails.
  pose proof (dir_ready_path_error d (fs w) "model.pt" Hd) as Hpath. fold model_path in Hpath.
  assert (∀ sd, fs w !! model_path = Some (File [Pickle sd]) →
                shape <$> sd ≠ mnist_resnet18_shapes →
                fails (RuntimeError "Error(s) in loading state_dict for ResNet")
                      [EvTorchLoad model_path; EvLoadStateDict]) as Hshapes.
  { intros sd Hfile Hsh. apply wp_run.
    unfold reload_checkpoint. wp_step. apply wp_build_resnet18; [done|]. wsimpl.
    wp_step. eapply wp_torch_load; [done..|]. wsimpl.
    unfold load_state_dict. repeat wp_step.
    rewrite bool_decide_eq_false_2 by (by rewrite built_resnet18_shapes).
    repeat wp_step. by rewrite <- !app_assoc. }
  split; [|split; [|split]].
  - intros Hnone. apply wp_run.
    unfold reload_checkpoint. wp_step. apply wp_build_resnet18; [done|]. wsimpl.
    unfold torch_load. repeat wp_step. fold model_path. rewrite Hpath, Hnone.
    repeat wp_step. by rewrite <- !app_assoc.
  - intros c Hfile Hc. apply wp_run.
    unfold reload_checkpoint. wp_step. apply wp_build_resnet18; [done|]. wsimpl.
    unfold torch_load. repeat wp_step. fold model_path. rewrite Hpath, Hfile.
    destruct c as [|[s|sd|] [|x c]]; try (by destruct (Hc sd));
      repeat wp_step; by rewrite <- !app_assoc.
  - done.
  - intros n g Hfile. apply (Hshapes _ Hfile). apply stock_resnet18_shapes.
Qed.

(** X10.  What [train_loop_torch] leaves in its run directory loads back as the
    model it trained.  After a run of at least one epoch with no call
    failing, the reload cell, pointed at [local_path], returns a model in
    eval mode whose state dict is that of the loop's model after its last
    epoch. *)
Theorem train_loop_torch_then_reload (num_epochs bs : Z) (p : Path) (w : World) :
  faults w = [] →
  (0 < Z.to_nat bs ≤ length (mnist w))%nat →
  (∃ f, mkdir_from [] p (fs w) = Ok f) →
  fs w !! os_path_join p "metrics.csv" ≠ Some Dir →
  fs w !! os_path_join p "model.pt" ≠ Some Dir →
  0 < num_epochs →
  ∃ st w' loaded w2,
    train_loop_torch_locals num_epochs bs p w = (Ok st, w') ∧
    reload_checkpoint p w' = (Ok loaded, w2) ∧
    state_dict loaded = state_dict (model st) ∧
    training loaded = false.
Proof.
  intros Hf Hbs Hm Hcsv Hpt Hn.
  destruct (train_loop_torch_calm num_epochs bs p w Hf Hbs Hm Hcsv Hpt)
    as (st & w' & Hrun & Hf' & _ & Hsh & _ & _ & _ & ms & _ & _ & _ & Hlast).
  destruct Hlast as (Hready & _ & Hfile).
  { unfold range. by rewrite seqZ_cons. }
  destruct (wp_run (reload_checkpoint p) w'
              (Ok (mkResNet (conv1 (built_resnet18 (rng w'))) (fc (built_resnet18 (rng w')))
                     false (state_dict (model st))))
              (λ _, True)) as (w2 & Hload & _).
  { eapply wp_reload_checkpoint; [done|by apply dir_ready_path_error|done..]. }
  by eexists st, w', _, w2.
Qed.

End Reload_errors.

Section Latest_checkpoint.
Context `{T : Torch}.

(** ** From the reports of a job back to a model *)

Lemma last_report_checkpoint (reports : list (Metrics * option (Path * gmap Path Node)))
    m ck :
  last reports = Some (m, Some ck) → Result_checkpoint reports = Some ck.
Proof.
  destruct reports as [|r reports _] using rev_ind; [done|].
  rewrite last_snoc. intros [= ->]. unfold Result_checkpoint.
  rewrite omap_app. simpl. apply last_snoc.
Qed.

Lemma checkpoint_files_dir (n : nat) (sd : state_dict_t) (f : gmap Path Node) :
  checkpoint_files (tmp_path n) sd f !! tmp_path n = Some Dir ∧
  checkpoint_files (tmp_path n) sd f !! ["tmp"] = None.
Proof.
  unfold checkpoint_files, dir_snapshot. split.
  - apply map_lookup_filter_Some_2; [|done].
    rewrite lookup_insert_ne by done. by rewrite lookup_insert_eq.
  - apply map_lookup_filter_None. right. intros x _ [k Hk]. simpl in Hk. done.
Qed.

(** The report of rank 0 at the end of an epoch carries the weights the
    epoch left. *)
Lemma ray_epoch_checkpoint c data bs r0 done epoch st w :
  0 ≤ world_rank c < world_size c →
  (0 < Z.to_nat bs
   ≤ (length data + Z.to_nat (world_size c) - 1) `div` Z.to_nat (world_size c))%nat →
  ray_inv c data bs r0 done st w →
  world_rank c = 0 →
  wp (train_loop_ray_train_epoch save_checkpoint_and_metrics_ray_train epoch st) w
     (λ r w', ∀ st', r = Ok st' →
        ∃ m n files,
          last (reported w') = Some (m, Some (tmp_path n, files)) ∧
          files !! tmp_path n = Some Dir ∧ files !! ["tmp"] = None ∧
          files !! os_path_join (tmp_path n) "model.pt"
          = Some (File [Pickle (state_dict (model st'))])).
Proof.
  intros Hrank Hbs (Hf & Hno & Hc & Hdata & Hbsz & Hd & [e0 Hs] & Hsh & rs & Hrep & Hrs) Hz.
  set (batches := shard_batches (data_loader st) (world_size c) (world_rank c) epoch).
  assert (batches ≠ []) as Hne.
  { intros Hnil. apply (f_equal length) in Hnil. unfold batches in Hnil.
    rewrite shard_batches_length in Hnil by (done || lia).
    rewrite Hdata, Hbsz in Hnil. simpl in Hnil.
    apply Nat.div_small_iff in Hnil; lia. }
  destruct (loss_after_batches st batches Hne) as [l Hl].
  eapply wp_train_loop_ray_train_epoch; [done..|].
  intros st' [= <-]. wsimpl. rewrite last_snoc. unfold worker_report.
  rewrite Hc, bool_decide_eq_true_2 by done.
  eexists _, _, _. split; [done|]. split; [apply checkpoint_files_dir|].
  split; [apply checkpoint_files_dir|]. apply checkpoint_files_weights.
Qed.

(** A run of the worker of rank 0 in which no call fails: what it
    reported last holds the weights it ended with. *)
Lemma train_loop_ray_train_last_checkpoint config g num_epochs w :
  faults w = [] → no_tmp (fs w) →
  config !! "global_batch_size" = Some g →
  config !! "num_epochs" = Some num_epochs →
  0 < num_epochs →
  world_rank (context w) = 0 → 1 < world_size (context w) →
  (0 < Z.to_nat (g `div` world_size (context w))
   ≤ (length (mnist w) + Z.to_nat (world_size (context w)) - 1)
     `div` Z.to_nat (world_size (context w)))%nat →
  ∃ st w' m n files,
    train_loop_ray_train_with save_checkpoint_and_metrics_ray_train config w = (Ok st, w') ∧
    last (reported w') = Some (m, Some (tmp_path n, files)) ∧
    files !! tmp_path n = Some Dir ∧ files !! ["tmp"] = None ∧
    files !! os_path_join (tmp_path n) "model.pt"
    = Some (File [Pickle (state_dict (model st))]) ∧
    shape <$> state_dict (model st) = mnist_resnet18_shapes.
Proof.
  intros Hf Hno Hg Hn Hpos Hz Hws Hbs.
  set (c := context w). set (bs := g `div` world_size c).
  set (I := λ (done : list Z) (st : Locals) (w' : World),
         ray_inv c (mnist w) bs (reported w) done st w' ∧
         (done ≠ [] →
          ∃ m n files,
            last (reported w') = Some (m, Some (tmp_path n, files)) ∧
            files !! tmp_path n = Some Dir ∧ files !! ["tmp"] = None ∧
            files !! os_path_join (tmp_path n) "model.pt"
            = Some (File [Pickle (state_dict (model st))]))).
  cut (wp (train_loop_ray_train_with save_checkpoint_and_metrics_ray_train config) w
          (λ r w', ∃ st, r = Ok st ∧ I (range num_epochs) st w')).
  { unfold wp. destruct (train_loop_ray_train_with _ config w) as [r w'].
    simpl. intros (st & -> & HI & Hlast).
    destruct Hlast as (m & n & files & Hlast & Hdir & Htmp & Hfile).
    { unfold range. by rewrite seqZ_cons. }
    destruct HI as (_ & _ & _ & _ & _ & _ & _ & Hsh & _).
    by exists st, w', m, n, files. }
  unfold train_loop_ray_train_with. wp_step.
  eapply wp_train_loop_ray_train_setup; [done|done|lia|lia|].
  unfold getitem. rewrite Hn. repeat wp_step.
  apply (wp_for_each I).
  - split; [|done]. unfold ray_inv. wsimpl. repeat split; try done.
    + by eexists.
    + apply ray_model_shapes.
    + exists []. split; [by rewrite app_nil_r|constructor].
  - intros done x rest s w1 _ [HI _].
    pose proof (ray_inv_step c (mnist w) bs (reported w) done x s w1
                  ltac:(unfold c; lia) Hbs HI) as H1.
    pose proof (ray_epoch_checkpoint c (mnist w) bs (reported w) done x s w1
                  ltac:(unfold c; lia) Hbs HI Hz) as H2.
    unfold wp in *.
    destruct (train_loop_ray_train_epoch _ x s w1) as [r w2]. simpl in *.
    destruct H1 as (st' & -> & HI'). split; [done|]. intros _. by apply H2.
  - intros s w' HI. eauto.
Qed.

(** X11.  The latest checkpoint of a job holds the model the worker of rank 0
    trained.  After a run of [train_loop_ray_train] by that worker, in a
    job of two workers or more, of at least one epoch and with no call
    failing, the cell that loads [result.checkpoint], run where [/tmp] is
    there and no call fails, returns a model in eval mode whose state dict
    is that of the worker's model after its last epoch. *)
Theorem latest_checkpoint_is_trained_model (config : gmap string Z) (g num_epochs : Z)
    (w w1 : World) :
  faults w = [] → no_tmp (fs w) →
  config !! "global_batch_size" = Some g →
  config !! "num_epochs" = Some num_epochs →
  0 < num_epochs →
  world_rank (context w) = 0 → 1 < world_size (context w) →
  (0 < Z.to_nat (g `div` world_size (context w))
   ≤ (length (mnist w) + Z.to_nat (world_size (context w)) - 1)
     `div` Z.to_nat (world_size (context w)))%nat →
  faults w1 = [] → fs w1 !! ["tmp"] = Some Dir →
  ∃ st w' loaded w2,
    train_loop_ray_train_with save_checkpoint_and_metrics_ray_train config w = (Ok st, w') ∧
    load_latest_checkpoint (reported w') w1 = (Ok loaded, w2) ∧
    state_dict loaded = state_dict (model st) ∧
    training loaded = false.
Proof.
  intros Hf Hno Hg Hn Hpos Hz Hws Hbs Hf1 Htmp1.
  destruct (train_loop_ray_train_last_checkpoint config g num_epochs w)
    as (st & w' & m & n & files & Hrun & Hlast & Hdir & Htmp & Hfile & Hsh); [done..|].
  destruct (wp_run (load_latest_checkpoint (reported w')) w1
              (Ok (mkResNet (conv1 (built_resnet18 (rng w1))) (fc (built_resnet18 (rng w1)))
                     false (state_dict (model st))))
              (λ _, True)) as (w2 & Hload & _).
  { unfold load_latest_checkpoint. rewrite (last_report_checkpoint _ _ _ Hlast).
    repeat wp_step. eapply wp_reload_checkpoint; [done| | |done|done].
    - wsimpl. unfold path_error. rewrite parent_join. unfold tmp_path at 1.
      cbn [resolve app]. rewrite lookup_union_r by done. rewrite Htmp1.
      fold (tmp_path n). by rewrite (lookup_union_Some_l _ _ _ _ Hdir).
    - wsimpl. by apply lookup_union_Some_l. }
  by eexists st, w', _, w2.
Qed.

End Latest_checkpoint.

Section Files.
Context `{T : Torch}.

(** ** What happens to the files whatever the environment does *)

(** [m] changes a part of the world (its files, the entries of [./data])
    only as [R] allows, in any world: whichever of its calls fails, and
    wherever it stops. *)
Definition changes {A S : Type} (part : World → S) (R : relation S) (m : M A) : Prop :=
  ∀ w, R (part w) (part (m w).2).

Section rules.
Context {S : Type} (part : World → S) (R : relation S) `{!PreOrder R}.
Hypothesis part_log : ∀ ev w, part (log ev w) = part w.
Hypothesis part_faults : ∀ fl w, part (set_faults fl w) = part w.

Lemma changes_ret {A : Type} (a : A) : changes part R (mret a).
Proof. intros w. reflexivity. Qed.

Lemma changes_raise {A : Type} e : changes part R (@raise _ A e).
Proof. intros w. simpl. by rewrite part_log. Qed.

Lemma changes_lib ev : changes part R (lib ev).
Proof.
  intros w. unfold lib. simpl.
  destruct (faults w) as [|[e|] fl]; simpl; by rewrite ?part_log, ?part_faults, ?part_log.
Qed.

(** A call that writes as it goes: what it has done when it fails is to
    be allowed. *)
Lemma changes_lib_writing ev partial :
  (∀ w, R (part w) (part (partial w))) → changes part R (lib_writing ev partial).
Proof.
  intros Hp w. unfold lib_writing. simpl.
  destruct (faults w) as [|[e|] fl]; simpl; rewrite ?part_log, ?part_faults, ?part_log;
    try reflexivity.
  etrans; [|apply Hp]. by rewrite part_faults, part_log.
Qed.

Lemma changes_get {A : Type} (f : World → A) : changes part R (get f).
Proof. intros w. reflexivity. Qed.

Lemma changes_modify (f : World → World) :
  (∀ w, part (f w) = part w) → changes part R (modify f).
Proof. intros Hf w. simpl. by rewrite Hf. Qed.

Lemma changes_bind {A B : Type} (m : M A) (k : A → M B) :
  changes part R m → (∀ a, changes part R (k a)) → changes part R (m ≫= k).
Proof.
  intros Hm Hk w. specialize (Hm w). unfold mbind, M_bind, bind.
  destruct (m w) as [[a|e] w1]; simpl in *; [|done].
  by etrans; [|apply Hk].
Qed.

Lemma changes_for_each {A St : Type} (xs : list A) (body : A → St → M St) st :
  (∀ x s, changes part R (body x s)) → changes part R (for_each xs body st).
Proof.
  intros Hb. revert st. induction xs as [|x xs IH]; intros st; simpl.
  - apply changes_ret.
  - apply changes_bind; [apply Hb | apply IH].
Qed.

(** Leaving a [with] block, for a part of the world that the files are
    not in. *)
Lemma changes_cleanup {A : Type} d (m : M A) :
  (∀ f w, part (set_fs f w) = part w) → changes part R m → changes part R (cleanup d m).
Proof.
  intros Hfs Hm w. specialize (Hm w). unfold cleanup.
  destruct (m w) as [r w1]. simpl in *. by rewrite Hfs.
Qed.

End rules.

(** A step that looks at the files and then acts on them. *)
Lemma changes_get_fs {A : Type} (R : relation (gmap Path Node)) (k : gmap Path Node → M A) :
  (∀ w, R (fs w) (fs (k (fs w) w).2)) → changes fs R (get fs ≫= k).
Proof. intros Hk w. apply Hk. Qed.

(** The dataset is put in [./data], and nothing else is done there. *)
Definition dataset_only (d d' : gset Path) : Prop :=
  d ⊆ d' ∧ d' ⊆ d ∪ mnist_dirs ∪ mnist_files.

Lemma dataset_only_elem_of (d d' : gset Path) :
  dataset_only d d' ↔
  (∀ q, q ∈ d → q ∈ d') ∧ (∀ q, q ∈ d' → q ∈ d ∨ q ∈ mnist_dirs ∨ q ∈ mnist_files).
Proof.
  unfold dataset_only. split.
  - intros [H1 H2]. split; [done|]. intros q Hq%H2. rewrite !elem_of_union in Hq. tauto.
  - intros [H1 H2]. split; [done|]. intros q Hq%H2. rewrite !elem_of_union. tauto.
Qed.

#[global] Instance dataset_only_preorder : PreOrder dataset_only.
Proof.
  split.
  - intros d. apply dataset_only_elem_of. auto.
  - intros d d1 d2 [H1 H2]%dataset_only_elem_of [H1' H2']%dataset_only_elem_of.
    apply dataset_only_elem_of. split; [auto|].
    intros q [Hq|Hq]%H2'; [auto|tauto].
Qed.

Lemma files_change_MNIST (R : relation (gmap Path Node)) `{!PreOrder R} : changes fs R MNIST.
Proof.
  unfold MNIST. apply changes_bind; [done| |intros _].
  - apply changes_lib_writing; [done..|]. intros w. reflexivity.
  - apply changes_bind; [done| |intros _].
    + by apply changes_modify.
    + by apply changes_get.
Qed.

Lemma data_change_MNIST : changes data_dir dataset_only MNIST.
Proof.
  unfold MNIST. apply changes_bind; [tc_solve| |intros _].
  - apply changes_lib_writing; [tc_solve|done..|]. intros w. simpl.
    unfold mnist_download_failed. case_bool_decide; [reflexivity|].
    apply dataset_only_elem_of. split; intros q; rewrite !elem_of_union; tauto.
  - apply changes_bind; [tc_solve| |intros _].
    + intros w. simpl. unfold mnist_download. case_bool_decide; [reflexivity|].
      apply dataset_only_elem_of. split; intros q; rewrite !elem_of_union; tauto.
    + apply changes_get. tc_solve.
Qed.

Lemma data_change_torch_save (R : relation (gset Path)) `{!PreOrder R} sd p :
  changes data_dir R (torch_save sd p).
Proof.
  unfold torch_save. apply changes_bind; [done| |intros _].
  - apply changes_lib_writing; [done..|]. intros w. unfold torch_save_partial.
    by destruct (write_error _ _).
  - apply changes_bind; [done|by apply changes_get|intros f].
    destruct (write_error _ _); [by apply changes_raise|by apply changes_modify].
Qed.

End Files.

Create HintDb files.

Ltac changes_step :=
  lazymatch goal with
  | |- changes _ _ (mret _) => apply changes_ret; tc_solve
  | |- changes fs _ (get fs ≫= _) => fail "the files read matter"
  | |- changes _ _ (_ ≫= _) => apply changes_bind; [tc_solve| |intros]
  | |- changes _ _ (lib _) => apply changes_lib; first [tc_solve | done]
  | |- changes _ _ (raise _) => apply changes_raise; first [tc_solve | done]
  | |- changes _ _ (get _) => apply changes_get; tc_solve
  | |- changes _ _ (modify _) => apply changes_modify; [tc_solve|intros; reflexivity]
  | |- changes _ _ (for_each _ _ _) => apply changes_for_each; [tc_solve|intros]
  | |- changes data_dir _ (cleanup _ _) => apply changes_cleanup; [intros; reflexivity|]
  | |- changes _ _ (match ?x with _ => _ end) => destruct x
  | |- changes _ _ _ => solve [auto with files]
  end.

Ltac changes_proof := intros; cbv zeta; repeat changes_step.

Section Run_dir_only.
Context `{T : Torch}.

(** *** [train_loop_torch] and its run directory *)

(** From the files [f] to the files [f']: but for the metrics log and the
    weights file of the run directory [p], every entry is kept as it is;
    what is new is one of these two files or a directory on the way to [p];
    nothing is removed; and the log has only got longer. *)
Definition run_dir_only (p : Path) (f f' : gmap Path Node) : Prop :=
  (∀ q x, f !! q = Some x →
     q ≠ os_path_join p "metrics.csv" → q ≠ os_path_join p "model.pt" → f' !! q = Some x) ∧
  (∀ q, f !! q = None →
     f' !! q = None ∨ q = os_path_join p "metrics.csv" ∨ q = os_path_join p "model.pt" ∨
     (q `prefix_of` p ∧ f' !! q = Some Dir)) ∧
  (∀ q, is_Some (f !! q) → is_Some (f' !! q)) ∧
  file_content f (os_path_join p "metrics.csv")
  `prefix_of` file_content f' (os_path_join p "metrics.csv").

#[global] Instance run_dir_only_preorder (p : Path) : PreOrder (run_dir_only p).
Proof.
  split.
  - intros f. repeat split; auto.
  - intros f f1 f2 (H1 & H2 & H3 & H4) (H1' & H2' & H3' & H4'). repeat split.
    + intros q x Hq Hcsv Hpt. apply H1'; auto.
    + intros q Hq.
      destruct (f1 !! q) as [x|] eqn:Hq1; [|by apply H2'].
      destruct (decide (q = os_path_join p "metrics.csv")) as [|Hcsv]; [by auto|].
      destruct (decide (q = os_path_join p "model.pt")) as [|Hpt]; [by auto|].
      destruct (H2 q Hq) as [Hn|[?|[?|[Hpre Hd]]]]; [congruence|done|done|].
      right. right. right. split; [done|]. apply H1'; auto.
    + auto.
    + by etrans.
Qed.

Lemma run_dir_only_insert_new (p : Path) (f : gmap Path Node) (q : Path) (x : Node) :
  f !! q = None →
  q = os_path_join p "metrics.csv" ∧ x = File [] ∨ q = os_path_join p "model.pt" →
  run_dir_only p f (<[q := x]> f).
Proof.
  intros Hq Hwhich. repeat split.
  - intros q' x' Hq' Hcsv Hpt. rewrite lookup_insert_ne; [done|]. by destruct Hwhich as [[-> _]| ->].
  - intros q' Hq'. destruct (decide (q = q')) as [<-|Hne].
    + destruct Hwhich as [[-> _]| ->]; auto.
    + left. by rewrite lookup_insert_ne.
  - intros q' Hq'. destruct (decide (q = q')) as [<-|Hne].
    + by rewrite lookup_insert_eq.
    + by rewrite lookup_insert_ne.
  - unfold file_content. destruct Hwhich as [[-> ->]| ->].
    + rewrite Hq, lookup_insert_eq. done.
    + rewrite lookup_insert_ne; [done|]. intros H%os_path_join_inj. done.
Qed.

Lemma mkdir_from_grows (done rest : Path) (f f' : gmap Path Node) :
  mkdir_from done rest f = Ok f' →
  (∀ q x, f !! q = Some x → f' !! q = Some x) ∧
  (∀ q, f !! q = None → f' !! q = None ∨ (q `prefix_of` done ++ rest ∧ f' !! q = Some Dir)).
Proof.
  revert done f. induction rest as [|c rest IH]; intros done f H; simpl in H.
  - inversion H; subst. auto.
  - assert (done ++ c :: rest = (done ++ [c]) ++ rest) as Heq by (by rewrite <- app_assoc).
    rewrite Heq.
    destruct (f !! (done ++ [c])) as [[|content]|] eqn:Hq; [|done|].
    + by apply IH.
    + destruct (IH _ _ H) as [Hkeep Hnew]. split.
      * intros q x Hqx. apply Hkeep. rewrite lookup_insert_ne; [done|]. congruence.
      * intros q Hnone. destruct (decide (q = done ++ [c])) as [->|Hne].
        -- right. split; [by eexists|]. apply Hkeep. by rewrite lookup_insert_eq.
        -- apply Hnew. by rewrite lookup_insert_ne.
Qed.

Lemma files_change_Path_mkdir (p : Path) : changes fs (run_dir_only p) (Path_mkdir p).
Proof.
  unfold Path_mkdir. apply changes_bind; [tc_solve|changes_step|intros _].
  apply changes_get_fs. intros w.
  destruct (mkdir_from [] p (fs w)) as [f'|e] eqn:Hm; simpl; [|reflexivity].
  destruct (mkdir_from_grows _ _ _ _ Hm) as [Hkeep Hnew]. repeat split.
  - auto.
  - intros q Hq. destruct (Hnew q Hq) as [?|[? ?]]; auto.
  - intros q [x Hq]. rewrite (Hkeep _ _ Hq). by eexists.
  - unfold file_content. by rewrite (mkdir_from_join _ _ _ _ Hm).
Qed.

Lemma files_change_open_append (p : Path) :
  changes fs (run_dir_only p) (open_append (os_path_join p "metrics.csv")).
Proof.
  unfold open_append. apply changes_bind; [tc_solve|changes_step|intros _].
  apply changes_get_fs. intros w.
  destruct (write_error _ _); simpl; [reflexivity|].
  destruct (fs w !! os_path_join p "metrics.csv") eqn:Hq; simpl; [reflexivity|].
  apply run_dir_only_insert_new; auto.
Qed.

Lemma files_change_writerow (p : Path) cells :
  changes fs (run_dir_only p) (writerow (os_path_join p "metrics.csv") cells).
Proof.
  unfold writerow. apply changes_bind; [tc_solve|changes_step|intros _].
  apply changes_get_fs. intros w.
  destruct (fs w !! os_path_join p "metrics.csv") as [[|c]|] eqn:Hq; simpl; try reflexivity.
  repeat split.
  - intros q x Hqx Hcsv _. by rewrite lookup_insert_ne.
  - intros q Hnone. left. rewrite lookup_insert_ne; [done|]. congruence.
  - intros q Hsome. destruct (decide (q = os_path_join p "metrics.csv")) as [->|Hne].
    + by rewrite lookup_insert_eq.
    + by rewrite lookup_insert_ne.
  - unfold file_content. rewrite Hq, lookup_insert_eq. by eexists.
Qed.

Lemma run_dir_only_weights (p : Path) (f : gmap Path Node) (new : Node) :
  run_dir_only p f (<[os_path_join p "model.pt" := new]> f).
Proof.
  assert (os_path_join p "model.pt" ≠ os_path_join p "metrics.csv") as Hne
    by (intros H%os_path_join_inj; done).
  repeat split.
  - intros q x Hqx _ Hpt. by rewrite lookup_insert_ne.
  - intros q Hnone. destruct (decide (q = os_path_join p "model.pt")) as [->|Hne'].
    + auto.
    + left. by rewrite lookup_insert_ne.
  - intros q Hsome. destruct (decide (q = os_path_join p "model.pt")) as [->|Hne'].
    + by rewrite lookup_insert_eq.
    + by rewrite lookup_insert_ne.
  - unfold file_content. by rewrite lookup_insert_ne.
Qed.

Lemma files_change_torch_save (p : Path) sd :
  changes fs (run_dir_only p) (torch_save sd (os_path_join p "model.pt")).
Proof.
  unfold torch_save. apply changes_bind; [tc_solve| |intros _].
  - apply changes_lib_writing; [tc_solve|done..|]. intros w. unfold torch_save_partial.
    destruct (write_error _ _); simpl; [reflexivity|]. apply run_dir_only_weights.
  - apply changes_get_fs. intros w.
    destruct (write_error _ _); simpl; [reflexivity|]. apply run_dir_only_weights.
Qed.

#[local] Hint Resolve files_change_Path_mkdir files_change_open_append files_change_writerow
  files_change_torch_save : files.

Lemma files_change_iter_batches R `{!PreOrder R} dl : changes fs R (iter_batches dl).
Proof. unfold iter_batches. changes_proof. Qed.

Lemma files_change_build_resnet18 R `{!PreOrder R} : changes fs R build_resnet18.
Proof. unfold build_resnet18, resnet18, torch_nn_Conv2d, draw_rng. changes_proof. Qed.

Lemma files_change_train_loop_batch R `{!PreOrder R} batch st :
  changes fs R (train_loop_torch_batch batch st) ∧
  changes fs R (train_loop_ray_train_batch batch st).
Proof.
  unfold train_loop_torch_batch, train_loop_ray_train_batch, call_model, criterion, zero_grad,
    loss_backward, optimizer_step, metric_update.
  split; changes_proof.
Qed.

Lemma files_change_train_loop_torch (num_epochs bs : Z) (p : Path) :
  changes fs (run_dir_only p) (train_loop_torch num_epochs bs p).
Proof.
  pose proof (files_change_iter_batches (run_dir_only p)).
  pose proof (files_change_build_resnet18 (run_dir_only p)).
  pose proof (λ b s, proj1 (files_change_train_loop_batch (run_dir_only p) b s)).
  pose proof (files_change_MNIST (run_dir_only p)).
  unfold train_loop_torch, train_loop_torch_locals, train_loop_torch_setup, load_model_torch,
    Adam, Accuracy, data_loader_torch, torch_DataLoader, train_loop_torch_epoch, local,
    metric_compute, report_metrics_torch, tensor_item, print, metric_reset,
    save_checkpoint_and_metrics_torch.
  changes_proof.
Qed.

Lemma data_change_train_loop_torch (num_epochs bs : Z) (p : Path) :
  changes data_dir dataset_only (train_loop_torch num_epochs bs p).
Proof.
  pose proof data_change_MNIST.
  pose proof (data_change_torch_save dataset_only).
  unfold train_loop_torch, train_loop_torch_locals, train_loop_torch_setup, load_model_torch,
    build_resnet18, resnet18, torch_nn_Conv2d, draw_rng,
    Adam, Accuracy, data_loader_torch, torch_DataLoader, train_loop_torch_epoch, iter_batches,
    train_loop_torch_batch, call_model, criterion, zero_grad, loss_backward, optimizer_step,
    metric_update, local, metric_compute, report_metrics_torch, tensor_item, print,
    metric_reset, save_checkpoint_and_metrics_torch, Path_mkdir, open_append, writerow.
  changes_proof.
Qed.

(** X12.  Whatever the environment does, and whether the loop returns or
    raises, [train_loop_torch] writes in two places only, its run
    directory and the dataset directory [./data].  Outside [./data] it
    leaves every file and directory as it was but for the metrics log and
    the weights file of its run directory; what it creates there is these
    two files and the directories on the way to the run directory; it
    removes nothing; and what the log held before is still the beginning
    of the log (the weights file may be left half written).  In [./data]
    it removes nothing, and what it adds is directories and files of the
    MNIST dataset. *)
Theorem train_loop_torch_keeps_to_its_run_directory (num_epochs bs : Z) (p : Path) (w : World) :
  let f := fs w in
  let f' := fs (train_loop_torch num_epochs bs p w).2 in
  let log_file := os_path_join p "metrics.csv" in
  let weights_file := os_path_join p "model.pt" in
  ((∀ q x, f !! q = Some x → q ≠ log_file → q ≠ weights_file → f' !! q = Some x) ∧
   (∀ q, f !! q = None →
      f' !! q = None ∨ q = log_file ∨ q = weights_file ∨ (q `prefix_of` p ∧ f' !! q = Some Dir)) ∧
   (∀ q, is_Some (f !! q) → is_Some (f' !! q)) ∧
   file_content f log_file `prefix_of` file_content f' log_file) ∧
  data_dir w ⊆ data_dir (train_loop_torch num_epochs bs p w).2 ∧
  data_dir (train_loop_torch num_epochs bs p w).2 ⊆ data_dir w ∪ mnist_dirs ∪ mnist_files.
Proof.
  split.
  - apply (files_change_train_loop_torch num_epochs bs p w).
  - apply (data_change_train_loop_torch num_epochs bs p w).
Qed.

End Run_dir_only.

Section Only_tmp.
Context `{T : Torch}.

(** *** [train_loop_ray_train] and its temporary directories *)

(** From [f] to [f']: nothing has changed outside the directory [d]. *)
Definition under (d : Path) (f f' : gmap Path Node) : Prop :=
  ∀ q, ¬ d `prefix_of` q → f' !! q = f !! q.

#[global] Instance under_preorder (d : Path) : PreOrder (under d).
Proof.
  split.
  - by intros f q _.
  - intros f f1 f2 H1 H2 q Hq. by rewrite H2, H1.
Qed.

(** From [f], with nothing under [/tmp], to [f']: the same files, and
    possibly the directory [/tmp] itself. *)
Definition only_tmp (f f' : gmap Path Node) : Prop :=
  no_tmp f → f' = f ∨ f' = <[["tmp"] := Dir]> f.

#[global] Instance only_tmp_preorder : PreOrder only_tmp.
Proof.
  split.
  - intros f _. by left.
  - intros f f1 f2 H1 H2 Hno. destruct (H1 Hno) as [->| ->].
    + by apply H2.
    + destruct (H2 (no_tmp_insert_tmp _ Hno)) as [->| ->]; [by right|].
      right. by rewrite insert_insert_eq.
Qed.

Lemma files_change_under_torch_save (d : Path) sd (name : string) :
  changes fs (under d) (torch_save sd (os_path_join d name)).
Proof.
  assert (∀ (f : gmap Path Node) x, under d f (<[os_path_join d name := x]> f)) as Hunder.
  { intros f x q Hq. rewrite lookup_insert_ne; [done|]. intros <-. apply Hq. by eexists. }
  unfold torch_save. apply changes_bind; [tc_solve| |intros _].
  - apply changes_lib_writing; [tc_solve|done..|]. intros w. unfold torch_save_partial.
    destruct (write_error _ _); simpl; [reflexivity|]. apply Hunder.
  - apply changes_get_fs. intros w.
    destruct (write_error _ _); simpl; [reflexivity|]. apply Hunder.
Qed.

Lemma files_change_ray_get_context R `{!PreOrder R} q : changes fs R (ray_get_context q).
Proof. unfold ray_get_context. changes_proof. Qed.

Lemma files_change_ray_train_report R `{!PreOrder R} metrics checkpoint :
  changes fs R (ray_train_report metrics checkpoint).
Proof.
  unfold ray_train_report. apply changes_bind; [tc_solve|changes_step|intros _].
  apply changes_get_fs. intros w. reflexivity.
Qed.

(** A [with tempfile.TemporaryDirectory()] block that writes nowhere but
    in its directory leaves nothing behind, however it ends. *)
Lemma files_change_with_TemporaryDirectory {A : Type} (body : Path → M A) :
  (∀ d, changes fs (under d) (body d)) →
  changes fs only_tmp (with_TemporaryDirectory body).
Proof.
  intros Hbody w Hno. unfold with_TemporaryDirectory, mbind, M_bind, bind, get, modify, lib.
  simpl. set (d := tmp_path (tmp_count w)).
  assert (∀ w1, fs w1 = <[d := Dir]> (<[["tmp"] := Dir]> (fs w)) →
                fs (cleanup d (body d) w1).2 = <[["tmp"] := Dir]> (fs w)) as Hclean.
  { intros w1 Hw1. specialize (Hbody d w1). unfold cleanup.
    destruct (body d w1) as [r w2]. simpl in *.
    apply map_eq. intros q. rewrite rmtree_lookup. case_decide as Hpre.
    - destruct (tmp_path_prefix _ _ Hpre) as [Hq Hne].
      rewrite lookup_insert_ne by done. symmetry. by apply Hno.
    - rewrite (Hbody q Hpre), Hw1. rewrite lookup_insert_ne; [done|].
      intros <-. by apply Hpre. }
  destruct (faults w) as [|[e|] fl]; simpl.
  - right. by apply Hclean.
  - by left.
  - right. by apply Hclean.
Qed.

Lemma files_change_save_checkpoint_and_metrics_ray_train m metrics :
  changes fs only_tmp (save_checkpoint_and_metrics_ray_train m metrics) ∧
  changes fs only_tmp (save_checkpoint_and_metrics_ray_train_first m metrics).
Proof.
  pose proof (λ d, files_change_ray_get_context (under d)).
  pose proof (λ d, files_change_ray_train_report (under d)).
  pose proof files_change_under_torch_save.
  split; apply files_change_with_TemporaryDirectory; intros d;
    unfold Checkpoint_from_directory; changes_proof.
Qed.

Lemma files_change_train_loop_ray_train config :
  changes fs only_tmp (train_loop_ray_train config).
Proof.
  pose proof (files_change_iter_batches only_tmp).
  pose proof (files_change_ray_get_context only_tmp).
  pose proof (λ b s, proj2 (files_change_train_loop_batch only_tmp b s)).
  pose proof (λ m metrics, proj1 (files_change_save_checkpoint_and_metrics_ray_train m metrics)).
  pose proof (files_change_MNIST only_tmp).
  unfold train_loop_ray_train, train_loop_ray_train_with, train_loop_ray_train_setup,
    load_model_ray_train, resnet18, torch_nn_Conv2d, draw_rng, prepare_model, Adam, getitem,
    floordiv, data_loader_ray_train, torch_DataLoader, prepare_data_loader, Accuracy,
    model_device, train_loop_ray_train_epoch, set_epoch, local, metric_compute,
    print_metrics_ray_train, tensor_item, print, metric_reset.
  changes_proof.
Qed.

Lemma data_change_train_loop_ray_train config :
  changes data_dir dataset_only (train_loop_ray_train config).
Proof.
  pose proof data_change_MNIST.
  pose proof (data_change_torch_save dataset_only).
  unfold train_loop_ray_train, train_loop_ray_train_with, train_loop_ray_train_setup,
    load_model_ray_train, resnet18, torch_nn_Conv2d, draw_rng, prepare_model, Adam, getitem,
    floordiv, data_loader_ray_train, torch_DataLoader, prepare_data_loader, Accuracy,
    model_device, train_loop_ray_train_epoch, set_epoch, iter_batches,
    train_loop_ray_train_batch, call_model, criterion, zero_grad, loss_backward,
    optimizer_step, metric_update, local, metric_compute,
    print_metrics_ray_train, tensor_item, print, metric_reset,
    save_checkpoint_and_metrics_ray_train, with_TemporaryDirectory, ray_get_context,
    Checkpoint_from_directory, ray_train_report.
  changes_proof.
Qed.

(** X13.  A worker of [train_loop_ray_train] leaves no file behind but the
    dataset, and what it handed to [ray.train.report], which is Ray
    Train's to keep.  Started with nothing under [/tmp], and whatever the
    environment does (a failing [torch.save] or [ray.train.report]
    included), the worker ends, outside [./data], with the files it found,
    and at most the directory [/tmp] itself in addition: every temporary
    checkpoint directory is gone, with its weights file, whole or half
    written.  In [./data] it removes nothing, and what it adds is
    directories and files of the MNIST dataset. *)
Theorem train_loop_ray_train_leaves_no_file (config : gmap string Z) (w : World) :
  no_tmp (fs w) →
  (fs (train_loop_ray_train config w).2 = fs w ∨
   fs (train_loop_ray_train config w).2 = <[["tmp"] := Dir]> (fs w)) ∧
  data_dir w ⊆ data_dir (train_loop_ray_train config w).2 ∧
  data_dir (train_loop_ray_train config w).2 ⊆ data_dir w ∪ mnist_dirs ∪ mnist_files.
Proof.
  intros Hno. split.
  - by apply (files_change_train_loop_ray_train config w).
  - apply (data_change_train_loop_ray_train config w).
Qed.

End Only_tmp.

Section First_definition.
Context `{T : Torch}.

(** ** The checkpoint function as it is first defined *)

(** X14.  The first definition of [save_checkpoint_and_metrics_ray_train] does
    not look at the rank.  With no call failing, on any worker: the weights
    of the unwrapped model are saved in a fresh temporary directory, the
    report carries the metrics and a checkpoint made of that directory,
    and the directory is gone afterwards. *)
Theorem first_definition_checkpoints_on_every_worker (m : DDP) (metrics : Metrics) (w : World) :
  faults w = [] → no_tmp (fs w) →
  let d := tmp_path (tmp_count w) in
  ∃ w' files,
    save_checkpoint_and_metrics_ray_train_first m metrics w = (Ok tt, w') ∧
    reported w' = reported w ++ [(metrics, Some (d, files))] ∧
    files !! os_path_join d "model.pt" = Some (File [Pickle (state_dict (module m))]) ∧
    trace w' = trace w ++ [EvTemporaryDirectory d; EvTorchSave (os_path_join d "model.pt");
                           EvCheckpointFromDirectory d; EvReport metrics (Some d)] ∧
    fs w' = <[["tmp"] := Dir]> (fs w).
Proof.
  intros Hf Hno d.
  cut (wp (save_checkpoint_and_metrics_ray_train_first m metrics) w
         (λ r w', r = Ok tt ∧
            reported w' = reported w
                          ++ [(metrics, Some (d, checkpoint_files d (state_dict (module m)) (fs w)))] ∧
            trace w' = trace w ++ [EvTemporaryDirectory d; EvTorchSave (os_path_join d "model.pt");
                                   EvCheckpointFromDirectory d; EvReport metrics (Some d)] ∧
            fs w' = <[["tmp"] := Dir]> (fs w))).
  { intros (w' & Hrun & Hrep & Ht & Hfs)%wp_run. eexists w', _.
    split; [done|]. split; [done|]. split; [apply checkpoint_files_weights|done]. }
  unfold save_checkpoint_and_metrics_ray_train_first, with_TemporaryDirectory.
  repeat wp_step. apply wp_cleanup.
  wp_step. apply wp_torch_save; [done|by apply write_error_tmp|]. wsimpl.
  unfold Checkpoint_from_directory, ray_train_report. repeat wp_step.
  rewrite rmtree_tmp_saved by done. rewrite <- !app_assoc. done.
Qed.

End First_definition.

Section Builders.
Context `{T : Torch}.

(** ** The model builders *)

(** X15.  The model builders.  With no call failing, from the same random
    state, [build_resnet18] and [load_model_torch] return the same network
    and leave the same random state: its first convolution takes one
    channel and has no bias, its classifier has ten outputs, and it is in
    training mode.  [load_model_ray_train] builds that network too, with
    the same random state left, and returns it as it is in a job of one
    worker; wrapped for data-parallel training on rank 0 of a job of two
    workers or more; and on the other ranks of such a job wrapped, with
    the same layers, tensor names and shapes, and every tensor holding the
    values of rank 0's. *)
Theorem model_builders_agree (w : World) :
  faults w = [] →
  ∃ m w1 w2 w3 prepared,
    build_resnet18 w = (Ok m, w1) ∧
    load_model_torch w = (Ok m, w2) ∧
    load_model_ray_train w = (Ok prepared, w3) ∧
    rng w2 = rng w1 ∧ rng w3 = rng w1 ∧
    (world_size (context w) ≤ 1 → prepared = Unwrapped m) ∧
    (1 < world_size (context w) → world_rank (context w) = 0 →
     prepared = Wrapped (mkDDP m)) ∧
    (1 < world_size (context w) → world_rank (context w) ≠ 0 →
     ∃ m', prepared = Wrapped (mkDDP m') ∧
           conv1 m' = conv1 m ∧ fc m' = fc m ∧ training m' = training m ∧
           shape <$> state_dict m' = shape <$> state_dict m ∧
           ∀ name t, state_dict m' !! name = Some t → data t = rank0_data w name) ∧
    conv1 m = mkConv2d 1 64 (7, 7) (2, 2) (3, 3) false ∧
    shape <$> state_dict m !! "conv1.weight" = Some [64; 1; 7; 7] ∧
    state_dict m !! "conv1.bias" = None ∧
    out_features (fc m) = 10 ∧
    shape <$> state_dict m !! "fc.weight" = Some [10; 512] ∧
    training m = true.
Proof.
  intros Hf.
  destruct (wp_run build_resnet18 w (Ok (built_resnet18 (rng w)))
              (λ w', rng w' = rng_next (rng_next (rng w)))) as (w1 & H1 & Hr1).
  { by apply wp_build_resnet18. }
  destruct (wp_run load_model_torch w (Ok (built_resnet18 (rng w)))
              (λ w', rng w' = rng_next (rng_next (rng w)))) as (w2 & H2 & Hr2).
  { unfold load_model_torch. wp_step. apply wp_build_resnet18; [done|]. by repeat wp_step. }
  set (prepared :=
         if bool_decide (1 < world_size (context w))
         then Wrapped (mkDDP (ray_model (context w) (rank0_data w) (rng w)))
         else Unwrapped (built_resnet18 (rng w))).
  destruct (wp_run load_model_ray_train w (Ok prepared)
              (λ w', rng w' = rng_next (rng_next (rng w)))) as (w3 & H3 & Hr3).
  { unfold load_model_ray_train, resnet18, torch_nn_Conv2d, draw_rng, prepare_model, prepared.
    repeat wp_step. by destruct (bool_decide (1 < world_size (context w))); repeat wp_step. }
  exists (built_resnet18 (rng w)), w1, w2, w3, prepared.
  split; [done|]. split; [done|]. split; [done|].
  split; [congruence|]. split; [congruence|].
  split; [intros Hws; unfold prepared; by rewrite bool_decide_eq_false_2 by lia|].
  split.
  { intros Hws Hrank. unfold prepared, ray_model. by rewrite !bool_decide_eq_true_2 by done. }
  split.
  { intros Hws Hrank. unfold prepared, ray_model.
    rewrite bool_decide_eq_true_2 by done. rewrite bool_decide_eq_false_2 by done.
    eexists. split; [done|]. split; [done|]. split; [done|]. split; [done|].
    split; [apply map_data_shapes|].
    intros name t. unfold state_dict, map_data. cbn [tensors].
    rewrite map_lookup_imap. destruct (tensors _ !! name); simpl; [|done].
    by intros [= <-]. }
  unfold built_resnet18, set_conv1, Conv2d_init, state_dict. cbn [conv1 fc training tensors
    conv_cfg conv_weight conv_bias bias resnet18_init out_features].
  split; [done|]. split.
  { rewrite lookup_delete_ne by done. by rewrite lookup_insert_eq. }
  split; [apply lookup_delete_eq|]. split; [done|]. split; [|done].
  rewrite lookup_delete_ne by done. rewrite !lookup_insert_ne by done.
  by rewrite lookup_insert_eq.
Qed.

End Builders.

Section Even_shards.
Context `{T : Torch}.

(** ** The batches of a worker *)

Lemma strided_subseteq {A : Type} (n skip : nat) (l : list A) : strided n skip l ⊆ l.
Proof.
  revert skip. induction l as [|x l IH]; intros skip; simpl; [done|].
  destruct skip as [|k].
  - intros y [->|Hy]%elem_of_cons; [by left|]. right. by eapply IH.
  - intros y Hy. right. by eapply IH.
Qed.

Lemma shard_subseteq {A : Type} (n rank : nat) (l : list A) : shard n rank l ⊆ l.
Proof.
  unfold shard. intros x Hx%strided_subseteq. apply elem_of_take in Hx as (i & Hx & _).
  apply list_elem_of_lookup_2 in Hx. apply list_elem_of_join in Hx as (l0 & Hx & Hl0).
  by apply elem_of_replicate in Hl0 as [-> _].
Qed.

(** X16.  Every worker gets the same number of batches.  For a loader as
    [data_loader_ray_train] returns it (shuffling, dropping the last batch,
    with a distributed sampler), with no call failing: a pass of the
    worker of rank [rank] among [n], in whatever epoch, yields
    [ceil (N / n) // batch_size] batches, [N] being the size of the
    dataset, a number in which the rank and the epoch do not occur; every
    batch is full, and holds samples of the dataset only. *)
Theorem workers_get_the_same_number_of_batches (dl : DataLoader) (n rank epoch : Z) (w : World) :
  faults w = [] →
  sampler dl = DistributedSampler n rank epoch →
  drop_last dl = true →
  0 < batch_size dl →
  0 ≤ rank < n →
  ∃ batches w',
    iter_batches dl w = (Ok batches, w') ∧
    length batches
    = (((length (dataset dl) + Z.to_nat n - 1) `div` Z.to_nat n)
       `div` Z.to_nat (batch_size dl))%nat ∧
    Forall (λ b, length b = Z.to_nat (batch_size dl)) batches ∧
    concat batches ⊆ dataset dl.
Proof.
  intros Hf Hs Hd Hbs Hrank.
  destruct (wp_run (iter_batches dl) w (Ok (shard_batches dl n rank epoch)) (λ _, True))
    as (w' & Hrun & _).
  { by eapply wp_iter_batches_distributed. }
  exists (shard_batches dl n rank epoch), w'. split; [done|].
  split; [by apply shard_batches_length|].
  unfold shard_batches. rewrite Hd. split; [apply batch_sampler_full|].
  rewrite batch_sampler_concat by (simpl; lia). simpl.
  intros x Hx. apply elem_of_take in Hx as (i & Hx & _).
  apply list_elem_of_lookup_2, shard_subseteq in Hx.
  by rewrite random_order_Permutation in Hx.
Qed.

End Even_shards.

Section Timestamps.
Context `{T : Torch}.

(** ** The timestamped run directory *)

Lemma string_app_inj_length (a a' b b' : string) :
  String.length a = String.length a' → a +:+ b = a' +:+ b' → a = a' ∧ b = b'.
Proof.
  revert a'. induction a as [|c a IH]; intros [|c' a'] Hlen Heq; simpl in *; try done.
  injection Heq as -> Heq. injection Hlen as Hlen.
  by destruct (IH a' Hlen Heq) as [-> ->].
Qed.

Lemma year_length (y : Z) : 1000 ≤ y ≤ 9999 → String.length (pretty y) = 4%nat.
Proof.
  intros Hy. assert (y ∈ seqZ 1000 9000) as Hin by (apply elem_of_seqZ; lia).
  clear Hy. revert y Hin. apply Forall_forall.
  apply (bool_decide_unpack _). by vm_compute.
Qed.

Lemma two_digits_length (n : Z) : 0 ≤ n < 100 → String.length (two_digits n) = 2%nat.
Proof.
  intros Hn. assert (n ∈ seqZ 0 100) as Hin by (apply elem_of_seqZ; lia).
  clear Hn. revert n Hin. apply Forall_forall.
  apply (bool_decide_unpack _). by vm_compute.
Qed.

Lemma pretty_no_leading_zero (b : Z) (s : string) : 10 ≤ b < 100 → "0" +:+ s ≠ pretty b.
Proof.
  intros Hb Heq. assert (b ∈ seqZ 10 90) as Hin by (apply elem_of_seqZ; lia).
  assert (Forall (λ b : Z, String.get 0 (pretty b) ≠ Some (Ascii.ascii_of_nat 48)) (seqZ 10 90)) as Hfirst.
  { apply (bool_decide_unpack _). by vm_compute. }
  rewrite Forall_forall in Hfirst. apply (Hfirst b Hin). by rewrite <- Heq.
Qed.

Lemma two_digits_inj (a b : Z) : 0 ≤ a < 100 → 0 ≤ b < 100 → two_digits a = two_digits b → a = b.
Proof.
  intros Ha Hb. unfold two_digits.
  destruct (decide (a < 10)) as [Ha'|Ha'], (decide (b < 10)) as [Hb'|Hb'];
    rewrite ?(bool_decide_eq_true_2 (a < 10)), ?(bool_decide_eq_false_2 (a < 10)),
      ?(bool_decide_eq_true_2 (b < 10)), ?(bool_decide_eq_false_2 (b < 10)) by done.
  - intros Heq. simpl in Heq. injection Heq as Heq. by apply (inj pretty).
  - intros Heq. destruct (pretty_no_leading_zero b (pretty a)); [lia|done].
  - intros Heq. destruct (pretty_no_leading_zero a (pretty b)); [lia|done].
  - apply (inj pretty).
Qed.

(** Two moments that differ by a second or more have different
    timestamps. *)
Lemma strftime_inj (t1 t2 : datetime) :
  valid_datetime t1 → valid_datetime t2 → strftime t1 = strftime t2 → t1 = t2.
Proof.
  destruct t1 as [y1 m1 d1 h1 mi1 s1], t2 as [y2 m2 d2 h2 mi2 s2].
  unfold valid_datetime, strftime. cbn [year month day hour minute second].
  intros (Hy1 & Hm1 & Hd1 & Hh1 & Hmi1 & Hs1) (Hy2 & Hm2 & Hd2 & Hh2 & Hmi2 & Hs2) Heq.
  apply string_app_inj_length in Heq as [Hy Heq]; [|by rewrite !year_length].
  apply (inj (String.append "-")) in Heq.
  apply string_app_inj_length in Heq as [Hm Heq]; [|rewrite !two_digits_length; lia].
  apply (inj (String.append "-")) in Heq.
  apply string_app_inj_length in Heq as [Hd Heq]; [|rewrite !two_digits_length; lia].
  apply (inj (String.append "_")) in Heq.
  apply string_app_inj_length in Heq as [Hh Heq]; [|rewrite !two_digits_length; lia].
  apply (inj (String.append "-")) in Heq.
  apply string_app_inj_length in Heq as [Hmi Heq]; [|rewrite !two_digits_length; lia].
  apply (inj (String.append "-")) in Heq. rename Heq into Hs.
  apply (inj pretty) in Hy. apply two_digits_inj in Hm, Hd, Hh, Hmi, Hs; try lia.
  by subst.
Qed.

(** X17.  Runs started at different times do not share files.  Let two valid
    moments differ (by a second or more).  Their run directories differ,
    and, whatever the environment does, the run of the cell at the second
    moment leaves every entry of the run directory of the first as it
    was: the log, the weights, and anything else in it. *)
Theorem runs_at_different_times_do_not_share_files (t1 t2 : datetime) (w : World) :
  valid_datetime t1 → valid_datetime t2 → t1 ≠ t2 →
  cell_local_path t2 ≠ cell_local_path t1 ∧
  ∀ name, fs (cell_train_loop_torch t2 w).2 !! os_path_join (cell_local_path t1) name
          = fs w !! os_path_join (cell_local_path t1) name.
Proof.
  intros Hv1 Hv2 Hne.
  assert (cell_local_path t2 ≠ cell_local_path t1) as Hpath.
  { unfold cell_local_path. intros [= Heq]. apply Hne. symmetry. by apply strftime_inj. }
  split; [done|]. intros name.
  destruct (files_change_train_loop_torch 2 128 (cell_local_path t2) w)
    as (Hkeep & Hnew & _ & _).
  fold (cell_train_loop_torch t2) in Hkeep, Hnew.
  assert (∀ name', os_path_join (cell_local_path t1) name
                   ≠ os_path_join (cell_local_path t2) name') as Hother.
  { unfold os_path_join. intros name' [Heq _]%app_inj_1; [|done]. by apply Hpath. }
  destruct (fs w !! os_path_join (cell_local_path t1) name) as [x|] eqn:Hq.
  - by apply Hkeep.
  - destruct (Hnew _ Hq) as [Hn|[Heq|[Heq|[Hpre _]]]]; [done|by destruct (Hother _ Heq)..|].
    apply prefix_length in Hpre. unfold os_path_join in Hpre.
    rewrite length_app in Hpre. simpl in Hpre. lia.
Qed.

End Timestamps.

Section Failed_save.
Context `{T : Torch}.

(** ** A checkpoint write that fails half way *)

(** X18.  [torch.save] fails on its way for a reason of the environment (a
    full disk, say) after the two calls before it went through.  Then
    [save_checkpoint_and_metrics_torch] raises that exception with the row
    of the epoch already at the end of the log, where it stays, and with
    the weights file half written: the weights of the epoch before, if
    the file held them, are lost, and the reload cell cannot load what is
    left. *)
Theorem failed_save_leaves_the_row (metrics : Metrics) (m : resnet) (p : Path) (e : Exn)
    (fl : list (option Exn)) (w : World) :
  faults w = None :: None :: Some e :: fl →
  dir_ready (fs w) p →
  fs w !! os_path_join p "metrics.csv" ≠ Some Dir →
  fs w !! os_path_join p "model.pt" ≠ Some Dir →
  ∃ w',
    save_checkpoint_and_metrics_torch metrics m p w = (Raise e, w') ∧
    fs w' !! os_path_join p "metrics.csv"
    = Some (File (file_content (fs w) (os_path_join p "metrics.csv")
                  ++ [Text (csv_line (values metrics))])) ∧
    fs w' !! os_path_join p "model.pt" = Some (File [Partial]) ∧
    faults w' = fl ∧
    ∀ w1, fs w1 = fs w' → faults w1 = [] →
      (reload_checkpoint p w1).1 = Raise (LoadError (os_path_join p "model.pt")).
Proof.
  intros Hf Hd Hcsv Hpt.
  assert (os_path_join p "metrics.csv" ≠ os_path_join p "model.pt") as Hne
    by (intros H%os_path_join_inj; done).
  set (f1 := <[os_path_join p "metrics.csv" :=
                 File (file_content (fs w) (os_path_join p "metrics.csv")
                       ++ [Text (csv_line (values metrics))])]> (fs w)).
  set (f2 := <[os_path_join p "model.pt" := File [Partial]]> f1).
  assert (dir_ready f2 p) as Hd2 by (by do 2 apply dir_ready_insert).
  assert (write_error f1 (os_path_join p "model.pt") = None) as Hw1.
  { apply write_error_join; [by apply dir_ready_insert|]. unfold f1.
    by rewrite lookup_insert_ne. }
  cut (∃ w', save_checkpoint_and_metrics_torch metrics m p w = (Raise e, w') ∧
             fs w' = f2 ∧ faults w' = fl).
  { intros (w' & Hrun & Hfs & Hfl). exists w'. split; [done|].
    rewrite Hfs. unfold f2, f1. split; [|split; [|split; [done|]]].
    - rewrite lookup_insert_ne by done. by rewrite lookup_insert_eq.
    - by rewrite lookup_insert_eq.
    - intros w1 Hfs1 Hf1.
      destruct (wp_run (reload_checkpoint p) w1
                  (Raise (LoadError (os_path_join p "model.pt"))) (λ _, True))
        as (w2 & -> & _); [|done].
      unfold reload_checkpoint. wp_step. apply wp_build_resnet18; [done|]. wsimpl.
      unfold torch_load. repeat wp_step. rewrite Hfs1. fold f1. fold f2.
      rewrite dir_ready_path_error by done. unfold f2. rewrite lookup_insert_eq.
      by repeat wp_step. }
  pose proof (write_error_join _ _ "metrics.csv" Hd Hcsv) as Hw.
  unfold save_checkpoint_and_metrics_torch, open_append, writerow, torch_save, lib,
    lib_writing, torch_save_partial, mbind, M_bind, bind, get, modify, raise.
  simpl. rewrite Hf. simpl. rewrite Hw. unfold f2, f1, file_content in *.
  destruct (fs w !! os_path_join p "metrics.csv") as [[|c]|] eqn:Hq; [congruence|..]; simpl.
  - rewrite Hq. simpl. rewrite Hw1. by eexists.
  - rewrite lookup_insert_eq. simpl. rewrite insert_insert_eq. simpl in Hw1. rewrite Hw1.
    by eexists.
Qed.

End Failed_save.

Section Step_count.
Context `{T : Torch}.

(** ** How much a run does *)

Definition is_optimizer_step (ev : Event) : bool :=
  match ev with EvOptStep => true | _ => false end.

Definition is_mkdir (ev : Event) : bool :=
  match ev with EvMkdir _ => true | _ => false end.

Lemma filter_replicate_length (P : Event → bool) (l : list Event) (k : nat) :
  length (List.filter P (concat (replicate k l))) = (k * length (List.filter P l))%nat.
Proof.
  induction k as [|k IH]; simpl; [done|]. by rewrite List.filter_app, length_app, IH.
Qed.

Lemma filter_epochs_length {A : Type} (P : Event → bool) (f : A → list Event) (c : nat)
    (xs : list A) :
  (∀ x, length (List.filter P (f x)) = c) →
  length (List.filter P (concat (f <$> xs))) = (length xs * c)%nat.
Proof.
  intros Hc. induction xs as [|x xs IH]; [done|].
  rewrite fmap_cons. cbn [concat length].
  rewrite List.filter_app, length_app, IH, Hc. lia.
Qed.

(** X19.  The work of a run of [train_loop_torch] in which no call fails, over
    [num_epochs] epochs of a dataset of [N] samples: [num_epochs] times
    [N // batch_size] optimizer steps, and one [mkdir] and one
    [torch.save] per epoch. *)
Theorem train_loop_torch_step_count (num_epochs bs : Z) (p : Path) (w : World) :
  faults w = [] →
  (0 < Z.to_nat bs ≤ length (mnist w))%nat →
  (∃ f, mkdir_from [] p (fs w) = Ok f) →
  fs w !! os_path_join p "metrics.csv" ≠ Some Dir →
  fs w !! os_path_join p "model.pt" ≠ Some Dir →
  ∃ w' t,
    train_loop_torch num_epochs bs p w = (Ok tt, w') ∧
    trace w' = trace w ++ t ∧
    length (List.filter is_optimizer_step t)
    = (Z.to_nat num_epochs * (length (mnist w) `div` Z.to_nat bs))%nat ∧
    length (List.filter is_mkdir t) = Z.to_nat num_epochs ∧
    length (List.filter is_torch_save t) = Z.to_nat num_epochs.
Proof.
  intros Hf Hbs Hm Hcsv Hpt.
  destruct (train_loop_torch_calm num_epochs bs p w Hf Hbs Hm Hcsv Hpt)
    as (st & w' & Hrun & _ & _ & _ & _ & _ & _ & ms & Hms & _ & Ht & _).
  apply epoch_records_length in Hms. unfold range in Hms. rewrite length_seqZ in Hms.
  eexists w', _. split; [|split].
  - unfold train_loop_torch, mbind, M_bind, bind. by rewrite Hrun.
  - rewrite Ht, <- app_assoc. done.
  - cbn [dataset batch_size].
    set (k := (length (mnist w) `div` Z.to_nat bs)%nat).
    rewrite !List.filter_app, !length_app.
    rewrite (filter_epochs_length is_optimizer_step _ k),
      (filter_epochs_length is_mkdir _ 1%nat), (filter_epochs_length is_torch_save _ 1%nat).
    + rewrite Hms. simpl. lia.
    + intros m. unfold torch_epoch_events. rewrite !List.filter_app, !length_app.
      rewrite filter_replicate_length. simpl. lia.
    + intros m. unfold torch_epoch_events. rewrite !List.filter_app, !length_app.
      rewrite filter_replicate_length. simpl. lia.
    + intros m. unfold torch_epoch_events. rewrite !List.filter_app, !length_app.
      rewrite filter_replicate_length. simpl. lia.
Qed.

End Step_count.

Section Reports.
Context `{T : Torch}.

(** ** What a worker hands to [ray.train.report] *)

(** X20.  One report per epoch, in the order of the epochs.  For a worker of a
    job of two workers or more in which no call fails (the global batch
    size being at least the number of workers and at most the size of the
    dataset), and which had reported nothing before: the worker returns
    having made exactly [num_epochs] reports, the [k]-th of which carries
    the record of the keys loss, accuracy and epoch, in this order (not
    the order of the columns of the single-GPU log), with [k] for the
    epoch, and a checkpoint if and only if the rank is 0. *)
Theorem worker_reports_one_record_per_epoch (config : gmap string Z)
    (num_workers g num_epochs rank : Z) (w : World) :
  2 ≤ num_workers → 0 ≤ rank < num_workers →
  config !! "global_batch_size" = Some g →
  config !! "num_epochs" = Some num_epochs →
  faults w = [] → no_tmp (fs w) → reported w = [] →
  num_workers ≤ g ≤ Z.of_nat (length (mnist w)) →
  ∃ w',
    train_loop_ray_train config (worker_world num_workers rank w) = (Ok tt, w') ∧
    length (reported w') = Z.to_nat num_epochs ∧
    ∀ k : nat, (k < Z.to_nat num_epochs)%nat →
      ∃ l a checkpoint,
        reported w' !! k
        = Some ([("loss", CFloat l); ("accuracy", CFloat a); ("epoch", CInt (Z.of_nat k))],
                checkpoint) ∧
        (is_Some checkpoint ↔ rank = 0).
Proof.
  intros Hn Hrank Hg Hne Hf Hno Hrep Hsize.
  destruct (worker_run_calm config num_workers g num_epochs rank w)
    as (w' & rs & Hrun & <- & Hrs); [done..|].
  exists w'. split; [done|]. split.
  - rewrite <- (Forall2_length _ _ _ Hrs). unfold range. by rewrite length_seqZ.
  - intros k Hk.
    destruct (epoch_report_lookup _ _ _ k Hrs ltac:(lia)) as ([m ck] & Hlook & [l [a Hm]] & Hck).
    simpl in *. subst m. exists l, a, ck. split; [done|].
    destruct ck as [[d files]|].
    + destruct Hck as [-> _]. split; [done|]. by eexists.
    + split; [by intros [? ?]|done].
Qed.

End Reports.

(** * The theorems at work on the small instance *)

(** A job of two workers, two epochs, a global batch of four. *)
Definition toy_config : gmap string Z :=
  <["num_epochs" := 2]> (<["global_batch_size" := 4]> ∅).

(** The variables of the single-GPU loop before its first epoch. *)
Definition toy_locals : Locals := @torch_locals0 Toy.toy_torch 2 (Toy.samples 5) 0%nat.

(** Those of the worker of rank 1 of 2. *)
Definition toy_ray_locals : Locals :=
  @ray_locals0 Toy.toy_torch 2 (Toy.samples 5) (mkContext 1 2 0 1 0) (λ _, 0) 0%nat.

Lemma toy_no_tmp : @no_tmp Toy.toy_torch ∅.
Proof. intros q _ _. apply lookup_empty. Defined.

Lemma toy_fresh_dir : @fresh_dir Toy.toy_torch ∅ ["run"].
Proof. split; intros; by rewrite lookup_empty. Defined.

(** An out-of-memory error at the first optimizer step comes out of the
    loop as it is, and the step is the last thing done. *)
Example optimizer_step_failure_propagates :
  let run := train_loop_torch 2 2 ["run"]
               (Toy.world ∅ (Toy.samples 5)
                  (replicate 17 None ++ [Some (LibraryError "CUDA out of memory")])) in
  run.1 = Raise (LibraryError "CUDA out of memory") ∧
  last (trace run.2) = Some (EvRaise (LibraryError "CUDA out of memory")) ∧
  fs run.2 = ∅.
Proof. repeat split; reflexivity. Qed.

(** The first definition of [save_checkpoint_and_metrics_ray_train], had
    the loop run with it, would have every worker attach a checkpoint. *)
Example first_definition_checkpoints_everywhere :
  (λ run, (λ report, bool_decide (is_Some report.2)) <$> reported run.2)
  <$> TorchTrainer_fit (train_loop_ray_train_with save_checkpoint_and_metrics_ray_train_first)
        toy_config 2 (λ _, Toy.world ∅ (Toy.samples 5) [])
  = [[true; true]; [true; true]].
Proof. reflexivity. Qed.



(** The run of that one worker. *)
Example single_worker_run :
  let run := train_loop_ray_train toy_config
               (worker_world 1 0 (Toy.world ∅ (Toy.samples 5) [])) in
  run.1 = Raise (AttributeError "device") ∧ reported run.2 = [] ∧
  last (trace run.2) = Some (EvRaise (AttributeError "device")).
Proof. repeat split; reflexivity. Qed.

Lemma epoch_end_order_witness :
  (∃ st' w' t metrics,
     train_loop_torch_epoch ["run"] 0 toy_locals (Toy.world ∅ (Toy.samples 5) []) = (Ok st', w') ∧
     trace w' = t ∧
     List.filter is_epoch_end t
     = [EvPrint metrics; EvMetricReset;
        EvWriteRow (os_path_join ["run"] "metrics.csv") (csv_line (values metrics));
        EvTorchSave (os_path_join ["run"] "model.pt")]) ∧
  (∃ st' w' t metrics,
     train_loop_ray_train_epoch save_checkpoint_and_metrics_ray_train 0 toy_ray_locals
       (worker_world 2 1 (Toy.world ∅ (Toy.samples 5) [])) = (Ok st', w') ∧
     trace w' = t ∧
     List.filter is_epoch_end t = [EvReport metrics None; EvMetricReset] ∧
     emitted_saved_then_reset t).
Proof.
  split.
  - destruct (epoch_end_order 0 toy_locals (Toy.world ∅ (Toy.samples 5) []))
      as [Htorch _]; [reflexivity..|].
    destruct (Htorch eq_refl ltac:(simpl; lia) ["run"])
      as (st' & w' & t & metrics & Hrun & Ht & Hend).
    + exists Toy.run_dir. reflexivity.
    + cut (fs (Toy.world ∅ (Toy.samples 5) []) !! os_path_join ["run"] "metrics.csv" = None);
        [intros ->; discriminate|reflexivity].
    + cut (fs (Toy.world ∅ (Toy.samples 5) []) !! os_path_join ["run"] "model.pt" = None);
        [intros ->; discriminate|reflexivity].
    + exists st', w', t, metrics. split; [exact Hrun|]. split; [|exact Hend].
      rewrite Ht. reflexivity.
  - destruct (epoch_end_order 0 toy_ray_locals
                (worker_world 2 1 (Toy.world ∅ (Toy.samples 5) [])))
      as [_ Hray]; [reflexivity..|].
    destruct (Hray 2 1 0 eq_refl ltac:(lia) ltac:(simpl; lia) toy_no_tmp)
      as (st' & w' & t & metrics & d & Hrun & Ht & Hend & Horder).
    exists st', w', t, metrics. split; [exact Hrun|]. split; [|split; [exact Hend|exact Horder]].
    rewrite Ht. reflexivity.
Defined.

Lemma metrics_log_one_row_per_epoch_witness :
  ∃ w' (rows : list string),
    train_loop_torch 2 2 ["run"] (Toy.world ∅ (Toy.samples 5) []) = (Ok tt, w') ∧
    file_content (fs w') (os_path_join ["run"] "metrics.csv") = @Text Toy.toy_torch <$> rows ∧
    length rows = Z.to_nat 2 ∧
    ∃ row, rows !! 1%nat = Some row.
Proof.
  destruct (metrics_log_one_row_per_epoch 2 2 ["run"] (Toy.world ∅ (Toy.samples 5) []))
    as (w' & rows & Hrun & Hfile & _ & Hlen & Hrows).
  - reflexivity.
  - simpl. lia.
  - exact toy_fresh_dir.
  - exists w', rows. split; [exact Hrun|]. split; [exact Hfile|]. split; [exact Hlen|].
    destruct (Hrows 1%nat) as (l & _ & Hrow); [simpl; lia|].
    eexists. exact Hrow.
Defined.

(** The log of that run: in each row the loss of the last batch, which in
    the small instance is the sum of its images, then the epoch, then the
    accuracy, which there counts the samples of the epoch. *)
Example metrics_log_of_the_small_run :
  file_content (fs (train_loop_torch 2 2 ["run"] (Toy.world ∅ (Toy.samples 5) [])).2)
    ["run"; "metrics.csv"]
  = [Text ("6,0,4" +:+ crlf); Text ("6,1,4" +:+ crlf)].
Proof. reflexivity. Qed.

Lemma checkpoint_superseded_each_epoch_witness :
  ∃ st' w',
    train_loop_torch_epoch ["run"] 0 toy_locals
      (Toy.world (<[ ["run"; "model.pt"] := File [Text "stale"] ]> Toy.run_dir) (Toy.samples 5) [])
    = (Ok st', w') ∧
    fs w' !! os_path_join ["run"] "model.pt" = Some (File [Pickle (state_dict (model st'))]).
Proof.
  destruct (checkpoint_superseded_each_epoch ["run"] 0 toy_locals
              (Toy.world (<[ ["run"; "model.pt"] := File [Text "stale"] ]> Toy.run_dir)
                 (Toy.samples 5) []))
    as (st' & w' & t & Hrun & _ & _ & _ & Hfile).
  - reflexivity.
  - reflexivity.
  - reflexivity.
  - simpl. lia.
  - exists (<[ ["run"; "model.pt"] := File [Text "stale"] ]> Toy.run_dir). reflexivity.
  - cut (fs (Toy.world (<[ ["run"; "model.pt"] := File [Text "stale"] ]> Toy.run_dir)
               (Toy.samples 5) []) !! os_path_join ["run"] "metrics.csv" = None);
      [intros ->; discriminate|reflexivity].
  - cut (fs (Toy.world (<[ ["run"; "model.pt"] := File [Text "stale"] ]> Toy.run_dir)
               (Toy.samples 5) []) !! os_path_join ["run"] "model.pt"
         = Some (File [Text "stale"]));
      [intros ->; discriminate|reflexivity].
  - exists st', w'. split; [exact Hrun|exact Hfile].
Defined.

Lemma local_batch_size_is_floor_division_witness :
  ∃ t, trace (train_loop_ray_train toy_config
                (worker_world 3 1 (Toy.world ∅ (Toy.samples 5) []))).2 = t ∧
       (∀ b, EvDataLoader b ∈ t → b = 1) ∧
       (∀ q, EvCtx q ∈ t → q = GetWorldRank ∨ q = GetWorldSize).
Proof.
  destruct (local_batch_size_is_floor_division toy_config 4
              (worker_world 3 1 (Toy.world ∅ (Toy.samples 5) [])))
    as [(t & Ht & Hb & Hq) _].
  - reflexivity.
  - simpl. lia.
  - exists t. split; [|split; [exact Hb|exact Hq]]. rewrite Ht. reflexivity.
Defined.

Lemma checkpoint_reload_round_trip_witness :
  let m := @built_resnet18 Toy.toy_torch 7%nat in
  let w := Toy.world (<[ ["ckpt"] := Dir ]> ∅) [] [] in
  ∃ loaded w2,
    reload_checkpoint ["ckpt"]
      (torch_save (state_dict m) (os_path_join ["ckpt"] "model.pt") w).2
    = (Ok loaded, w2) ∧
    state_dict loaded = state_dict m ∧
    output_shape loaded [128; 1; 28; 28] = Some [128; 10].
Proof.
  intros m w.
  destruct (checkpoint_reload_round_trip m ["ckpt"] w
              (torch_save (state_dict m) (os_path_join ["ckpt"] "model.pt") w).2)
    as (loaded & w2 & Hrun & Hsd & _ & _ & _ & Hshape).
  - apply built_resnet18_shapes.
  - reflexivity.
  - reflexivity.
  - exists loaded, w2. split; [exact Hrun|]. split; [exact Hsd|]. apply Hshape.
Defined.

Lemma epoch_loss_is_last_batch_loss_witness :
  ∃ st' w',
    train_loop_torch_epoch ["run"] 0 toy_locals (Toy.world ∅ (Toy.samples 5) []) = (Ok st', w') ∧
    last (file_content (fs w') (os_path_join ["run"] "metrics.csv"))
    = Some (Text (csv_line [@CFloat Toy.toy_torch 9; @CInt Toy.toy_torch 0;
                            @CFloat Toy.toy_torch 4])).
Proof.
  destruct (epoch_loss_is_last_batch_loss ["run"] 0 toy_locals
              (Toy.world ∅ (Toy.samples 5) []) [[(1, 0); (3, 0)]] [(5, 0); (4, 0)])
    as (st' & w' & Hrun & _ & Hrow & _).
  - reflexivity.
  - reflexivity.
  - reflexivity.
  - reflexivity.
  - exists Toy.run_dir. reflexivity.
  - cut (fs (Toy.world ∅ (Toy.samples 5) []) !! os_path_join ["run"] "metrics.csv" = None);
      [intros ->; discriminate|reflexivity].
  - cut (fs (Toy.world ∅ (Toy.samples 5) []) !! os_path_join ["run"] "model.pt" = None);
      [intros ->; discriminate|reflexivity].
  - exists st', w'. split; [exact Hrun|]. exact Hrow.
Defined.

Lemma drop_last_batches_witness :
  ∃ dl w1,
    data_loader_torch 2 (Toy.world ∅ (Toy.samples 5) []) = (Ok dl, w1) ∧ drop_last dl = true.
Proof.
  destruct (drop_last_batches 2 (Toy.world ∅ (Toy.samples 5) []))
    as (dl & w1 & Hrun & Hdrop & _).
  - reflexivity.
  - lia.
  - exists dl, w1. split; [exact Hrun|exact Hdrop].
Defined.

Lemma metrics_log_is_appended_to_witness :
  ∃ w' (rows : list (list (@Cell Toy.toy_torch))),
    train_loop_torch 2 2 ["run"]
      (Toy.world (<[ ["run"; "metrics.csv"] := File [Text "earlier"] ]> Toy.run_dir)
         (Toy.samples 5) [])
    = (Ok tt, w') ∧
    length rows = Z.to_nat 2 ∧
    file_content (fs w') (os_path_join ["run"] "metrics.csv")
    = [Text "earlier"] ++ ((λ row, Text (csv_line row)) <$> rows).
Proof.
  destruct (metrics_log_is_appended_to ["run"] [Text "earlier"]
              (Toy.world (<[ ["run"; "metrics.csv"] := File [Text "earlier"] ]> Toy.run_dir)
                 (Toy.samples 5) []))
    as (_ & _ & Hloop).
  - reflexivity.
  - reflexivity.
  - reflexivity.
  - cut (fs (Toy.world (<[ ["run"; "metrics.csv"] := File [Text "earlier"] ]> Toy.run_dir)
               (Toy.samples 5) []) !! os_path_join ["run"] "model.pt" = None);
      [intros ->; discriminate|reflexivity].
  - destruct (Hloop 2 2) as (w' & rows & Hrun & Hlen & Hfile); [simpl; lia|].
    exists w', rows. split; [exact Hrun|]. split; [exact Hlen|exact Hfile].
Defined.

(** A configuration that gives the global batch size only. *)
Definition toy_config_no_epochs : gmap string Z := <["global_batch_size" := 4]> ∅.

Lemma config_keys_are_required_witness :
  (∃ w', train_loop_ray_train ∅ (Toy.world ∅ (Toy.samples 5) [])
         = (Raise (KeyError "global_batch_size"), w') ∧
         reported w' = reported (Toy.world ∅ (Toy.samples 5) [])) ∧
  (∃ w', train_loop_ray_train toy_config_no_epochs
           (worker_world 2 0 (Toy.world ∅ (Toy.samples 5) []))
         = (Raise (KeyError "num_epochs"), w') ∧
         reported w' = reported (worker_world 2 0 (Toy.world ∅ (Toy.samples 5) []))).
Proof.
  split.
  - destruct (config_keys_are_required ∅ (Toy.world ∅ (Toy.samples 5) [])) as [Hg _];
      [reflexivity|].
    destruct (Hg eq_refl) as (w' & Hrun & _ & Hrep & _).
    exists w'. split; [exact Hrun|exact Hrep].
  - destruct (config_keys_are_required toy_config_no_epochs
                (worker_world 2 0 (Toy.world ∅ (Toy.samples 5) [])))
      as [_ Hn]; [reflexivity|].
    destruct (Hn 4) as (w' & Hrun & _ & Hrep & _);
      [reflexivity|reflexivity|simpl; lia|reflexivity|].
    exists w'. split; [exact Hrun|exact Hrep].
Defined.

Lemma global_batch_smaller_than_world_witness :
  ∃ w', train_loop_ray_train toy_config (worker_world 5 1 (Toy.world ∅ (Toy.samples 5) []))
        = (Raise (ValueError
                    "batch_size should be a positive integer value, but got batch_size=0"),
           w') ∧
        reported w' = reported (worker_world 5 1 (Toy.world ∅ (Toy.samples 5) [])).
Proof.
  destruct (global_batch_smaller_than_world toy_config 4
              (worker_world 5 1 (Toy.world ∅ (Toy.samples 5) [])))
    as (w' & Hrun & _ & Hrep & _).
  - reflexivity.
  - reflexivity.
  - simpl. lia.
  - exists w'. split; [exact Hrun|exact Hrep].
Defined.

Lemma train_loop_torch_batch_size_not_positive_witness :
  ∃ w', train_loop_torch 2 0 ["run"] (Toy.world ∅ (Toy.samples 5) [])
        = (Raise (ValueError
                    "batch_size should be a positive integer value, but got batch_size=0"),
           w') ∧
        fs w' = fs (Toy.world ∅ (Toy.samples 5) []).
Proof.
  destruct (train_loop_torch_batch_size_not_positive 2 0 ["run"] (Toy.world ∅ (Toy.samples 5) []))
    as (w' & Hrun & _ & _ & Hfs).
  - reflexivity.
  - lia.
  - exists w'. split; [exact Hrun|exact Hfs].
Defined.

Lemma train_loop_ray_train_no_batch_witness :
  ∃ w', train_loop_ray_train toy_config (worker_world 2 1 (Toy.world ∅ (Toy.samples 1) []))
        = (Raise (UnboundLocalError "loss"), w') ∧
        reported w' = reported (worker_world 2 1 (Toy.world ∅ (Toy.samples 1) [])).
Proof.
  destruct (train_loop_ray_train_no_batch toy_config 4 2
              (worker_world 2 1 (Toy.world ∅ (Toy.samples 1) [])))
    as (w' & Hrun & _ & Hrep & _).
  - reflexivity.
  - reflexivity.
  - reflexivity.
  - lia.
  - simpl. lia.
  - simpl. lia.
  - reflexivity.
  - vm_compute. lia.
  - exists w'. split; [exact Hrun|exact Hrep].
Defined.

Lemma no_epoch_no_output_witness :
  ∃ w', train_loop_torch 0 2 ["run"] (Toy.world ∅ (Toy.samples 5) []) = (Ok tt, w') ∧
        fs w' = fs (Toy.world ∅ (Toy.samples 5) []).
Proof.
  destruct (no_epoch_no_output 0 (Toy.world ∅ (Toy.samples 5) [])) as [Htorch _].
  - reflexivity.
  - lia.
  - destruct (Htorch 2 ["run"]) as (w' & Hrun & _ & _ & Hfs); [lia|].
    exists w'. split; [exact Hrun|exact Hfs].
Defined.

(** A world in which [run] is a regular file. *)
Definition toy_run_file : gmap Path (@Node Toy.toy_torch) :=
  <[ ["run"] := File [Text "not a directory"] ]> ∅.

Lemma local_path_is_a_file_witness :
  ∃ w', train_loop_torch 2 2 (os_path_join [] "run") (Toy.world toy_run_file (Toy.samples 5) [])
        = (Raise (FileExistsError (os_path_join [] "run")), w') ∧
        fs w' = fs (Toy.world toy_run_file (Toy.samples 5) []).
Proof.
  destruct (local_path_is_a_file 2 2 [] "run" [Text "not a directory"]
              (Toy.world toy_run_file (Toy.samples 5) []))
    as (w' & metrics & Hrun & _ & Hfs & _).
  - reflexivity.
  - simpl. lia.
  - lia.
  - reflexivity.
  - reflexivity.
  - exists w'. split; [exact Hrun|exact Hfs].
Defined.

Lemma save_checkpoint_needs_the_directory_witness :
  (∃ w', save_checkpoint_and_metrics_torch Toy.metrics0 (@built_resnet18 Toy.toy_torch 0%nat)
           ["runs"; "today"] (Toy.world ∅ [] [])
         = (Raise (FileNotFoundError ["runs"; "today"; "metrics.csv"]), w') ∧
         fs w' = fs (Toy.world ∅ [] [])) ∧
  (∃ w', save_checkpoint_and_metrics_torch Toy.metrics0 (@built_resnet18 Toy.toy_torch 0%nat)
           ["run"; "today"] (Toy.world toy_run_file [] [])
         = (Raise (NotADirectoryError ["run"; "today"; "metrics.csv"]), w') ∧
         fs w' = fs (Toy.world toy_run_file [] [])).
Proof.
  split.
  - destruct (save_checkpoint_needs_the_directory Toy.metrics0
                (@built_resnet18 Toy.toy_torch 0%nat) [] "runs" ["today"] (Toy.world ∅ [] []))
      as [Hmissing _]; [reflexivity..|].
    destruct (Hmissing eq_refl) as (w' & Hrun & Hfs & _).
    exists w'. split; [exact Hrun|exact Hfs].
  - destruct (save_checkpoint_needs_the_directory Toy.metrics0
                (@built_resnet18 Toy.toy_torch 0%nat) [] "run" ["today"]
                (Toy.world toy_run_file [] []))
      as [_ Hfile]; [reflexivity..|].
    destruct (Hfile [Text "not a directory"] eq_refl) as (w' & Hrun & Hfs & _).
    exists w'. split; [exact Hrun|exact Hfs].
Defined.

(** A checkpoint directory that is there and empty. *)
Definition toy_ckpt_dir : gmap Path (@Node Toy.toy_torch) := <[ ["ckpt"] := Dir ]> ∅.

Lemma reload_checkpoint_errors_witness :
  (∃ w', reload_checkpoint ["ckpt"] (Toy.world toy_ckpt_dir [] [])
         = (Raise (FileNotFoundError (os_path_join ["ckpt"] "model.pt")), w') ∧
         fs w' = fs (Toy.world toy_ckpt_dir [] [])) ∧
  (∃ w', reload_checkpoint ["ckpt"]
           (Toy.world (<[ ["ckpt"; "model.pt"] := File [Text "stale"] ]> toy_ckpt_dir) [] [])
         = (Raise (LoadError (os_path_join ["ckpt"] "model.pt")), w')).
Proof.
  split.
  - destruct (reload_checkpoint_errors ["ckpt"] (Toy.world toy_ckpt_dir [] []))
      as [Hmissing _]; [reflexivity|reflexivity|].
    destruct (Hmissing eq_refl) as (w' & Hrun & Hfs & _).
    exists w'. split; [exact Hrun|exact Hfs].
  - destruct (reload_checkpoint_errors ["ckpt"]
                (Toy.world (<[ ["ckpt"; "model.pt"] := File [Text "stale"] ]> toy_ckpt_dir)
                   [] []))
      as (_ & Htext & _); [reflexivity|reflexivity|].
    destruct (Htext [Text "stale"] eq_refl) as (w' & Hrun & _).
    + intros sd H. discriminate H.
    + exists w'. exact Hrun.
Defined.

Lemma train_loop_torch_then_reload_witness :
  ∃ st w' loaded w2,
    train_loop_torch_locals 2 2 ["run"] (Toy.world ∅ (Toy.samples 5) []) = (Ok st, w') ∧
    reload_checkpoint ["run"] w' = (Ok loaded, w2) ∧
    state_dict loaded = state_dict (model st).
Proof.
  destruct (train_loop_torch_then_reload 2 2 ["run"] (Toy.world ∅ (Toy.samples 5) []))
    as (st & w' & loaded & w2 & Hrun & Hload & Hsd & _).
  - reflexivity.
  - simpl. lia.
  - exists Toy.run_dir. reflexivity.
  - cut (fs (Toy.world ∅ (Toy.samples 5) []) !! os_path_join ["run"] "metrics.csv" = None);
      [intros ->; discriminate|reflexivity].
  - cut (fs (Toy.world ∅ (Toy.samples 5) []) !! os_path_join ["run"] "model.pt" = None);
      [intros ->; discriminate|reflexivity].
  - lia.
  - exists st, w', loaded, w2. split; [exact Hrun|]. split; [exact Hload|exact Hsd].
Defined.

Lemma latest_checkpoint_is_trained_model_witness :
  ∃ st w' loaded w2,
    train_loop_ray_train_with save_checkpoint_and_metrics_ray_train toy_config
      (worker_world 2 0 (Toy.world ∅ (Toy.samples 5) [])) = (Ok st, w') ∧
    load_latest_checkpoint (reported w') (Toy.world (<[ ["tmp"] := Dir ]> ∅) [] [])
    = (Ok loaded, w2) ∧
    state_dict loaded = state_dict (model st).
Proof.
  destruct (latest_checkpoint_is_trained_model toy_config 4 2
              (worker_world 2 0 (Toy.world ∅ (Toy.samples 5) []))
              (Toy.world (<[ ["tmp"] := Dir ]> ∅) [] []))
    as (st & w' & loaded & w2 & Hrun & Hload & Hsd & _).
  - reflexivity.
  - exact toy_no_tmp.
  - reflexivity.
  - reflexivity.
  - lia.
  - reflexivity.
  - simpl. lia.
  - vm_compute. lia.
  - reflexivity.
  - reflexivity.
  - exists st, w', loaded, w2. split; [exact Hrun|]. split; [exact Hload|exact Hsd].
Defined.

Lemma train_loop_ray_train_leaves_no_file_witness :
  let w := worker_world 2 0
             (Toy.world ∅ (Toy.samples 5)
                (replicate 27 None ++ [Some (LibraryError "No space left on device")])) in
  last (trace (train_loop_ray_train toy_config w).2)
  = Some (EvRaise (LibraryError "No space left on device")) ∧
  (fs (train_loop_ray_train toy_config w).2 = fs w ∨
   fs (train_loop_ray_train toy_config w).2 = <[["tmp"] := Dir]> (fs w)).
Proof.
  intros w. split; [reflexivity|].
  apply (train_loop_ray_train_leaves_no_file toy_config w). exact toy_no_tmp.
Defined.

Lemma first_definition_checkpoints_on_every_worker_witness :
  let w := worker_world 2 1 (Toy.world ∅ [] []) in
  let m := mkDDP (@built_resnet18 Toy.toy_torch 0%nat) in
  ∃ w' files,
    save_checkpoint_and_metrics_ray_train_first m Toy.metrics0 w = (Ok tt, w') ∧
    reported w' = reported w ++ [(Toy.metrics0, Some (tmp_path (tmp_count w), files))].
Proof.
  intros w m.
  destruct (first_definition_checkpoints_on_every_worker m Toy.metrics0 w)
    as (w' & files & Hrun & Hrep & _).
  - reflexivity.
  - exact toy_no_tmp.
  - exists w', files. split; [exact Hrun|exact Hrep].
Defined.

Lemma model_builders_agree_witness :
  ∃ m w1 w3,
    build_resnet18 (Toy.world ∅ [] []) = (Ok m, w1) ∧
    load_model_ray_train (Toy.world ∅ [] []) = (Ok (Unwrapped m), w3).
Proof.
  destruct (model_builders_agree (Toy.world ∅ [] []))
    as (m & w1 & w2 & w3 & prepared & H1 & _ & H3 & _ & _ & Hone & _); [reflexivity|].
  exists m, w1, w3. split; [exact H1|]. rewrite H3, Hone; [reflexivity|]. simpl. lia.
Defined.

Lemma workers_get_the_same_number_of_batches_witness :
  let dl := @mkDataLoader Toy.toy_torch (Toy.samples 5) 2 true (DistributedSampler 2 1 0) in
  ∃ batches w',
    iter_batches dl (Toy.world ∅ [] []) = (Ok batches, w') ∧
    length batches = (((length (dataset dl) + Z.to_nat 2 - 1) `div` Z.to_nat 2)
                      `div` Z.to_nat (batch_size dl))%nat.
Proof.
  intros dl.
  destruct (workers_get_the_same_number_of_batches dl 2 1 0 (Toy.world ∅ [] []))
    as (batches & w' & Hrun & Hlen & _).
  - reflexivity.
  - reflexivity.
  - reflexivity.
  - reflexivity.
  - lia.
  - exists batches, w'. split; [exact Hrun|exact Hlen].
Defined.

Lemma runs_at_different_times_do_not_share_files_witness :
  let t1 := mkDatetime 2024 10 1 9 30 0 in
  let t2 := mkDatetime 2024 10 1 9 30 1 in
  cell_local_path t2 ≠ cell_local_path t1 ∧
  ∀ name, fs (cell_train_loop_torch t2 (Toy.world ∅ (Toy.samples 5) [])).2
            !! os_path_join (cell_local_path t1) name
          = fs (Toy.world ∅ (Toy.samples 5) []) !! os_path_join (cell_local_path t1) name.
Proof.
  intros t1 t2.
  apply (runs_at_different_times_do_not_share_files t1 t2 (Toy.world ∅ (Toy.samples 5) [])).
  - unfold valid_datetime. simpl. lia.
  - unfold valid_datetime. simpl. lia.
  - intros H. discriminate H.
Defined.

Lemma failed_save_leaves_the_row_witness :
  ∃ w',
    save_checkpoint_and_metrics_torch Toy.metrics0 (@built_resnet18 Toy.toy_torch 0%nat) ["run"]
      (Toy.world Toy.run_dir [] [None; None; Some (LibraryError "No space left on device")])
    = (Raise (LibraryError "No space left on device"), w') ∧
    fs w' !! os_path_join ["run"] "model.pt" = Some (File [Partial]).
Proof.
  destruct (failed_save_leaves_the_row Toy.metrics0 (@built_resnet18 Toy.toy_torch 0%nat) ["run"]
              (LibraryError "No space left on device") []
              (Toy.world Toy.run_dir [] [None; None; Some (LibraryError "No space left on device")]))
    as (w' & Hrun & _ & Hpt & _).
  - reflexivity.
  - reflexivity.
  - cut (fs (Toy.world Toy.run_dir [] [None; None; Some (LibraryError "No space left on device")])
           !! os_path_join ["run"] "metrics.csv" = None);
      [intros ->; discriminate|reflexivity].
  - cut (fs (Toy.world Toy.run_dir [] [None; None; Some (LibraryError "No space left on device")])
           !! os_path_join ["run"] "model.pt" = None);
      [intros ->; discriminate|reflexivity].
  - exists w'. split; [exact Hrun|exact Hpt].
Defined.

Lemma train_loop_torch_step_count_witness :
  ∃ w' t,
    train_loop_torch 2 2 ["run"] (Toy.world ∅ (Toy.samples 5) []) = (Ok tt, w') ∧
    trace w' = trace (Toy.world ∅ (Toy.samples 5) []) ++ t ∧
    length (List.filter is_optimizer_step t)
    = (Z.to_nat 2 * (length (mnist (Toy.world ∅ (Toy.samples 5) [])) `div` Z.to_nat 2))%nat.
Proof.
  destruct (train_loop_torch_step_count 2 2 ["run"] (Toy.world ∅ (Toy.samples 5) []))
    as (w' & t & Hrun & Ht & Hsteps & _).
  - reflexivity.
  - simpl. lia.
  - exists Toy.run_dir. reflexivity.
  - cut (fs (Toy.world ∅ (Toy.samples 5) []) !! os_path_join ["run"] "metrics.csv" = None);
      [intros ->; discriminate|reflexivity].
  - cut (fs (Toy.world ∅ (Toy.samples 5) []) !! os_path_join ["run"] "model.pt" = None);
      [intros ->; discriminate|reflexivity].
  - exists w', t. split; [exact Hrun|]. split; [exact Ht|exact Hsteps].
Defined.

Lemma worker_reports_one_record_per_epoch_witness :
  ∃ w',
    train_loop_ray_train toy_config (worker_world 2 1 (Toy.world ∅ (Toy.samples 5) []))
    = (Ok tt, w') ∧
    length (reported w') = Z.to_nat 2.
Proof.
  destruct (worker_reports_one_record_per_epoch toy_config 2 4 2 1
              (Toy.world ∅ (Toy.samples 5) []))
    as (w' & Hrun & Hlen & _).
  - lia.
  - lia.
  - reflexivity.
  - reflexivity.
  - reflexivity.
  - exact toy_no_tmp.
  - reflexivity.
  - simpl. lia.
  - exists w'. split; [exact Hrun|exact Hlen].
Defined.
